(** * MindFit: the study and wellness analytics engine of [utils.py]

    A shallow embedding of [analyze_sentiment], the sentiment fold of
    [new_study_session] ([app.py]), [generate_study_recommendations],
    [calculate_productivity_score] and [get_study_analytics], with the
    properties of the analytics specification stated over it.

    Conventions of the embedding.
    - The database behind the SQLAlchemy session / engine is a parameter: a
      [Store] holding the rows of [study_sessions] and [wellness_entries], and
      a [Dbms] for what SQL leaves to the storage engine: the order of rows
      of equal [created_at] under [ORDER BY], and the grouping of subjects
      under the collation of the column.
    - [datetime.utcnow()] is a parameter [now].  A datetime is the number of
      microseconds since the epoch (UTC), between [datetime.min] and
      [datetime.max]; a calendar date is its day ordinal, and the
      ['%Y-%m-%d'] rendering of a date, which is one-to-one on dates, is
      identified with that ordinal.
    - Numbers are exact rationals ([Q]); equalities between them are stated
      with [==].  [SUM] and [AVG] come back as [Decimal] and [COUNT] as
      [int], as with the configured [mysql+pymysql] driver.  Where Python
      types meet, in [calculate_productivity_score], a number carries its
      type ([number]).  The hours of [get_study_analytics], quotients of a
      [Decimal] by 60, and their sum are rounded to the 28 significant digits
      of the decimal context, as Python rounds them; the averages, and the
      [Decimal] sub-scores of [calculate_productivity_score], are taken
      exactly.
    - Python exceptions are explicit: code that can raise returns a
      [result]. *)

From Stdlib Require Import ZArith QArith Qround Qminmax Qabs Qpower Lia Lqa.
From stdpp Require Import base option list sorting gmap strings.

Local Open Scope Z_scope.

(** ** Python values and exceptions *)

Inductive exn : Type :=
  | ZeroDivisionError
  | OverflowError
  | TypeError
  | ClassifierError.

Inductive result (A : Type) : Type :=
  | Raise (e : exn)
  | Ok (a : A).
Arguments Raise {A} e.
Arguments Ok {A} a.

Definition bind {A B : Type} (m : result A) (k : A → result B) : result B :=
  match m with
  | Raise e => Raise e
  | Ok a => k a
  end.

Notation "'let*' x := m 'in' k" := (bind m (fun x => k))
  (at level 10, x name, m at level 100, k at level 200).

(** [[f(x) for x in l]], left to right. *)
Fixpoint comprehension {A B : Type} (f : A → result B) (l : list A) : result (list B) :=
  match l with
  | [] => Ok []
  | x :: l => let* y := f x in
              let* ys := comprehension f l in
              Ok (y :: ys)
  end.

(** [a / n] for a number [a] and a length [n]. *)
Definition truediv (a : Q) (n : nat) : result Q :=
  match n with
  | O => Raise ZeroDivisionError
  | S _ => Ok (a / inject_Z (Z.of_nat n))%Q
  end.

(** Truth value of an optional number: [None] and [0] are false. *)
Definition truthy (o : option Q) : bool :=
  match o with
  | None => false
  | Some q => negb (Qeq_bool q 0)
  end.

(** [round(x, ndigits)]: to the nearest multiple of [10^-ndigits], a tie going
    to the even one. *)
Definition round (x : Q) (ndigits : nat) : Q :=
  let scale := 10 ^ Z.of_nat ndigits in
  let s := (x * inject_Z scale)%Q in
  let f := Qfloor s in
  let n := match (s - inject_Z f ?= 1 # 2)%Q with
           | Lt => f
           | Gt => f + 1
           | Eq => if Z.even f then f else f + 1
           end in
  (inject_Z n / inject_Z scale)%Q.

(** [a > b] on numbers. *)
Definition Qgtb (a b : Q) : bool := negb (Qle_bool a b).

Definition sumZ (l : list Z) : Z := foldl Z.add 0 l.
Definition sumQ (l : list Q) : Q := foldl Qplus 0%Q l.

(** ** Typed numbers *)

(** A Python number with its type: an [int], a [float], or a [Decimal], the
    type in which the driver returns a [SUM] or an [AVG]. *)
Inductive number : Type :=
  | Int (z : Z)
  | Float (q : Q)
  | Decimal (q : Q).

Definition value (x : number) : Q :=
  match x with
  | Int z => inject_Z z
  | Float q | Decimal q => q
  end.

(** [a op b]: two [int]s give [int_op]; an [int] joins the type of the other
    operand; a [Decimal] and a [float] do not mix. *)
Definition binop (int_op : Z → Z → number) (op : Q → Q → Q) (a b : number) : result number :=
  match a, b with
  | Int x, Int y => Ok (int_op x y)
  | Int x, Float y => Ok (Float (op (inject_Z x) y))
  | Float x, Int y => Ok (Float (op x (inject_Z y)))
  | Float x, Float y => Ok (Float (op x y))
  | Int x, Decimal y => Ok (Decimal (op (inject_Z x) y))
  | Decimal x, Int y => Ok (Decimal (op x (inject_Z y)))
  | Decimal x, Decimal y => Ok (Decimal (op x y))
  | Decimal _, Float _ | Float _, Decimal _ => Raise TypeError
  end.

(** [a + b], [a - b], [a * b] and [a / b] *)
Definition add : number → number → result number :=
  binop (λ x y, Int (x + y)) Qplus.
Definition sub : number → number → result number :=
  binop (λ x y, Int (x - y)) Qminus.
Definition mul : number → number → result number :=
  binop (λ x y, Int (x * y)) Qmult.
Definition div (a b : number) : result number :=
  if Qeq_bool (value b) 0 then Raise ZeroDivisionError
  else binop (λ x y, Float (inject_Z x / inject_Z y)) Qdiv a b.

(** [v or d] for the scalar of a query: [None] and [0] give [d]. *)
Definition number_or (o : option number) (d : number) : number :=
  match o with
  | Some x => if Qeq_bool (value x) 0 then d else x
  | None => d
  end.

(** [min(a, b)] and [max(a, b)]: the first argument unless the second is
    strictly smaller, respectively greater. *)
Definition py_min (a b : number) : number :=
  if Qgtb (value a) (value b) then b else a.
Definition py_max (a b : number) : number :=
  if Qgtb (value b) (value a) then b else a.

(** [round(x, ndigits)] keeps the type of [x]. *)
Definition round_number (x : number) (ndigits : nat) : number :=
  match x with
  | Int z => Int z
  | Float q => Float (round q ndigits)
  | Decimal q => Decimal (round q ndigits)
  end.

(** ** The decimal context *)

(** The number of decimal digits of a positive integer. *)
Fixpoint digits_fuel (fuel : nat) (n : Z) : Z :=
  match fuel with
  | O => 1
  | S fuel => if n <? 10 then 1 else 1 + digits_fuel fuel (n `div` 10)
  end.
Definition digits (n : Z) : Z := digits_fuel (Z.to_nat (Z.log2 n)) n.

(** [10^e] for an exponent of either sign. *)
Definition pow10 (e : Z) : Q := (10 ^ e)%Q.

(** The exponent of the leading digit of [x], for [x] other than 0:
    [10^e <= |x| < 10^(e+1)]. *)
Definition adjusted (x : Q) : Z :=
  let a := Qabs x in
  let e := digits (Qnum a) - digits (Zpos (Qden a)) in
  if Qle_bool (pow10 e) a then e else e - 1.

(** [getcontext().prec] *)
Definition prec : Z := 28.

(** The rounding of a result by the context: to [prec] significant digits, a
    tie going to the even one. *)
Definition context_round (x : Q) : Q :=
  if Qeq_bool x 0 then 0%Q
  else let unit := pow10 (adjusted x - (prec - 1)) in
       (round (x / unit) 0 * unit)%Q.

(** [a / b] and [a + b] on [Decimal]s, an [int] operand being converted
    exactly. *)
Definition decimal_div (a b : Q) : Q := context_round (a / b).
Definition decimal_add (a b : Q) : Q := context_round (a + b).

(** [sum(xs)] over [Decimal]s and [int] zeros. *)
Definition decimal_sum (xs : list Q) : Q := foldl decimal_add 0%Q xs.

(** ** Time *)

Definition datetime := Z.

Definition usec_per_day : Z := 86400000000.

(** The length of [n] days. *)
Definition timedelta (days : Z) : Z := days * usec_per_day.

(** [func.date(t)] and [t.date()]: the calendar day of a datetime. *)
Definition date (t : datetime) : Z := t `div` usec_per_day.

(** [datetime.min], 0001-01-01 00:00:00, and [datetime.max],
    9999-12-31 23:59:59.999999. *)
Definition datetime_min : datetime := -62135596800000000.
Definition datetime_max : datetime := 253402300799999999.

Definition representable (t : Z) : Prop := datetime_min ≤ t ≤ datetime_max.

(** [timedelta(days=n)]: at most 999999999 days either way. *)
Definition timedelta_days (n : Z) : result Z :=
  if decide (-999999999 ≤ n ≤ 999999999) then Ok (timedelta n)
  else Raise OverflowError.

(** [t + delta] and [t - delta] on a datetime: the result is a datetime or
    the operation raises. *)
Definition datetime_add (t : datetime) (delta : Z) : result datetime :=
  if decide (representable (t + delta)) then Ok (t + delta)
  else Raise OverflowError.
Definition datetime_sub (t : datetime) (delta : Z) : result datetime :=
  if decide (representable (t - delta)) then Ok (t - delta)
  else Raise OverflowError.

(** ** The rows of [models.py] *)

Module StudySession.
Record t : Type := mk {
  user_id : Z;
  subject : string;
  duration : Z;
  sentiment_score : option Q;
  created_at : datetime
}.
End StudySession.

Module WellnessEntry.
Record t : Type := mk {
  user_id : Z;
  stress_level : Z;
  energy_level : Z;
  created_at : datetime
}.
End WellnessEntry.

Record Store : Type := mkStore {
  study_sessions : list StudySession.t;
  wellness_entries : list WellnessEntry.t
}.

(** ** SQL aggregates *)

Definition sql_sum (l : list Z) : option Q :=
  match l with
  | [] => None
  | _ => Some (inject_Z (sumZ l))
  end.

Definition sql_avg (l : list Q) : option Q :=
  match l with
  | [] => None
  | _ => Some (sumQ l / inject_Z (Z.of_nat (length l)))%Q
  end.

Definition sql_count_distinct (l : list Z) : Z :=
  Z.of_nat (length (remove_dups l)).

(** ** The storage engine *)

(** A row of [SELECT subject, SUM(duration) ... GROUP BY subject]. *)
Record SubjectRow : Type := mkSubjectRow {
  row_subject : string;
  subject_duration : Q
}.

(** What SQL leaves to the engine.
    - [ORDER BY created_at DESC] returns the rows newest first; the order of
      rows of equal [created_at] is the engine's.
    - [GROUP BY subject ORDER BY SUM(duration) DESC] returns one row per
      group of subjects that the collation of the column holds equal; which
      spelling labels a group and the order of equal sums are the
      engine's. *)
Record Dbms : Type := mkDbms {
  sessions_newest_first : list StudySession.t → list StudySession.t;
  entries_newest_first : list WellnessEntry.t → list WellnessEntry.t;
  subject_totals : list StudySession.t → list SubjectRow
}.

(** [ORDER BY created_at DESC] *)
Definition session_desc (a b : StudySession.t) : Prop :=
  StudySession.created_at b ≤ StudySession.created_at a.
Definition wellness_desc (a b : WellnessEntry.t) : Prop :=
  WellnessEntry.created_at b ≤ WellnessEntry.created_at a.

#[global] Instance session_desc_dec a b : Decision (session_desc a b) :=
  Z_le_dec _ _.
#[global] Instance wellness_desc_dec a b : Decision (wellness_desc a b) :=
  Z_le_dec _ _.

(** [ORDER BY SUM(duration) DESC] *)
Definition subject_desc (a b : SubjectRow) : Prop :=
  (subject_duration b <= subject_duration a)%Q.

#[global] Instance subject_desc_dec a b : Decision (subject_desc a b).
Proof.
  unfold subject_desc.
  destruct (Qlt_le_dec (subject_duration a) (subject_duration b)) as [Hlt | Hle].
  - right. intros Hle. exact (Qlt_not_le _ _ Hlt Hle).
  - left. exact Hle.
Defined.

(** [order] returns the rows it is given, sorted by [R]. *)
Definition sorts_by {A : Type} (R : relation A) (order : list A → list A) : Prop :=
  ∀ l, order l ≡ₚ l ∧ StronglySorted R (order l).

(** What every engine guarantees of the three operations: the two orderings
    return the selected rows, newest first, and each row of the grouped query
    is labelled by the subject of a selected session, the rows coming in
    descending order of their sums. *)
Record sql_semantics (db : Dbms) : Prop := {
  sessions_sorted : sorts_by session_desc (sessions_newest_first db);
  entries_sorted : sorts_by wellness_desc (entries_newest_first db);
  subjects_grouped :
    ∀ l, Forall (λ row, ∃ s, s ∈ l ∧ StudySession.subject s = row_subject row)
                (subject_totals db l)
         ∧ StronglySorted subject_desc (subject_totals db l)
}.

(** ** [calculate_productivity_score] *)

Section productivity.
Variables (user_id : Z) (session : Store) (now : datetime).

(** [now] is the time of the call, more than seven days after
    [datetime.min]. *)
Definition week_ago : datetime := now - timedelta 7.

Definition week_sessions : list StudySession.t :=
  filter (λ s, StudySession.user_id s = user_id
               ∧ week_ago ≤ StudySession.created_at s)
         (study_sessions session).

Definition week_wellness : list WellnessEntry.t :=
  filter (λ w, WellnessEntry.user_id w = user_id
               ∧ week_ago ≤ WellnessEntry.created_at w)
         (wellness_entries session).

Definition study_time : number :=
  number_or (Decimal <$> sql_sum (StudySession.duration <$> week_sessions)) (Int 0).

Definition study_score : result number :=
  let* hours := div study_time (Int 60) in
  let study_hours := py_min hours (Int 20) in
  let* share := div study_hours (Int 20) in
  mul share (Int 50).

(** [COUNT] is an [int] and never [NULL]: [count or 0] is the count. *)
Definition study_days : Z :=
  sql_count_distinct ((date ∘ StudySession.created_at) <$> week_sessions).

Definition consistency_score : result number :=
  let* share := div (Int study_days) (Int 7) in
  mul share (Int 30).

Definition avg_mood : number :=
  number_or
    (Decimal <$> sql_avg ((inject_Z ∘ WellnessEntry.stress_level) <$> week_wellness))
    (Int 5).

Definition mood_score : result number :=
  let* above := sub avg_mood (Int 1) in
  let* share := div above (Int 9) in
  let* rest := sub (Int 1) share in
  mul rest (Int 20).

Definition total_score : result number :=
  let* study_score := study_score in
  let* consistency_score := consistency_score in
  let* mood_score := mood_score in
  let* partial := add study_score consistency_score in
  add partial mood_score.

Definition calculate_productivity_score : result number :=
  let* total_score := total_score in
  Ok (py_min (Int 100) (py_max (Int 0) (round_number total_score 2))).
End productivity.

(** [m] returns a number, and its value satisfies [P]. *)
Definition returns (m : result number) (P : Q → Prop) : Prop :=
  ∃ x, m = Ok x ∧ P (value x).

(** ** [analyze_sentiment] and the sentiment fold of [new_study_session] *)

(** The dictionary [{"label": ..., "score": ...}]. *)
Record Sentiment : Type := mkSentiment {
  label : string;
  score : Q
}.

(** The Hugging Face pipeline: [sentiment_analyzer(text)[0]] gives a label and
    a confidence, or the call raises. *)
Definition pipeline := string → result (string * Q).

(** A computation together with the texts it passed to the classifier. *)
Definition traced (A : Type) : Type := (list string * A)%type.

Definition NEUTRAL : Sentiment := mkSentiment "NEUTRAL" (1 # 2).

Section sentiment.
(** [sentiment_analyzer] is [None] when [transformers] failed to import. *)
Variable sentiment_analyzer : option pipeline.

Definition analyze_sentiment (text : option string) : traced (result Sentiment) :=
  match text, sentiment_analyzer with
  | None, _ | Some EmptyString, _ | _, None => ([], Ok NEUTRAL)
  | Some text, Some classify =>
      ([text],
       match classify text with
       | Ok (l, s) =>
           Ok (mkSentiment l (if decide (l = "POSITIVE") then s else 1 - s)%Q)
       | Raise _ => Ok NEUTRAL
       end)
  end.

(** Lines 215 to 228 of [new_study_session]: the value of the expression
    given for [sentiment_score], for the stripped [notes] of the form. *)
Definition new_study_session_sentiment_score (notes : string) : traced (result Q) :=
  let '(calls, sentiment) :=
    match notes with
    | EmptyString => ([], Ok NEUTRAL)
    | _ => analyze_sentiment (Some notes)
    end in
  (calls,
   let* sentiment := sentiment in
   Ok (if decide (label sentiment = "POSITIVE")
       then score sentiment else - score sentiment)%Q).
End sentiment.

(** ** [generate_study_recommendations] *)

Record Recommendation : Type := mkRecommendation {
  type : string;
  title : string;
  message : string;
  priority : string
}.

Definition break_recommendation : Recommendation :=
  mkRecommendation "break" "Take Regular Breaks"
    "Your study sessions are quite long. Consider taking a 5-10 minute break every 50 minutes to maintain focus."
    "high".

Definition wellness_recommendation : Recommendation :=
  mkRecommendation "wellness" "High Stress Detected"
    "Your stress levels have been high. Try some relaxation techniques or take a short break."
    "high".

Definition general_tips : list Recommendation :=
  [ mkRecommendation "study" "Use Active Recall"
      "Try testing yourself on the material instead of just re-reading it. This improves retention."
      "medium";
    mkRecommendation "study" "Space Out Your Study Sessions"
      "Studying a little bit each day is more effective than cramming. Try the spacing effect!"
      "medium" ].

Section recommendations.
Variables (db : Dbms) (user_id : Z) (session : Store).

Definition recent_sessions : list StudySession.t :=
  take 5 (sessions_newest_first db
            (filter (λ s, StudySession.user_id s = user_id)
                    (study_sessions session))).

Definition recent_wellness : list WellnessEntry.t :=
  take 5 (entries_newest_first db
            (filter (λ w, WellnessEntry.user_id w = user_id)
                    (wellness_entries session))).

Definition generate_study_recommendations : result (list Recommendation) :=
  let recommendations : list Recommendation := [] in
  let* recommendations :=
    match recent_sessions with
    | [] => Ok recommendations
    | _ =>
        let* avg_duration :=
          truediv (inject_Z (sumZ (StudySession.duration <$> recent_sessions)))
                  (length recent_sessions) in
        if Qgtb avg_duration 60
        then Ok (recommendations ++ [break_recommendation])
        else Ok recommendations
    end in
  let* recommendations :=
    match recent_wellness with
    | [] => Ok recommendations
    | _ =>
        let* avg_stress :=
          truediv (inject_Z (sumZ (WellnessEntry.stress_level <$> recent_wellness)))
                  (length recent_wellness) in
        if Qgtb avg_stress 7
        then Ok (recommendations ++ [wellness_recommendation])
        else Ok recommendations
    end in
  match recommendations with
  | [] => Ok (recommendations ++ general_tips)
  | _ => Ok recommendations
  end.
End recommendations.

(** ** [get_study_analytics] *)

(** [range(n)] *)
Definition range (n : Z) : list Z := seqZ 0 n.

(** [GROUP BY key ORDER BY key]: one group per distinct key, keys ascending. *)
Definition group_by {A : Type} (key : A → Z) (rows : list A) : list (Z * list A) :=
  (λ k, (k, filter (λ a, key a = k) rows))
    <$> merge_sort Z.le (remove_dups (key <$> rows)).

(** [{key(row): value(row) for row in rows}] *)
Definition dict_of {A : Type} (key : A → Z) (value : A → Q) (rows : list A) : gmap Z Q :=
  foldl (λ d row, <[key row := value row]> d) ∅ rows.

(** [sum(filter(None, xs))] *)
Definition sum_truthy (xs : list (option Q)) : Q :=
  sumQ (omap (λ o, if truthy o then o else None) xs).

(** [len([s for s in xs if s is not None])] *)
Definition count_not_none (xs : list (option Q)) : nat :=
  length (filter (λ o : option Q, o ≠ None) xs).

(** [round(sum(filter(None, xs)) / len([s for s in xs if s is not None]), 1)
     if any(xs) else None], the sum and the quotient taken exactly. *)
Definition avg_or_none (xs : list (option Q)) : result (option Q) :=
  if existsb truthy xs
  then let* m := truediv (sum_truthy xs) (count_not_none xs) in
       Ok (Some (round m 1))
  else Ok None.

Record DailyRow : Type := mkDailyRow {
  daily_date : Z;
  total_duration : Q;
  avg_sentiment : option Q
}.

Record MoodRow : Type := mkMoodRow {
  mood_date : Z;
  row_avg_stress : Q;
  row_avg_energy : Q
}.

Record Analytics : Type := mkAnalytics {
  dates : list Z;
  study_hours : list Q;
  stress_levels : list (option Q);
  energy_levels : list (option Q);
  subjects_labels : list string;
  subjects_data : list Q;
  total_study_hours : Q;
  avg_stress : option Q;
  avg_energy : option Q
}.

Definition mean_of (f : WellnessEntry.t → Z) (g : list WellnessEntry.t) : Q :=
  (inject_Z (sumZ (f <$> g)) / inject_Z (Z.of_nat (length g)))%Q.

(** The three queries, between [start_date] and [end_date]. *)
Section queries.
Variables (db : Dbms) (user_id : Z) (start_date end_date : datetime) (engine : Store).

Definition window_sessions : list StudySession.t :=
  filter (λ s, StudySession.user_id s = user_id
               ∧ start_date ≤ StudySession.created_at s
               ∧ StudySession.created_at s ≤ end_date)
         (study_sessions engine).

Definition window_wellness : list WellnessEntry.t :=
  filter (λ w, WellnessEntry.user_id w = user_id
               ∧ start_date ≤ WellnessEntry.created_at w
               ∧ WellnessEntry.created_at w ≤ end_date)
         (wellness_entries engine).

(** A group has at least one row, so its [SUM] and its [AVG] of a non-null
    column are not [NULL]. *)
Definition daily_data : list DailyRow :=
  (λ '(d, g),
     mkDailyRow d (inject_Z (sumZ (StudySession.duration <$> g)))
                  (sql_avg (omap StudySession.sentiment_score g)))
    <$> group_by (date ∘ StudySession.created_at) window_sessions.

Definition mood_data : list MoodRow :=
  (λ '(d, g),
     mkMoodRow d (mean_of WellnessEntry.stress_level g)
                 (mean_of WellnessEntry.energy_level g))
    <$> group_by (date ∘ WellnessEntry.created_at) window_wellness.

Definition subjects : list SubjectRow := subject_totals db window_sessions.
End queries.

Definition get_study_analytics (db : Dbms) (user_id : Z) (days : Z)
    (engine : Store) (now : datetime) : result Analytics :=
  let end_date := now in
  let* delta := timedelta_days (days - 1) in
  let* start_date := datetime_sub end_date delta in
  let daily_data := daily_data user_id start_date end_date engine in
  let mood_data := mood_data user_id start_date end_date engine in
  let subjects := subjects db user_id start_date end_date engine in
  let* dates :=
    comprehension (λ i, let* delta := timedelta_days i in
                        let* day := datetime_add start_date delta in
                        Ok (date day))
                  (range days) in
  let study_data := dict_of daily_date (λ row, decimal_div (total_duration row) 60) daily_data in
  let mood_data_dict := dict_of mood_date row_avg_stress mood_data in
  let energy_data_dict := dict_of mood_date row_avg_energy mood_data in
  let study_hours := (λ d, default 0%Q (study_data !! d)) <$> dates in
  let stress_levels := (λ d, mood_data_dict !! d) <$> dates in
  let energy_levels := (λ d, energy_data_dict !! d) <$> dates in
  let subject_labels := row_subject <$> subjects in
  let subject_hours := (λ row, round (decimal_div (subject_duration row) 60) 1) <$> subjects in
  let* avg_stress := avg_or_none stress_levels in
  let* avg_energy := avg_or_none energy_levels in
  Ok (mkAnalytics dates study_hours stress_levels energy_levels
        subject_labels subject_hours
        (round (decimal_sum study_hours) 1) avg_stress avg_energy).

(** The window of [days] days that ends at [now]: [now], the time of the
    call, is a datetime, and so is its first instant
    [now - timedelta(days=days-1)]. *)
Definition window_start (days : Z) (now : datetime) : datetime :=
  now - timedelta (days - 1).

Definition window_representable (days : Z) (now : datetime) : Prop :=
  representable now ∧ representable (window_start days now).

(** ** The rules of the recommendation engine, over the query results *)

Definition mean_duration (l : list StudySession.t) : Q :=
  (inject_Z (sumZ (StudySession.duration <$> l)) / inject_Z (Z.of_nat (length l)))%Q.

(** The recent study sessions exist and last more than 60 minutes on average. *)
Definition long_sessions_rule (db : Dbms) (user_id : Z) (session : Store) : Prop :=
  recent_sessions db user_id session ≠ []
  ∧ (60 < mean_duration (recent_sessions db user_id session))%Q.

(** The recent wellness entries exist and their mean stress level is above 7. *)
Definition high_stress_rule (db : Dbms) (user_id : Z) (session : Store) : Prop :=
  recent_wellness db user_id session ≠ []
  ∧ (7 < mean_of WellnessEntry.stress_level (recent_wellness db user_id session))%Q.

(** ** The most recent rows of a table *)

(** [sel] is a choice of the [n] most recent of [rows], newest first: all of
    them when there are fewer, and no row left out is more recent than a row
    chosen.  Rows of equal [created_at] leave more than one choice. *)
Definition most_recent {A : Type} (created_at : A → datetime) (n : nat)
    (rows sel : list A) : Prop :=
  length sel = (n `min` length rows)%nat
  ∧ StronglySorted (λ a b, created_at b ≤ created_at a) sel
  ∧ ∃ older, sel ++ older ≡ₚ rows
             ∧ ∀ a o, a ∈ sel → o ∈ older → created_at o ≤ created_at a.

(** The wellness entries and the study sessions of a user. *)
Definition entries_of (user_id : Z) (session : Store) : list WellnessEntry.t :=
  filter (λ w, WellnessEntry.user_id w = user_id) (wellness_entries session).
Definition sessions_of (user_id : Z) (session : Store) : list StudySession.t :=
  filter (λ s, StudySession.user_id s = user_id) (study_sessions session).

(** ** The averages of a gap-filled series *)

(** The entries of a series that are not null. *)
Definition non_null (xs : list (option Q)) : list Q := omap id xs.

Definition mean (l : list Q) : Q :=
  (sumQ l / inject_Z (Z.of_nat (length l)))%Q.

(** The specification's reading of [avg_stress] and [avg_energy]: null exactly
    when the whole series is null, and the mean of the non-null entries
    otherwise. *)
Definition is_mean_of_non_null (xs : list (option Q)) (a : option Q) : Prop :=
  (a = None ↔ Forall (λ x, x = None) xs)
  ∧ (∀ q, a = Some q → (q == mean (non_null xs))%Q).

(** The same with the mean rounded to one decimal. *)
Definition is_rounded_mean_of_non_null (xs : list (option Q)) (a : option Q) : Prop :=
  (a = None ↔ Forall (λ x, x = None) xs)
  ∧ (∀ q, a = Some q → (q == round (mean (non_null xs)) 1)%Q).

(** Every non-null entry of the series is positive. *)
Definition positive_entries (xs : list (option Q)) : Prop :=
  Forall (λ o : option Q, ∀ q, o = Some q → (0 < q)%Q) xs.

(** Stress and energy levels on the 1 to 10 scale of [models.py]. *)
Definition on_scale (w : WellnessEntry.t) : Prop :=
  1 ≤ WellnessEntry.stress_level w ≤ 10 ∧ 1 ≤ WellnessEntry.energy_level w ≤ 10.

(** ** Sample data *)

(** An engine with a binary collation: subjects are grouped by their exact
    spelling. *)
Definition binary_subject_totals (l : list StudySession.t) : list SubjectRow :=
  merge_sort subject_desc
    ((λ sub,
        mkSubjectRow sub
          (inject_Z (sumZ (StudySession.duration
                             <$> filter (λ s, StudySession.subject s = sub) l))))
       <$> remove_dups (StudySession.subject <$> l)).

Definition binary_dbms : Dbms :=
  mkDbms (merge_sort session_desc) (merge_sort wellness_desc) binary_subject_totals.

(** Insertion of [x] before the first row that does not rank before it: rows
    of equal rank stay in the order of the list. *)
Fixpoint insert_sorted {A : Type} (R : relation A) `{!∀ x y, Decision (R x y)}
    (x : A) (l : list A) : list A :=
  match l with
  | [] => [x]
  | y :: l' => if decide (R x y) then x :: l else y :: insert_sorted R x l'
  end.

Definition insertion_sort {A : Type} (R : relation A) `{!∀ x y, Decision (R x y)}
    (l : list A) : list A :=
  foldr (insert_sorted R) [] l.

(** An engine that returns rows of equal [created_at] in the order of
    storage. *)
Definition storage_order_dbms : Dbms :=
  mkDbms (insertion_sort session_desc) (insertion_sort wellness_desc)
         binary_subject_totals.

Definition HOUR : Z := 3600000000.

(** The datetime [h] hours into day [d]. *)
Definition at_day (d h : Z) : datetime := d * usec_per_day + h * HOUR.

(** One 30 minute session a day on eight consecutive days, the first at 18:00
    on day 3 and the last at 09:00 on day 10; read at 12:00 on day 10. *)
Definition eight_days_store : Store :=
  mkStore
    [ StudySession.mk 1 "algebra" 30 None (at_day 3 18);
      StudySession.mk 1 "algebra" 30 None (at_day 4 18);
      StudySession.mk 1 "algebra" 30 None (at_day 5 18);
      StudySession.mk 1 "algebra" 30 None (at_day 6 18);
      StudySession.mk 1 "algebra" 30 None (at_day 7 18);
      StudySession.mk 1 "algebra" 30 None (at_day 8 18);
      StudySession.mk 1 "algebra" 30 None (at_day 9 18);
      StudySession.mk 1 "algebra" 30 None (at_day 10 9) ]
    [].

(** Rows older than a week, and rows of another user. *)
Definition stale_store : Store :=
  mkStore
    [ StudySession.mk 1 "history" 45 None (at_day 1 10);
      StudySession.mk 2 "physics" 120 None (at_day 9 10) ]
    [ WellnessEntry.mk 1 9 3 (at_day 2 8);
      WellnessEntry.mk 2 10 1 (at_day 10 8) ].

(** Three days of user 1: study on days 8 and 10, one wellness entry a day with
    stress levels 1, 2 and 2. *)
Definition three_days_store : Store :=
  mkStore
    [ StudySession.mk 1 "algebra" 90 None (at_day 8 13);
      StudySession.mk 1 "drawing" 30 None (at_day 8 15);
      StudySession.mk 1 "algebra" 45 None (at_day 10 1) ]
    [ WellnessEntry.mk 1 1 5 (at_day 8 13);
      WellnessEntry.mk 1 2 5 (at_day 9 13);
      WellnessEntry.mk 1 2 6 (at_day 10 11) ].

(** One minute of study on each of three days. *)
Definition three_minutes_store : Store :=
  mkStore
    [ StudySession.mk 1 "algebra" 1 None (at_day 8 13);
      StudySession.mk 1 "algebra" 1 None (at_day 9 13);
      StudySession.mk 1 "algebra" 1 None (at_day 10 1) ]
    [].

(** A single wellness entry, off the scale: stress level 0. *)
Definition zero_stress_store : Store :=
  mkStore [] [ WellnessEntry.mk 1 0 5 (at_day 10 11) ].

(** Five wellness entries of user 1 with the given stress levels, oldest
    first, one a day. *)
Definition stress_store (levels : list Z) : Store :=
  mkStore [] (imap (λ i v, WellnessEntry.mk 1 v 5 (at_day (Z.of_nat i) 20)) levels).

(** Six wellness entries of user 1 written in the same instant, the last of
    them calm. *)
Definition same_instant_store : Store :=
  mkStore [] ((λ v, WellnessEntry.mk 1 v 5 (at_day 10 11)) <$> [8; 8; 8; 8; 8; 2]).

(** Noon of 2026-11-03, day 20760 of the epoch. *)
Definition noon_2026_11_03 : datetime := at_day 20760 12.

(** A classifier that finds every text negative with confidence 0.9. *)
Definition sure_negative : pipeline := λ _, Ok ("NEGATIVE"%string, 9 # 10).

(** ** Readings of the analytics, over the rows of the window *)

(** The study sessions of a list that fall on calendar day [d]. *)
Definition sessions_on (d : Z) (l : list StudySession.t) : list StudySession.t :=
  filter (λ s, date (StudySession.created_at s) = d) l.

(** The wellness entries of a list that fall on calendar day [d]. *)
Definition entries_on (d : Z) (l : list WellnessEntry.t) : list WellnessEntry.t :=
  filter (λ w, date (WellnessEntry.created_at w) = d) l.

(** The minutes studied in a list of sessions. *)
Definition minutes (l : list StudySession.t) : Z :=
  sumZ (StudySession.duration <$> l).

(** * More of [utils.py] and [app.py] *)

(** ** [get_wellness_tips] *)

Module WellnessTip.
Record t : Type := mk {
  id : Z;
  title : string;
  content : string;
  category : string;
  min_stress_level : Z;
  max_stress_level : Z
}.
End WellnessTip.

(** The dictionary built for each tip. *)
Module Tip.
Record t : Type := mk {
  id : Z;
  title : string;
  content : string;
  category : string
}.
End Tip.

Definition tip_dict (tip : WellnessTip.t) : Tip.t :=
  Tip.mk (WellnessTip.id tip) (WellnessTip.title tip)
         (WellnessTip.content tip) (WellnessTip.category tip).

(** Truth value of an optional string: [None] and [""] are false. *)
Definition truthy_str (o : option string) : bool :=
  match o with
  | None | Some EmptyString => false
  | Some _ => true
  end.

Section wellness_tips.
(** The rows of [wellness_tips] behind [engine], in the order [query.all()]
    returns them; [str.lower]; and the database's [=] on the [category]
    column, which depends on its collation. *)
Variable engine : list WellnessTip.t.
Variable lower : string → string.
Variable sql_eq : string → string → bool.

(** The rows whose stress range covers [stress_level]. *)
Definition covering (stress_level : Z) : list WellnessTip.t :=
  filter (λ tip, WellnessTip.min_stress_level tip ≤ stress_level
                 ∧ stress_level ≤ WellnessTip.max_stress_level tip) engine.

(** The covering rows whose category is that of the request. *)
Definition in_category (stress_level : Z) (category : string) : list WellnessTip.t :=
  filter (λ tip, sql_eq (WellnessTip.category tip) (lower category) = true)
         (covering stress_level).

(** The body of the function, [self] standing for the recursive call. *)
Definition get_wellness_tips_body (self : Z → option string → list Tip.t)
    (stress_level : Z) (category : option string) : list Tip.t :=
  let query := covering stress_level in
  let query :=
    match category with
    | Some c =>
        if truthy_str category
        then filter (λ tip, sql_eq (WellnessTip.category tip) (lower c) = true) query
        else query
    | None => query
    end in
  let tips := tip_dict <$> query in
  match tips with
  | [] => if truthy_str category then self stress_level None else tips
  | _ => tips
  end.

(** The recursive call passes no category and so cannot recurse again: two
    unfoldings of the body are the function (see [get_wellness_tips_unfold]). *)
Definition get_wellness_tips (stress_level : Z) (category : option string) : list Tip.t :=
  get_wellness_tips_body (get_wellness_tips_body (λ _ _, [])) stress_level category.
End wellness_tips.

(** ** Tags of a study session ([api_create_session], [api_get_session]) *)

(** [s.split(sep)] for a one-character separator. *)
Fixpoint split (sep : Ascii.ascii) (s : string) : list string :=
  match s with
  | EmptyString => [EmptyString]
  | String c s' =>
      if Ascii.eqb c sep then EmptyString :: split sep s'
      else match split sep s' with
           | [] => [String c EmptyString]
           | w :: ws => String c w :: ws
           end
  end.

(** The character [,]. *)
Definition comma : Ascii.ascii :=
  Ascii.Ascii false false true true false true false false.

(** [','.join(tags)] *)
Definition tags_column (tags : list string) : string := String.concat "," tags.

(** [tags.split(',') if tags else []] for the nullable column [tags]. *)
Definition tags_of_column (tags : option string) : list string :=
  match tags with
  | Some s => if truthy_str tags then split comma s else []
  | None => []
  end.

(** The string has no comma. *)
Fixpoint comma_free (s : string) : Prop :=
  match s with
  | EmptyString => True
  | String c s' => c ≠ comma ∧ comma_free s'
  end.

(** ** Sessions by day of week ([api_get_session_stats]) *)

Definition days : list string :=
  ["Monday"; "Tuesday"; "Wednesday"; "Thursday"; "Friday"; "Saturday"; "Sunday"]%string.

(** The loop over the rows [(day_of_week, count)] of the grouped query. *)
Definition sessions_by_day_formatted (sessions_by_day : list (Z * Z)) : list Z :=
  foldl (λ formatted day,
           let idx := (day.1 - 2) `mod` 7 in
           <[Z.to_nat idx := day.2]> formatted)
        (replicate 7 0) sessions_by_day.

(** The slot [idx] of a day number. *)
Definition day_index (day_of_week : Z) : nat := Z.to_nat ((day_of_week - 2) `mod` 7).

(** [DAYOFWEEK] of the database: 1 is Sunday, 7 is Saturday. *)
Definition dayofweek_name (d : Z) : option string :=
  ["Sunday"; "Monday"; "Tuesday"; "Wednesday"; "Thursday"; "Friday"; "Saturday"]%string
    !! Z.to_nat (d - 1).

(** ** Mood labels ([study_sessions], [view_study_session]) *)

(** The ladder over the average mood of [study_sessions]. *)
Definition average_mood (avg_mood : option Q) : string :=
  match avg_mood with
  | Some avg_mood =>
      if Qle_bool avg_mood 1.5 then "Very Stressed"
      else if Qle_bool avg_mood 2.5 then "Stressed"
      else if Qle_bool avg_mood 3.5 then "Neutral"
      else if Qle_bool avg_mood 4.5 then "Relaxed"
      else "Very Relaxed"
  | None => "N/A"
  end.

Definition mood_texts : gmap Z string :=
  <[5 := "Very Relaxed"%string]> (<[4 := "Relaxed"%string]> (<[3 := "Neutral"%string]>
    (<[2 := "Stressed"%string]> (<[1 := "Very Stressed"%string]> ∅)))).

(** [mood_texts.get(mood_level, 'N/A')] *)
Definition mood_text (mood_level : Z) : string :=
  default "N/A"%string (mood_texts !! mood_level).

(** ** [is_valid_email] *)

(** Regular expressions over characters, with classes as predicates. *)
Inductive regex : Type :=
  | Void
  | Eps
  | Class (p : Ascii.ascii → bool)
  | Cat (r1 r2 : regex)
  | Alt (r1 r2 : regex)
  | Star (r : regex).

(** [r+] and [r{2,}] *)
Definition Plus (r : regex) : regex := Cat r (Star r).
Definition AtLeast2 (r : regex) : regex := Cat r (Cat r (Star r)).

(** The strings a regular expression denotes. *)
Inductive Matches : regex → list Ascii.ascii → Prop :=
  | Matches_eps : Matches Eps []
  | Matches_class p c : p c = true → Matches (Class p) [c]
  | Matches_cat r1 r2 s1 s2 :
      Matches r1 s1 → Matches r2 s2 → Matches (Cat r1 r2) (s1 ++ s2)
  | Matches_alt_l r1 r2 s : Matches r1 s → Matches (Alt r1 r2) s
  | Matches_alt_r r1 r2 s : Matches r2 s → Matches (Alt r1 r2) s
  | Matches_star_nil r : Matches (Star r) []
  | Matches_star_app r s1 s2 :
      Matches r s1 → Matches (Star r) s2 → Matches (Star r) (s1 ++ s2).

(** Matching by derivatives. *)
Fixpoint nullable (r : regex) : bool :=
  match r with
  | Void => false
  | Eps => true
  | Class _ => false
  | Cat r1 r2 => nullable r1 && nullable r2
  | Alt r1 r2 => nullable r1 || nullable r2
  | Star _ => true
  end.

Fixpoint deriv (c : Ascii.ascii) (r : regex) : regex :=
  match r with
  | Void => Void
  | Eps => Void
  | Class p => if p c then Eps else Void
  | Cat r1 r2 =>
      if nullable r1 then Alt (Cat (deriv c r1) r2) (deriv c r2)
      else Cat (deriv c r1) r2
  | Alt r1 r2 => Alt (deriv c r1) (deriv c r2)
  | Star r => Cat (deriv c r) (Star r)
  end.

Fixpoint fullmatch (r : regex) (s : list Ascii.ascii) : bool :=
  match s with
  | [] => nullable r
  | c :: s => fullmatch (deriv c r) s
  end.

(** The character of a one-character literal. *)
Definition chr (s : string) : Ascii.ascii :=
  match s with
  | String c _ => c
  | EmptyString => Ascii.zero
  end.

Definition newline : Ascii.ascii := Ascii.ascii_of_nat 10.

(** [c] is in the range [lo-hi] of a class. *)
Definition in_range (lo hi : string) (c : Ascii.ascii) : bool :=
  (Ascii.nat_of_ascii (chr lo) <=? Ascii.nat_of_ascii c)%nat
  && (Ascii.nat_of_ascii c <=? Ascii.nat_of_ascii (chr hi))%nat.

(** [c] is one of the characters listed in a class. *)
Definition one_of (chars : string) (c : Ascii.ascii) : bool :=
  existsb (Ascii.eqb c) (String.list_ascii_of_string chars).

(** [[a-zA-Z]], [[a-zA-Z0-9._%+-]] and [[a-zA-Z0-9.-]] *)
Definition letter (c : Ascii.ascii) : bool :=
  in_range "a" "z" c || in_range "A" "Z" c.
Definition local_char (c : Ascii.ascii) : bool :=
  in_range "a" "z" c || in_range "A" "Z" c || in_range "0" "9" c || one_of "._%+-" c.
Definition domain_char (c : Ascii.ascii) : bool :=
  in_range "a" "z" c || in_range "A" "Z" c || in_range "0" "9" c || one_of ".-" c.

(** [[a-zA-Z0-9._%+-]+@[a-zA-Z0-9.-]+\.[a-zA-Z]{2,}] *)
Definition pattern : regex :=
  Cat (Plus (Class local_char))
    (Cat (Class (Ascii.eqb (chr "@")))
       (Cat (Plus (Class domain_char))
          (Cat (Class (Ascii.eqb (chr ".")))
             (AtLeast2 (Class letter))))).

(** [re.match] anchors the pattern at the start, and [$] lets it end at the
    end of the string or just before a newline that ends the string: the
    whole string is matched against the pattern and an optional final
    newline. A string is read as its characters; a character outside ASCII is
    in none of the classes, whether it is taken as a code point or as its
    bytes. *)
Definition is_valid_email (email : string) : bool :=
  fullmatch (Cat pattern (Alt Eps (Class (Ascii.eqb newline))))
            (String.list_ascii_of_string email).

(** * Properties *)

(** ** Lists, sums and numbers *)

Lemma filter_none {A : Type} (P : A → Prop) `{!∀ x, Decision (P x)} (l : list A) :
  (∀ x, x ∈ l → ¬ P x) → filter P l = [].
Proof.
  induction l as [|a l IH]; intros Hl; [done|].
  rewrite filter_cons_False by (apply Hl; left).
  apply IH. intros x Hx. apply Hl. by right.
Qed.

Lemma Qgtb_lt (a b : Q) : Qgtb a b = true ↔ (b < a)%Q.
Proof.
  unfold Qgtb. rewrite negb_true_iff. split.
  - intros Hf. apply Qnot_le_lt. intros Hle.
    apply Qle_bool_iff in Hle. congruence.
  - intros Hlt. destruct (Qle_bool a b) eqn:E; [|done].
    apply Qle_bool_iff in E. exfalso. exact (Qlt_not_le _ _ Hlt E).
Qed.

Lemma Qgtb_le (a b : Q) : Qgtb a b = false ↔ (a <= b)%Q.
Proof.
  unfold Qgtb. rewrite negb_false_iff. apply Qle_bool_iff.
Qed.

Lemma foldl_Zadd (l : list Z) (a : Z) : foldl Z.add a l = a + sumZ l.
Proof.
  unfold sumZ. revert a. induction l as [|x l IH]; intros a; cbn [foldl]; [lia|].
  rewrite (IH (a + x)), (IH (0 + x)). lia.
Qed.

Lemma sumZ_cons (x : Z) (l : list Z) : sumZ (x :: l) = x + sumZ l.
Proof. unfold sumZ at 1. cbn [foldl]. by rewrite foldl_Zadd. Qed.

Lemma foldl_Qplus (l : list Q) (a : Q) : (foldl Qplus a l == a + sumQ l)%Q.
Proof.
  unfold sumQ. revert a. induction l as [|x l IH]; intros a; cbn [foldl].
  - ring.
  - rewrite (IH (a + x)%Q), (IH (0 + x)%Q). ring.
Qed.

Lemma sumQ_cons (x : Q) (l : list Q) : (sumQ (x :: l) == x + sumQ l)%Q.
Proof. unfold sumQ at 1. cbn [foldl]. rewrite foldl_Qplus. ring. Qed.

Lemma sumQ_inject_Z {A : Type} (f : A → Z) (l : list A) :
  (sumQ ((inject_Z ∘ f) <$> l) == inject_Z (sumZ (f <$> l)))%Q.
Proof.
  induction l as [|a l IH]; [reflexivity|].
  rewrite !fmap_cons, sumQ_cons, sumZ_cons, inject_Z_plus, IH. reflexivity.
Qed.

Lemma Qeq_bool_inject_Z (m : Z) : Qeq_bool (inject_Z m) 0 = true ↔ m = 0.
Proof. rewrite Qeq_bool_iff. unfold Qeq. simpl. lia. Qed.

(** Integer sums against a mean threshold. *)
Lemma mean_above (sum len b : Z) :
  0 < len →
  (inject_Z b < inject_Z sum / inject_Z len)%Q ↔ b * len < sum.
Proof.
  intros Hlen.
  assert (0 < inject_Z len)%Q as Hq
    by (change 0%Q with (inject_Z 0); by rewrite <- Zlt_Qlt).
  split.
  - intros Hlt. apply (Qmult_lt_r _ _ _ Hq) in Hlt.
    assert (inject_Z sum / inject_Z len * inject_Z len == inject_Z sum)%Q as E
      by (field; intros E0; rewrite E0 in Hq; by apply Qlt_irrefl in Hq).
    rewrite E, <- inject_Z_mult, <- Zlt_Qlt in Hlt. done.
  - intros Hlt. apply Qlt_shift_div_l; [done|].
    by rewrite <- inject_Z_mult, <- Zlt_Qlt.
Qed.

(** An average is 0 exactly when the sum is. *)
Lemma sql_avg_zero (xs : list Q) (q : Q) :
  sql_avg xs = Some q → (q == 0)%Q ↔ (sumQ xs == 0)%Q.
Proof.
  destruct xs as [|x xs]; [done|]. intros [= <-].
  match goal with |- context [(_ / ?d)%Q] => set (c := d) end.
  assert (¬ c == 0)%Q as Hlen by (unfold c, Qeq; simpl; lia).
  set (s := sumQ (x :: xs)).
  split; intros E.
  - transitivity (s / c * c)%Q; [by field|]. rewrite E. ring.
  - rewrite E. by field.
Qed.

(** ** The decimal context *)

Lemma digits_fuel_spec (fuel : nat) (n : Z) :
  1 ≤ n → n < 10 ^ (Z.of_nat fuel + 1) →
  1 ≤ digits_fuel fuel n ∧ 10 ^ (digits_fuel fuel n - 1) ≤ n < 10 ^ digits_fuel fuel n.
Proof.
  revert n. induction fuel as [|fuel IH]; intros n Hn Hfuel.
  - cbn [digits_fuel]. change (10 ^ (Z.of_nat 0 + 1)) with 10 in Hfuel.
    change (10 ^ (1 - 1)) with 1. change (10 ^ 1) with 10. lia.
  - cbn [digits_fuel]. destruct (Z.ltb_spec n 10) as [Hlt | Hge].
    + change (10 ^ (1 - 1)) with 1. change (10 ^ 1) with 10. lia.
    + assert (1 ≤ n `div` 10) as H1 by (apply Z.div_le_lower_bound; lia).
      assert (n `div` 10 < 10 ^ (Z.of_nat fuel + 1)) as H2.
      { apply Z.div_lt_upper_bound; [lia|].
        rewrite <- Z.pow_succ_r by lia.
        replace (Z.succ (Z.of_nat fuel + 1)) with (Z.of_nat (S fuel) + 1) by lia. done. }
      destruct (IH _ H1 H2) as (Hd & Hlo & Hhi).
      set (d := digits_fuel fuel (n `div` 10)) in *.
      replace (1 + d - 1) with (Z.succ (d - 1)) by lia.
      replace (1 + d) with (Z.succ d) by lia.
      rewrite !Z.pow_succ_r by lia.
      pose proof (Z.div_mod n 10 ltac:(lia)) as Hdiv.
      pose proof (Z.mod_pos_bound n 10 ltac:(lia)) as Hmod.
      lia.
Qed.

(** The fuel of [digits] is enough: [n] has [digits n] decimal digits. *)
Lemma digits_spec (n : Z) :
  1 ≤ n → 1 ≤ digits n ∧ 10 ^ (digits n - 1) ≤ n < 10 ^ digits n.
Proof.
  intros Hn. unfold digits. apply digits_fuel_spec; [done|].
  rewrite Z2Nat.id by apply Z.log2_nonneg.
  pose proof (Z.log2_spec n ltac:(lia)) as [_ Hlt].
  replace (Z.succ (Z.log2 n)) with (Z.log2 n + 1) in Hlt by lia.
  eapply Z.lt_le_trans; [exact Hlt|].
  apply Z.pow_le_mono_l. lia.
Qed.

Lemma digits_bounds (n : Z) :
  1 ≤ n → (pow10 (digits n - 1) <= inject_Z n ∧ inject_Z n < pow10 (digits n))%Q.
Proof.
  intros Hn. destruct (digits_spec n Hn) as (Hd & Hlo & Hhi). unfold pow10.
  change 10%Q with (inject_Z 10). rewrite <- !Zpower_Qpower by lia.
  by rewrite <- Zle_Qle, <- Zlt_Qlt.
Qed.

(** [adjusted x] is the exponent of the leading digit of [x]. *)
Lemma adjusted_spec (x : Q) :
  ¬ (x == 0)%Q →
  (pow10 (adjusted x) <= Qabs x ∧ Qabs x < pow10 (adjusted x + 1))%Q.
Proof.
  intros Hx. unfold adjusted. cbv zeta.
  set (a := Qabs x).
  assert (0 < a)%Q as Ha.
  { pose proof (Qabs_nonneg x) as Hnn. fold a in Hnn.
    apply Qle_lteq in Hnn as [Hlt | Heq]; [done|].
    exfalso. apply Hx.
    assert (Qabs x <= 0)%Q as H0 by (fold a; rewrite <- Heq; apply Qle_refl).
    apply Qabs_Qle_condition in H0 as [H1 H2]. by apply Qle_antisym. }
  assert (1 ≤ Qnum a) as Hn.
  { unfold Qlt in Ha. simpl in Ha. lia. }
  assert (1 ≤ Zpos (Qden a)) as Hd by lia.
  destruct (digits_bounds _ Hn) as [Hnlo Hnhi].
  destruct (digits_bounds _ Hd) as [Hdlo Hdhi].
  set (dn := digits (Qnum a)) in *. set (dd := digits (Zpos (Qden a))) in *.
  assert (a == inject_Z (Qnum a) / inject_Z (Zpos (Qden a)))%Q as Hfrac
    by (destruct a as [n d]; apply Qmake_Qdiv).
  assert (0 < inject_Z (Zpos (Qden a)))%Q as Hdpos by done.
  assert (∀ e, 0 < pow10 e)%Q as Hpos by (intros e; by apply Qpower_0_lt).
  assert (¬ (10 == 0)%Q) as H10 by done.
  assert (pow10 (dn - dd - 1) <= a)%Q as Hlo.
  { rewrite Hfrac. apply Qle_shift_div_l; [done|].
    apply Qle_trans with (pow10 (dn - dd - 1) * pow10 dd)%Q.
    - apply Qmult_le_l; [apply Hpos | by apply Qlt_le_weak].
    - unfold pow10. rewrite <- Qpower_plus by done.
      replace (dn - dd - 1 + dd) with (dn - 1) by lia. exact Hnlo. }
  assert (a < pow10 (dn - dd + 1))%Q as Hhi.
  { rewrite Hfrac. apply Qlt_shift_div_r; [done|].
    eapply Qlt_le_trans; [exact Hnhi|].
    apply Qle_trans with (pow10 (dn - dd + 1) * pow10 (dd - 1))%Q.
    - unfold pow10. rewrite <- Qpower_plus by done.
      replace (dn - dd + 1 + (dd - 1)) with dn by lia. apply Qle_refl.
    - apply Qmult_le_l; [apply Hpos | done]. }
  destruct (Qle_bool (pow10 (dn - dd)) a) eqn:Hcmp.
  - apply Qle_bool_iff in Hcmp. by split.
  - replace (dn - dd - 1 + 1) with (dn - dd) by lia. split; [done|].
    apply Qnot_le_lt. intros Hle. apply Qle_bool_iff in Hle. congruence.
Qed.

(** [round] goes to a nearest multiple of [10^-ndigits]. *)
Lemma round_nearest (x : Q) (n : nat) :
  (x - 1 / 2 / inject_Z (10 ^ Z.of_nat n) <= round x n
   ∧ round x n <= x + 1 / 2 / inject_Z (10 ^ Z.of_nat n))%Q.
Proof.
  unfold round. cbv zeta.
  set (c := inject_Z (10 ^ Z.of_nat n)).
  assert (0 < c)%Q as Hc.
  { unfold c. change 0%Q with (inject_Z 0). rewrite <- Zlt_Qlt.
    apply Z.pow_pos_nonneg; lia. }
  set (s := (x * c)%Q).
  pose proof (Qfloor_le s) as Hf1. pose proof (Qlt_floor s) as Hf2.
  rewrite inject_Z_plus in Hf2. change (inject_Z 1) with 1%Q in Hf2.
  assert (∀ k : Z, (s - (1 # 2) <= inject_Z k ∧ inject_Z k <= s + (1 # 2))%Q →
                   (x - 1 / 2 / c <= inject_Z k / c ∧ inject_Z k / c <= x + 1 / 2 / c)%Q)
    as Hdiv.
  { intros k [Hlo Hhi]. split.
    - apply Qle_shift_div_l; [done|].
      assert ((x - 1 / 2 / c) * c == s - (1 # 2))%Q as ->; [|done].
      unfold s. field. intros E. rewrite E in Hc. by apply Qlt_irrefl in Hc.
    - apply Qle_shift_div_r; [done|].
      assert ((x + 1 / 2 / c) * c == s + (1 # 2))%Q as ->; [|done].
      unfold s. field. intros E. rewrite E in Hc. by apply Qlt_irrefl in Hc. }
  apply Hdiv.
  destruct (Qcompare_spec (s - inject_Z (Qfloor s)) (1 # 2)) as [Heq | Hlt | Hgt].
  - destruct (Z.even (Qfloor s)); rewrite ?inject_Z_plus;
      change (inject_Z 1) with 1%Q; split; lra.
  - split; lra.
  - rewrite inject_Z_plus. change (inject_Z 1) with 1%Q. split; lra.
Qed.

(** The rounding of the context moves a number by at most half a unit of its
    28th significant digit. *)
Lemma context_round_nearest (x : Q) :
  ¬ (x == 0)%Q →
  (x - pow10 (adjusted x - (prec - 1)) / 2 <= context_round x
   ∧ context_round x <= x + pow10 (adjusted x - (prec - 1)) / 2)%Q.
Proof.
  intros Hx. unfold context_round.
  destruct (Qeq_bool x 0) eqn:E; [by apply Qeq_bool_iff in E|]. cbv zeta.
  set (u := pow10 (adjusted x - (prec - 1))).
  assert (0 < u)%Q as Hu by (by apply Qpower_0_lt).
  destruct (round_nearest (x / u) 0) as [Hlo Hhi].
  change (inject_Z (10 ^ Z.of_nat 0)) with 1%Q in Hlo, Hhi.
  assert (¬ (u == 0)%Q) as Hu0
    by (intros E0; rewrite E0 in Hu; by apply Qlt_irrefl in Hu).
  split.
  - apply Qle_trans with ((x / u - 1 / 2 / 1) * u)%Q.
    + apply Qle_lteq. right. by field.
    + apply Qmult_le_compat_r; [done | by apply Qlt_le_weak].
  - apply Qle_trans with ((x / u + 1 / 2 / 1) * u)%Q.
    + apply Qmult_le_compat_r; [done | by apply Qlt_le_weak].
    + apply Qle_lteq. right. by field.
Qed.

(** In relative terms: not more than half of [10^-27]. *)
Lemma context_round_close (x : Q) :
  (Qabs (context_round x - x) <= Qabs x * pow10 (1 - prec) / 2)%Q.
Proof.
  destruct (Qeq_bool x 0) eqn:E.
  - apply Qeq_bool_iff in E. unfold context_round.
    rewrite (proj2 (Qeq_bool_iff x 0) E).
    assert (Qabs (0 - x) == 0)%Q as -> by (by rewrite E).
    assert (Qabs x == 0)%Q as -> by (by rewrite E).
    apply Qle_lteq. right. unfold Qdiv. ring.
  - assert (¬ (x == 0)%Q) as Hx by (intros E0; apply Qeq_bool_iff in E0; congruence).
    destruct (context_round_nearest x Hx) as [Hlo Hhi].
    destruct (adjusted_spec x Hx) as [Hexp _].
    set (u := pow10 (adjusted x - (prec - 1))) in *.
    assert (u == pow10 (adjusted x) * pow10 (1 - prec))%Q as Hu.
    { unfold u, pow10. rewrite <- Qpower_plus by done.
      by replace (adjusted x + (1 - prec)) with (adjusted x - (prec - 1)) by lia. }
    assert (0 < pow10 (1 - prec))%Q as Hp by (by apply Qpower_0_lt).
    apply Qle_trans with (u / 2)%Q.
    + apply Qabs_Qle_condition. split; lra.
    + rewrite Hu. unfold Qdiv. apply Qmult_le_compat_r; [|done].
      apply Qmult_le_compat_r; [done | by apply Qlt_le_weak].
Qed.

(** Some quotients, as Python prints them. *)
Example decimal_quotients :
  (decimal_div 1 60 == 0.01666666666666666666666666667
   ∧ decimal_div 2 3 == 0.6666666666666666666666666667
   ∧ decimal_div 1000 7 == 142.8571428571428571428571429
   ∧ decimal_div 90 60 == 1.5
   ∧ decimal_div (-1) 3 == -0.3333333333333333333333333333)%Q.
Proof. by vm_compute. Qed.

(** ** Arithmetic on typed numbers *)

Lemma div_int_int (x y : Z) :
  y ≠ 0 → div (Int x) (Int y) = Ok (Float (inject_Z x / inject_Z y)).
Proof.
  intros Hy. unfold div. cbn [value].
  destruct (Qeq_bool (inject_Z y) 0) eqn:E; [by apply Qeq_bool_inject_Z in E | done].
Qed.

Lemma div_decimal_int (q : Q) (y : Z) :
  y ≠ 0 → div (Decimal q) (Int y) = Ok (Decimal (q / inject_Z y)).
Proof.
  intros Hy. unfold div. cbn [value].
  destruct (Qeq_bool (inject_Z y) 0) eqn:E; [by apply Qeq_bool_inject_Z in E | done].
Qed.

(** The final clamp. *)
Lemma clamp_between (x : number) :
  (0 <= value (py_min (Int 100) (py_max (Int 0) x)) <= 100)%Q.
Proof.
  unfold py_min, py_max.
  destruct (Qgtb (value x) (value (Int 0))) eqn:Hlo.
  - apply Qgtb_lt in Hlo. cbn [value] in Hlo.
    destruct (Qgtb (value (Int 100)) (value x)) eqn:Hhi.
    + apply Qgtb_lt in Hhi. cbn [value] in Hhi.
      split; by apply Qlt_le_weak.
    + split; discriminate.
  - destruct (Qgtb (value (Int 100)) (value (Int 0))) eqn:Hhi; split; discriminate.
Qed.

(** ** The productivity score *)

Section productivity_facts.
Variables (user_id : Z) (session : Store) (now : datetime).

Lemma week_sessions_none :
  (∀ s, s ∈ study_sessions session → StudySession.user_id s = user_id →
        StudySession.created_at s < now - timedelta 7) →
  week_sessions user_id session now = [].
Proof.
  intros Hold. apply filter_none. intros s Hs [Hu Hc].
  specialize (Hold s Hs Hu). unfold week_ago in Hc. lia.
Qed.

Lemma week_wellness_none :
  (∀ w, w ∈ wellness_entries session → WellnessEntry.user_id w = user_id →
        WellnessEntry.created_at w < now - timedelta 7) →
  week_wellness user_id session now = [].
Proof.
  intros Hold. apply filter_none. intros w Hw [Hu Hc].
  specialize (Hold w Hw Hu). unfold week_ago in Hc. lia.
Qed.

(** [SUM(duration) or 0]: the [int] 0 without minutes, their [Decimal] sum
    otherwise. *)
Lemma study_time_cases :
  (minutes (week_sessions user_id session now) = 0
   ∧ study_time user_id session now = Int 0)
  ∨ (minutes (week_sessions user_id session now) ≠ 0
     ∧ study_time user_id session now
       = Decimal (inject_Z (minutes (week_sessions user_id session now)))).
Proof.
  unfold study_time, minutes, sql_sum.
  destruct (StudySession.duration <$> week_sessions user_id session now)
    as [|z l]; [by left|].
  cbn [fmap option_fmap option_map number_or value].
  destruct (Qeq_bool (inject_Z (sumZ (z :: l))) 0) eqn:E.
  - left. split; [by apply Qeq_bool_inject_Z | done].
  - right. split; [|done]. intros Hm. apply Qeq_bool_inject_Z in Hm. congruence.
Qed.

(** The study-time score is one 24th of a point per minute, up to 1200
    minutes; it is a [Decimal] from 1 to 1200 minutes and a [float]
    otherwise. *)
Lemma study_score_cases :
  ((minutes (week_sessions user_id session now) = 0
    ∨ 1200 < minutes (week_sessions user_id session now))
   ∧ ∃ q, study_score user_id session now = Ok (Float q)
          ∧ (q == inject_Z (Z.min (minutes (week_sessions user_id session now)) 1200)
                  / 24)%Q)
  ∨ ((minutes (week_sessions user_id session now) ≠ 0
      ∧ minutes (week_sessions user_id session now) ≤ 1200)
     ∧ ∃ q, study_score user_id session now = Ok (Decimal q)
            ∧ (q == inject_Z (Z.min (minutes (week_sessions user_id session now)) 1200)
                    / 24)%Q).
Proof.
  unfold study_score.
  destruct study_time_cases as [[Hm ->] | [Hm ->]];
    set (m := minutes (week_sessions user_id session now)) in *.
  - left. split; [by left|]. eexists. split; [reflexivity|].
    rewrite Hm. by vm_compute.
  - rewrite div_decimal_int by done. cbn [bind]. unfold py_min. cbn [value].
    destruct (Qgtb (inject_Z m / inject_Z 60) (inject_Z 20)) eqn:Hcap.
    + apply Qgtb_lt in Hcap. apply (mean_above m 60 20) in Hcap; [|done].
      left. split; [right; lia|]. eexists. split; [reflexivity|].
      rewrite Z.min_r by lia. by vm_compute.
    + apply Qgtb_le in Hcap.
      assert (m ≤ 1200) as Hle.
      { destruct (decide (m ≤ 1200)) as [|Hgt]; [done|]. exfalso.
        assert (inject_Z 20 < inject_Z m / inject_Z 60)%Q as Hlt
          by (apply mean_above; [done | lia]).
        exact (Qlt_not_le _ _ Hlt Hcap). }
      right. split; [done|].
      rewrite div_decimal_int by done. cbn [bind mul binop].
      eexists. split; [reflexivity|]. rewrite Z.min_l by done.
      change (inject_Z 60) with 60%Q. change (inject_Z 20) with 20%Q.
      change (inject_Z 50) with 50%Q. field.
Qed.

(** The consistency score is a [float]. *)
Lemma consistency_score_float :
  consistency_score user_id session now
  = Ok (Float (inject_Z (study_days user_id session now) / inject_Z 7 * inject_Z 30)).
Proof. unfold consistency_score. by rewrite div_int_int. Qed.

(** [AVG(stress_level) or 5]: the [int] 5 without entries or when their
    stress levels add up to 0, their [Decimal] mean otherwise. *)
Lemma avg_mood_cases :
  (sumZ (WellnessEntry.stress_level <$> week_wellness user_id session now) = 0
   ∧ avg_mood user_id session now = Int 5)
  ∨ (sumZ (WellnessEntry.stress_level <$> week_wellness user_id session now) ≠ 0
     ∧ ∃ q, avg_mood user_id session now = Decimal q
            ∧ sql_avg ((inject_Z ∘ WellnessEntry.stress_level)
                         <$> week_wellness user_id session now) = Some q).
Proof.
  unfold avg_mood.
  pose proof (sumQ_inject_Z WellnessEntry.stress_level
                (week_wellness user_id session now)) as Hsum.
  set (total := sumZ (WellnessEntry.stress_level <$> week_wellness user_id session now))
    in *.
  assert (∀ q, (inject_Z total == q)%Q → q = 0%Q → total = 0) as Hz.
  { intros q E ->. unfold Qeq in E. simpl in E. lia. }
  destruct (sql_avg ((inject_Z ∘ WellnessEntry.stress_level)
                       <$> week_wellness user_id session now)) as [q|] eqn:Havg.
  - cbn [fmap option_fmap option_map number_or value].
    pose proof (sql_avg_zero _ _ Havg) as Hzero. rewrite Hsum in Hzero.
    destruct (Qeq_bool q 0) eqn:E.
    + left. split; [|done]. apply Qeq_bool_iff, Hzero in E. by apply (Hz 0%Q).
    + right. split; [|by exists q]. intros Ht.
      assert (q == 0)%Q as E0 by (apply Hzero; by rewrite Ht).
      apply Qeq_bool_iff in E0. congruence.
  - left. split; [|done]. unfold total.
    by destruct (week_wellness user_id session now).
Qed.

(** The mood score, from the average stress; it has the type of the
    average. *)
Lemma mood_score_cases :
  (avg_mood user_id session now = Int 5
   ∧ mood_score user_id session now
     = Ok (Float ((inject_Z 1 - inject_Z (5 - 1) / inject_Z 9) * inject_Z 20)))
  ∨ (∃ q, avg_mood user_id session now = Decimal q
          ∧ mood_score user_id session now
            = Ok (Decimal ((inject_Z 1 - (q - inject_Z 1) / inject_Z 9) * inject_Z 20))).
Proof.
  unfold mood_score.
  destruct avg_mood_cases as [[_ ->] | [_ (q & -> & _)]].
  - left. by split.
  - right. exists q. split; [done|].
    cbn [sub binop bind]. rewrite div_decimal_int by done. reflexivity.
Qed.

Lemma mood_score_value :
  returns (mood_score user_id session now)
    (λ v, v == (1 - (value (avg_mood user_id session now) - 1) / 9) * 20)%Q.
Proof.
  destruct mood_score_cases as [[-> ->] | (q & -> & ->)];
    eexists; (split; [reflexivity|]); cbn [value]; reflexivity.
Qed.
End productivity_facts.

(** C6: a user with no study session and no wellness entry in the last seven
    days gets a study-time score of 0, a consistency score of 0 and a mood
    score computed from the default average stress 5; the productivity score
    is returned and is [(1 - (5 - 1) / 9) * 20] rounded to two decimals, that
    is 11.11. *)
Theorem productivity_score_without_events (user_id : Z) (session : Store) (now : datetime) :
  (∀ s, s ∈ study_sessions session → StudySession.user_id s = user_id →
        StudySession.created_at s < now - timedelta 7) →
  (∀ w, w ∈ wellness_entries session → WellnessEntry.user_id w = user_id →
        WellnessEntry.created_at w < now - timedelta 7) →
  returns (study_score user_id session now) (λ v, v == 0)%Q
  ∧ returns (consistency_score user_id session now) (λ v, v == 0)%Q
  ∧ (value (avg_mood user_id session now) == 5)%Q
  ∧ returns (mood_score user_id session now) (λ v, v == (1 - (5 - 1) / 9) * 20)%Q
  ∧ returns (calculate_productivity_score user_id session now)
      (λ v, v == round ((1 - (5 - 1) / 9) * 20) 2 ∧ v == 11.11)%Q.
Proof.
  intros Hs Hw.
  apply week_sessions_none in Hs. apply week_wellness_none in Hw.
  unfold calculate_productivity_score, total_score, study_score, study_time,
    consistency_score, study_days, mood_score, avg_mood.
  rewrite Hs, Hw.
  split_and!; try (eexists; split; [reflexivity|]); by vm_compute.
Qed.

Lemma productivity_score_without_events_witness :
  returns (calculate_productivity_score 1 stale_store (at_day 10 12))
    (λ v, v == round ((1 - (5 - 1) / 9) * 20) 2 ∧ v == 11.11)%Q.
Proof.
  apply (productivity_score_without_events 1 stale_store (at_day 10 12)).
  - intros s Hs Hu. simpl in Hs.
    rewrite !elem_of_cons, elem_of_nil in Hs.
    destruct Hs as [-> | [-> | []]]; [reflexivity | discriminate Hu].
  - intros w Hw Hu. simpl in Hw.
    rewrite !elem_of_cons, elem_of_nil in Hw.
    destruct Hw as [-> | [-> | []]]; [reflexivity | discriminate Hu].
Defined.

(** C3, at a failing input: with one session on each of eight consecutive
    calendar days, all inside the [now - 7 days] window, the query counts
    [d = 8] distinct days and the consistency score is [8 / 7 * 30], above its
    stated maximum of 30. *)
Theorem consistency_score_counts_eight_days :
  (∀ s, s ∈ study_sessions eight_days_store →
        week_ago (at_day 10 12) ≤ StudySession.created_at s
        ∧ StudySession.created_at s ≤ at_day 10 12)
  ∧ study_days 1 eight_days_store (at_day 10 12) = 8
  ∧ returns (consistency_score 1 eight_days_store (at_day 10 12))
      (λ v, v == 8 / 7 * 30 ∧ 30 < v)%Q.
Proof.
  split; [|split; [by vm_compute|]].
  - intros s Hs. simpl in Hs.
    rewrite !elem_of_cons, elem_of_nil in Hs.
    repeat (destruct Hs as [-> | Hs]; [by vm_compute|]). destruct Hs.
  - eexists. split; [by vm_compute|]. by vm_compute.
Qed.

(** ** Sentiment *)

Section sentiment_facts.
Variable sentiment_analyzer : option pipeline.

(** Nothing reaches the classifier for a missing or empty text. *)
Lemma analyze_sentiment_no_text (text : option string) :
  text = None ∨ text = Some ""%string →
  analyze_sentiment sentiment_analyzer text = ([], Ok NEUTRAL).
Proof. intros [-> | ->]; reflexivity. Qed.

(** What the two folds make of a classifier answer. *)
Lemma stored_score_of_answer (classify : pipeline) (a : Ascii.ascii) (t l : string) (c : Q) :
  sentiment_analyzer = Some classify →
  classify (String a t) = Ok (l, c) →
  new_study_session_sentiment_score sentiment_analyzer (String a t)
  = ([String a t], Ok (if decide (l = "POSITIVE"%string) then c else - (1 - c))%Q).
Proof.
  intros -> Hc. unfold new_study_session_sentiment_score, analyze_sentiment.
  rewrite Hc. simpl. by destruct (decide (l = "POSITIVE"%string)).
Qed.

Lemma analyze_sentiment_returns (text : option string) :
  ∃ s, analyze_sentiment sentiment_analyzer text = ([], Ok NEUTRAL)
       ∨ (∃ classify t l c,
           sentiment_analyzer = Some classify ∧ text = Some t
           ∧ classify t = Ok (l, c)
           ∧ s = mkSentiment l (if decide (l = "POSITIVE"%string) then c else 1 - c)%Q
           ∧ analyze_sentiment sentiment_analyzer text = ([t], Ok s))
       ∨ ∃ t, analyze_sentiment sentiment_analyzer text = ([t], Ok NEUTRAL).
Proof.
  destruct text as [[|a t]|];
    [exists NEUTRAL; by left | | exists NEUTRAL; left; by destruct sentiment_analyzer].
  destruct sentiment_analyzer as [classify|] eqn:Ha;
    [|exists NEUTRAL; by left].
  destruct (classify (String a t)) as [e|[l c]] eqn:Hc.
  - exists NEUTRAL. right. right. exists (String a t). simpl. by rewrite Hc.
  - eexists. right. left. exists classify, (String a t), l, c.
    repeat split; [done|]. simpl. by rewrite Hc.
Qed.
End sentiment_facts.

(** C4, at the failing inputs: for empty notes, for a missing text and without
    a classifier nothing is raised and the classifier is not called, but the
    neutral result is [{"label": "NEUTRAL", "score": 0.5}] and the score that
    the fold of [new_study_session] computes for the session is -0.5, not
    0.0. *)
Theorem neutral_sentiment_is_stored_as_minus_half (sentiment_analyzer : option pipeline) :
  analyze_sentiment sentiment_analyzer None = ([], Ok NEUTRAL)
  ∧ analyze_sentiment sentiment_analyzer (Some ""%string) = ([], Ok NEUTRAL)
  ∧ (∀ text, analyze_sentiment None text = ([], Ok NEUTRAL))
  ∧ (score NEUTRAL == 1 # 2)%Q
  ∧ new_study_session_sentiment_score sentiment_analyzer "" = ([], Ok (- (1 # 2))%Q)
  ∧ (∀ notes, new_study_session_sentiment_score None notes = ([], Ok (- (1 # 2))%Q))
  ∧ ¬ (- (1 # 2) == 0)%Q.
Proof.
  repeat split; try done.
  - by intros [[|a t]|].
  - by intros [|a t].
Qed.

(** C5, at a failing input: when the classifier answers NEGATIVE with
    confidence 0.9, [analyze_sentiment] returns the score 1 - 0.9 and the
    fold of [new_study_session] computes -(1 - 0.9) = -0.1 for the session,
    not -0.9. *)
Theorem negative_confidence_is_folded_twice :
  ∃ q, new_study_session_sentiment_score (Some sure_negative) "a bad day"
       = (["a bad day"%string], Ok q)
       ∧ (q == - (1 # 10))%Q ∧ ¬ (q == - (9 # 10))%Q.
Proof. eexists. split; [reflexivity|]. by vm_compute. Qed.

(** C9: whatever the text and whatever the classifier does (any label, a
    confidence between 0 and 1, no classifier, or an exception),
    [analyze_sentiment] returns, with a score between 0 and 1, and the score
    computed for the new study session lies between -1 and 1. *)
Theorem sentiment_scores_bounded (sentiment_analyzer : option pipeline) :
  (∀ classify t l c, sentiment_analyzer = Some classify →
                     classify t = Ok (l, c) → (0 <= c <= 1)%Q) →
  (∀ text, ∃ s, (analyze_sentiment sentiment_analyzer text).2 = Ok s
                ∧ (0 <= score s <= 1)%Q)
  ∧ (∀ notes, ∃ q, (new_study_session_sentiment_score sentiment_analyzer notes).2 = Ok q
                   ∧ (-1 <= q <= 1)%Q).
Proof.
  intros Hconf.
  assert (Hana : ∀ text, ∃ s, (analyze_sentiment sentiment_analyzer text).2 = Ok s
                              ∧ (0 <= score s <= 1)%Q).
  { intros text.
    destruct (analyze_sentiment_returns sentiment_analyzer text)
      as (s & [H | [(classify & t & l & c & Ha & _ & Hc & -> & H) | (t & H)]]).
    - exists NEUTRAL. rewrite H. split; [done|]. simpl. lra.
    - eexists. rewrite H. split; [done|].
      specialize (Hconf classify t l c Ha Hc). simpl.
      destruct (decide (l = "POSITIVE"%string)); lra.
    - exists NEUTRAL. rewrite H. split; [done|]. simpl. lra. }
  split; [exact Hana|].
  intros notes. unfold new_study_session_sentiment_score.
  assert (Hfold : ∀ s, (0 <= score s <= 1)%Q →
            (-1 <= (if decide (label s = "POSITIVE"%string)
                    then score s else - score s) <= 1)%Q).
  { intros s Hs. destruct (decide (label s = "POSITIVE"%string)); lra. }
  destruct notes as [|a t].
  - eexists. split; [reflexivity|]. apply Hfold. simpl. lra.
  - destruct (Hana (Some (String a t))) as (s & Hs & Hb).
    destruct (analyze_sentiment sentiment_analyzer (Some (String a t)))
      as [calls r]. simpl in Hs. subst r.
    eexists. split; [reflexivity|]. by apply Hfold.
Qed.

Lemma sentiment_scores_bounded_witness :
  (∃ s, (analyze_sentiment (Some sure_negative) (Some "a bad day"%string)).2 = Ok s
        ∧ (0 <= score s <= 1)%Q)
  ∧ (∃ q, (new_study_session_sentiment_score (Some sure_negative) "a bad day").2 = Ok q
          ∧ (-1 <= q <= 1)%Q).
Proof.
  assert (Hconf : ∀ classify t l c, Some sure_negative = Some classify →
                    classify t = Ok (l, c) → (0 <= c <= 1)%Q).
  { intros classify t l c [= <-] [= _ <-]. split; discriminate. }
  destruct (sentiment_scores_bounded (Some sure_negative) Hconf) as [Ha Hn].
  split; [apply Ha | apply Hn].
Defined.

(** ** The storage engine *)

#[local] Instance session_desc_transitive : Transitive session_desc.
Proof. intros a b c. unfold session_desc. lia. Qed.
#[local] Instance session_desc_total : Total session_desc.
Proof. intros a b. unfold session_desc. lia. Qed.
#[local] Instance wellness_desc_transitive : Transitive wellness_desc.
Proof. intros a b c. unfold wellness_desc. lia. Qed.
#[local] Instance wellness_desc_total : Total wellness_desc.
Proof. intros a b. unfold wellness_desc. lia. Qed.
#[local] Instance subject_desc_transitive : Transitive subject_desc.
Proof. intros a b c Hab Hbc. unfold subject_desc in *. by apply (Qle_trans _ _ _ Hbc). Qed.
#[local] Instance subject_desc_total : Total subject_desc.
Proof.
  intros a b. unfold subject_desc.
  destruct (Qlt_le_dec (subject_duration a) (subject_duration b)) as [Hlt | Hle];
    [right; by apply Qlt_le_weak | by left].
Qed.

Lemma merge_sort_sorts {A : Type} (R : relation A) `{!∀ x y, Decision (R x y)}
    `{!Transitive R, !Total R} :
  sorts_by R (merge_sort R).
Proof.
  intros l. split; [apply merge_sort_Permutation | by apply StronglySorted_merge_sort].
Qed.

(** The sample engine is an engine. *)
Lemma binary_dbms_semantics : sql_semantics binary_dbms.
Proof.
  split; [apply merge_sort_sorts; apply _ | apply merge_sort_sorts; apply _ |].
  intros l. unfold binary_dbms, binary_subject_totals. cbn [subject_totals]. split.
  - apply Forall_forall. intros row Hrow.
    rewrite merge_sort_Permutation in Hrow.
    apply list_elem_of_fmap in Hrow as (sub & -> & Hsub).
    apply elem_of_remove_dups, list_elem_of_fmap in Hsub as (s & -> & Hs).
    by exists s.
  - apply StronglySorted_merge_sort; apply _.
Qed.

Section insertion_sort_facts.
Context {A : Type} (R : relation A) `{!∀ x y, Decision (R x y)}.
Context `{!Transitive R, !Total R}.

Lemma insert_sorted_Permutation (x : A) (l : list A) : insert_sorted R x l ≡ₚ x :: l.
Proof.
  induction l as [|y l IH]; [done|]. cbn [insert_sorted].
  destruct (decide (R x y)); [done|]. by rewrite IH, Permutation_swap.
Qed.

Lemma insert_sorted_StronglySorted (x : A) (l : list A) :
  StronglySorted R l → StronglySorted R (insert_sorted R x l).
Proof.
  induction 1 as [|y l Hl IH Hy]; [by repeat constructor|]. cbn [insert_sorted].
  destruct (decide (R x y)) as [Hxy | Hxy].
  - constructor; [by constructor|]. constructor; [done|].
    eapply Forall_impl; [exact Hy|]. intros z Hz. by transitivity y.
  - constructor; [done|]. rewrite insert_sorted_Permutation.
    constructor; [|done]. by destruct (total R x y).
Qed.

Lemma insertion_sort_sorts : sorts_by R (insertion_sort R).
Proof.
  intros l. unfold insertion_sort. induction l as [|x l [IHp IHs]]; [by split; [|constructor]|].
  cbn [foldr]. split.
  - by rewrite insert_sorted_Permutation, IHp.
  - by apply insert_sorted_StronglySorted.
Qed.
End insertion_sort_facts.

Lemma storage_order_dbms_semantics : sql_semantics storage_order_dbms.
Proof.
  split; [apply insertion_sort_sorts; apply _ | apply insertion_sort_sorts; apply _ |].
  apply (subjects_grouped binary_dbms binary_dbms_semantics).
Qed.

(** [ORDER BY ... LIMIT n]: the rows kept and the rows cut off. *)
Lemma limit_keeps_the_first {A : Type} (R : relation A) (order : list A → list A)
    (n : nat) (l : list A) :
  sorts_by R order →
  length (take n (order l)) = (n `min` length l)%nat
  ∧ StronglySorted R (take n (order l))
  ∧ take n (order l) ++ drop n (order l) ≡ₚ l
  ∧ ∀ x y, x ∈ take n (order l) → y ∈ drop n (order l) → R x y.
Proof.
  intros Horder. destruct (Horder l) as [Hperm Hsort].
  assert (StronglySorted R (take n (order l) ++ drop n (order l)))
    as Hsorted by (by rewrite take_drop).
  split_and!.
  - by rewrite length_take, (Permutation_length Hperm).
  - by apply StronglySorted_app_1_l in Hsorted.
  - by rewrite take_drop.
  - intros x y Hx Hy. exact (StronglySorted_app_1_elem_of _ _ _ x y Hsorted Hx Hy).
Qed.

Section most_recent_facts.
Context {A : Type} (created_at : A → datetime) (n : nat) (rows sel : list A).
Hypothesis selection : most_recent created_at n rows sel.

Lemma most_recent_elem (x : A) : x ∈ sel → x ∈ rows.
Proof using selection.
  destruct selection as (_ & _ & older & Hperm & _).
  intros Hx. rewrite <- Hperm. apply elem_of_app. by left.
Qed.

Lemma most_recent_nil : (0 < n)%nat → sel = [] ↔ rows = [].
Proof using selection.
  destruct selection as (Hlen & _). intros Hn. split.
  - intros ->. cbn in Hlen. destruct rows; [done | cbn in Hlen; lia].
  - intros Hrows. rewrite Hrows in Hlen. cbn in Hlen.
    apply length_zero_iff_nil. lia.
Qed.

(** With at most [n] rows, all of them are chosen. *)
Lemma most_recent_all : (length rows ≤ n)%nat → sel ≡ₚ rows.
Proof using selection.
  destruct selection as (Hlen & _ & older & Hperm & _). intros Hn.
  pose proof (Permutation_length Hperm) as Hl. rewrite length_app in Hl.
  assert (older = []) as -> by (apply length_zero_iff_nil; lia).
  by rewrite app_nil_r in Hperm.
Qed.
End most_recent_facts.

(** ** Recommendations *)

(** A rule did not fire: no rows, or the mean is under the threshold. *)
Ltac rule_off :=
  let Hne := fresh in
  let Hlt := fresh in
  intros [Hne Hlt];
  first [ by destruct Hne | apply Qgtb_lt in Hlt; congruence ].

(** A rule fired. *)
Ltac rule_on := by apply Qgtb_lt.

Section recommendation_facts.
Variables (db : Dbms) (user_id : Z) (session : Store).
Hypothesis engine : sql_semantics db.

(** The two queries return the user's five most recent rows. *)
Lemma recent_sessions_most_recent :
  most_recent StudySession.created_at 5 (sessions_of user_id session)
    (recent_sessions db user_id session).
Proof using engine.
  destruct (limit_keeps_the_first session_desc (sessions_newest_first db) 5
              (sessions_of user_id session) (sessions_sorted db engine))
    as (Hlen & Hsorted & Hperm & Hnewer).
  split_and!; [done | done |]. eexists. split; [exact Hperm | exact Hnewer].
Qed.

Lemma recent_wellness_most_recent :
  most_recent WellnessEntry.created_at 5 (entries_of user_id session)
    (recent_wellness db user_id session).
Proof using engine.
  destruct (limit_keeps_the_first wellness_desc (entries_newest_first db) 5
              (entries_of user_id session) (entries_sorted db engine))
    as (Hlen & Hsorted & Hperm & Hnewer).
  split_and!; [done | done |]. eexists. split; [exact Hperm | exact Hnewer].
Qed.

Lemma recent_sessions_elem (s : StudySession.t) :
  s ∈ recent_sessions db user_id session →
  s ∈ study_sessions session ∧ StudySession.user_id s = user_id.
Proof using engine.
  intros Hs. apply (most_recent_elem _ _ _ _ recent_sessions_most_recent) in Hs.
  apply list_elem_of_filter in Hs. tauto.
Qed.

Lemma recent_wellness_elem (w : WellnessEntry.t) :
  w ∈ recent_wellness db user_id session →
  w ∈ wellness_entries session ∧ WellnessEntry.user_id w = user_id.
Proof using engine.
  intros Hw. apply (most_recent_elem _ _ _ _ recent_wellness_most_recent) in Hw.
  apply list_elem_of_filter in Hw. tauto.
Qed.

Lemma recent_sessions_nil :
  recent_sessions db user_id session = []
  ↔ ∀ s, s ∈ study_sessions session → StudySession.user_id s ≠ user_id.
Proof using engine.
  rewrite (most_recent_nil _ _ _ _ recent_sessions_most_recent) by lia.
  unfold sessions_of. split.
  - intros Hnil s Hs Hu. by apply (filter_nil_not_elem_of _ _ s Hnil).
  - apply filter_none.
Qed.

Lemma recent_wellness_nil :
  recent_wellness db user_id session = []
  ↔ ∀ w, w ∈ wellness_entries session → WellnessEntry.user_id w ≠ user_id.
Proof using engine.
  rewrite (most_recent_nil _ _ _ _ recent_wellness_most_recent) by lia.
  unfold entries_of. split.
  - intros Hnil w Hw Hu. by apply (filter_nil_not_elem_of _ _ w Hnil).
  - apply filter_none.
Qed.

(** The high-stress rule, over the stored entries. *)
Lemma high_stress_rule_stored :
  high_stress_rule db user_id session
  ↔ (∃ w, w ∈ wellness_entries session ∧ WellnessEntry.user_id w = user_id)
    ∧ (7 < mean_of WellnessEntry.stress_level (recent_wellness db user_id session))%Q.
Proof using engine.
  unfold high_stress_rule. split; intros [Hne Hlt]; (split; [|done]).
  - destruct (recent_wellness db user_id session) as [|w ws] eqn:Hw; [done|].
    exists w. apply recent_wellness_elem. rewrite Hw. left.
  - destruct Hne as (w & Hw & Hu). intros Hnil.
    by apply (proj1 recent_wellness_nil Hnil w).
Qed.

(** The break rule, over the stored sessions and in whole minutes. *)
Lemma long_sessions_rule_stored :
  long_sessions_rule db user_id session
  ↔ (∃ s, s ∈ study_sessions session ∧ StudySession.user_id s = user_id)
    ∧ 60 * Z.of_nat (length (recent_sessions db user_id session))
      < minutes (recent_sessions db user_id session).
Proof using engine.
  unfold long_sessions_rule, mean_duration, minutes.
  destruct (recent_sessions db user_id session) as [|s ss] eqn:Hrec.
  - split; [by intros [? _]|]. intros [(s & Hs & Hu) _].
    by destruct (proj1 recent_sessions_nil Hrec s Hs).
  - change 60%Q with (inject_Z 60). rewrite mean_above by (cbn [length]; lia).
    split; intros [_ Hlt]; (split; [|done]); [|done].
    exists s. apply recent_sessions_elem. rewrite Hrec. left.
Qed.
End recommendation_facts.

Section recommendation_cases.
Variables (db : Dbms) (user_id : Z) (session : Store).

(** The four outcomes of the two rules. *)
Lemma generate_study_recommendations_cases :
  (long_sessions_rule db user_id session ∧ high_stress_rule db user_id session
   ∧ generate_study_recommendations db user_id session
     = Ok [break_recommendation; wellness_recommendation])
  ∨ (long_sessions_rule db user_id session ∧ ¬ high_stress_rule db user_id session
     ∧ generate_study_recommendations db user_id session = Ok [break_recommendation])
  ∨ (¬ long_sessions_rule db user_id session ∧ high_stress_rule db user_id session
     ∧ generate_study_recommendations db user_id session = Ok [wellness_recommendation])
  ∨ (¬ long_sessions_rule db user_id session ∧ ¬ high_stress_rule db user_id session
     ∧ generate_study_recommendations db user_id session = Ok general_tips).
Proof.
  unfold generate_study_recommendations, long_sessions_rule, high_stress_rule,
    mean_duration, mean_of.
  destruct (recent_sessions db user_id session) as [|s ss] eqn:Hs;
    destruct (recent_wellness db user_id session) as [|w ws] eqn:Hw;
    cbn [truediv length bind app].
  - right. right. right. split_and!; solve [done | rule_off].
  - destruct (Qgtb _ 7) eqn:Hg.
    + right. right. left. split_and!; solve [done | rule_off | rule_on].
    + right. right. right. split_and!; solve [done | rule_off].
  - destruct (Qgtb _ 60) eqn:Hg.
    + right. left. split_and!; solve [done | rule_off | rule_on].
    + right. right. right. split_and!; solve [done | rule_off].
  - destruct (Qgtb _ 60) eqn:Hg; cbn [bind app];
      destruct (Qgtb _ 7) eqn:Hg'.
    + left. split_and!; solve [done | rule_on].
    + right. left. split_and!; solve [done | rule_off | rule_on].
    + right. right. left. split_and!; solve [done | rule_off | rule_on].
    + right. right. right. split_and!; solve [done | rule_off].
Qed.
End recommendation_cases.

(** Membership in a list written out: one case per element. *)
Ltac elem_cases H :=
  repeat (apply elem_of_cons in H as [H | H]; [try discriminate H|]);
  try (by apply elem_of_nil in H).

Lemma wellness_recommendation_elem (recs : list Recommendation) :
  recs = [break_recommendation; wellness_recommendation]
  ∨ recs = [wellness_recommendation] →
  wellness_recommendation ∈ recs.
Proof. intros [-> | ->]; [right; left | left]. Qed.

Lemma wellness_recommendation_not_elem (recs : list Recommendation) :
  recs = [break_recommendation] ∨ recs = general_tips →
  wellness_recommendation ∉ recs.
Proof. intros [-> | ->] H; elem_cases H. Qed.

Lemma general_tips_disjoint (t : Recommendation) :
  t ∈ general_tips → t ∉ [break_recommendation; wellness_recommendation].
Proof.
  intros Ht Hr. unfold general_tips in Ht.
  apply elem_of_cons in Ht as [-> | Ht]; [elem_cases Hr|].
  apply elem_of_cons in Ht as [-> | Ht]; [elem_cases Hr|].
  by apply elem_of_nil in Ht.
Qed.

Lemma rule_recommendation_elem (t : Recommendation) :
  t ∈ [break_recommendation] ∨ t ∈ [wellness_recommendation] →
  t ∈ [break_recommendation; wellness_recommendation].
Proof.
  intros [Ht | Ht]; apply elem_of_cons in Ht as [-> | Ht];
    try (by apply elem_of_nil in Ht); [left | right; left].
Qed.

(** C7: the engine returns on every history; the result is the pair of fixed
    generic tips, in their order and each of priority medium, exactly when
    neither rule fires, which is the case for a user without study sessions
    and wellness entries; no generic tip is returned in any other case. *)
Theorem fallback_tips_iff_no_rule_fires (db : Dbms) (user_id : Z) (session : Store) :
  ∃ recs,
    generate_study_recommendations db user_id session = Ok recs
    ∧ (recs = general_tips
       ↔ ¬ long_sessions_rule db user_id session ∧ ¬ high_stress_rule db user_id session)
    ∧ ((∃ t, t ∈ general_tips ∧ t ∈ recs)
       ↔ ¬ long_sessions_rule db user_id session ∧ ¬ high_stress_rule db user_id session)
    ∧ (sql_semantics db →
       (∀ s, s ∈ study_sessions session → StudySession.user_id s ≠ user_id) →
       (∀ w, w ∈ wellness_entries session → WellnessEntry.user_id w ≠ user_id) →
       recs = general_tips)
    ∧ (title <$> general_tips
       = ["Use Active Recall"; "Space Out Your Study Sessions"]%string)
    ∧ Forall (λ t, priority t = "medium"%string) general_tips.
Proof.
  assert (Htips : (title <$> general_tips
                   = ["Use Active Recall"; "Space Out Your Study Sessions"]%string)
                  ∧ Forall (λ t, priority t = "medium"%string) general_tips).
  { split; [done|]. by repeat constructor. }
  assert (Hempty : sql_semantics db →
                   (∀ s, s ∈ study_sessions session → StudySession.user_id s ≠ user_id) →
                   (∀ w, w ∈ wellness_entries session → WellnessEntry.user_id w ≠ user_id) →
                   ¬ long_sessions_rule db user_id session
                   ∧ ¬ high_stress_rule db user_id session).
  { intros Hdb Hs Hw.
    apply (recent_sessions_nil db user_id session Hdb) in Hs.
    apply (recent_wellness_nil db user_id session Hdb) in Hw.
    split; intros [Hne _]; congruence. }
  destruct (generate_study_recommendations_cases db user_id session)
    as [(Hl & Hh & ->) | [(Hl & Hh & ->) | [(Hl & Hh & ->) | (Hl & Hh & ->)]]];
    eexists; (split; [reflexivity|]); split_and!; try apply Htips.
  all: try (intros Hdb Hs Hw; destruct (Hempty Hdb Hs Hw); tauto).
  all: try (split; [discriminate | tauto]).
  all: try (split; [|tauto]; intros (t & Ht & Hr); exfalso).
  - by apply (general_tips_disjoint t).
  - apply (general_tips_disjoint t Ht), rule_recommendation_elem. by left.
  - apply (general_tips_disjoint t Ht), rule_recommendation_elem. by right.
  - split; [done | reflexivity].
  - split; [done|]. intros _. eexists. split; left.
Qed.

(** C8: the high-stress recommendation, of priority high, is returned exactly
    when the user has at least one stored wellness entry and the mean stress
    level of the at most five most recent ones is strictly above 7; a mean of
    exactly 7 does not trigger it.  The five most recent entries are a choice
    [recent] of the engine among the stored entries of the user: all of them
    when there are at most five, newest first, and none of the entries left
    out is more recent than an entry chosen. *)
Theorem high_stress_rule_is_strict (db : Dbms) (user_id : Z) (session : Store) :
  sql_semantics db →
  ∃ recs recent,
    generate_study_recommendations db user_id session = Ok recs
    ∧ most_recent WellnessEntry.created_at 5 (entries_of user_id session) recent
    ∧ (wellness_recommendation ∈ recs
       ↔ (∃ w, w ∈ wellness_entries session ∧ WellnessEntry.user_id w = user_id)
         ∧ (7 < mean_of WellnessEntry.stress_level recent)%Q)
    ∧ ((mean_of WellnessEntry.stress_level recent == 7)%Q →
       wellness_recommendation ∉ recs)
    ∧ priority wellness_recommendation = "high"%string.
Proof.
  intros Hdb.
  pose proof (high_stress_rule_stored db user_id session Hdb) as Hrule.
  pose proof (recent_wellness_most_recent db user_id session Hdb) as Hrecent.
  assert (Hseven : (mean_of WellnessEntry.stress_level
                      (recent_wellness db user_id session) == 7)%Q →
                   ¬ high_stress_rule db user_id session).
  { intros Heq [_ Hlt]. rewrite Heq in Hlt. by apply Qlt_irrefl in Hlt. }
  destruct (generate_study_recommendations_cases db user_id session)
    as [(Hl & Hh & ->) | [(Hl & Hh & ->) | [(Hl & Hh & ->) | (Hl & Hh & ->)]]];
    eexists; exists (recent_wellness db user_id session);
    (split; [reflexivity|]); (split; [exact Hrecent|]);
    rewrite <- Hrule; split_and!; try done.
  - split; [done|]. intros _. apply wellness_recommendation_elem. by left.
  - intros Heq. by destruct (Hseven Heq).
  - split; [|done]. intros Hin. exfalso.
    by apply (wellness_recommendation_not_elem [break_recommendation]); [left|].
  - intros _. apply wellness_recommendation_not_elem. by left.
  - split; [done|]. intros _. apply wellness_recommendation_elem. by right.
  - intros Heq. by destruct (Hseven Heq).
  - split; [|done]. intros Hin. exfalso.
    by apply (wellness_recommendation_not_elem general_tips); [right|].
  - intros _. apply wellness_recommendation_not_elem. by right.
Qed.

Lemma high_stress_rule_is_strict_witness :
  ∃ recs recent,
    generate_study_recommendations binary_dbms 1 (stress_store [8; 9; 8; 9; 8]) = Ok recs
    ∧ most_recent WellnessEntry.created_at 5
        (entries_of 1 (stress_store [8; 9; 8; 9; 8])) recent
    ∧ (wellness_recommendation ∈ recs
       ↔ (∃ w, w ∈ wellness_entries (stress_store [8; 9; 8; 9; 8])
               ∧ WellnessEntry.user_id w = 1)
         ∧ (7 < mean_of WellnessEntry.stress_level recent)%Q)
    ∧ ((mean_of WellnessEntry.stress_level recent == 7)%Q →
       wellness_recommendation ∉ recs)
    ∧ priority wellness_recommendation = "high"%string.
Proof.
  apply (high_stress_rule_is_strict binary_dbms 1 (stress_store [8; 9; 8; 9; 8])).
  apply binary_dbms_semantics.
Defined.

(** C10: the engine returns one or two recommendations, never none and never
    more: the break recommendation, the high-stress recommendation, the break
    recommendation followed by the high-stress one when both rules fire, or
    the two generic tips; a result never mixes rule recommendations with
    generic tips. *)
Theorem recommendations_one_or_two (db : Dbms) (user_id : Z) (session : Store) :
  ∃ recs,
    generate_study_recommendations db user_id session = Ok recs
    ∧ (length recs = 1 ∨ length recs = 2)%nat
    ∧ (recs = [break_recommendation]
       ∨ recs = [wellness_recommendation]
       ∨ recs = [break_recommendation; wellness_recommendation]
       ∨ recs = general_tips)
    ∧ (long_sessions_rule db user_id session ∧ high_stress_rule db user_id session →
       recs = [break_recommendation; wellness_recommendation])
    ∧ ¬ (∃ r t, r ∈ recs ∧ t ∈ recs
                ∧ r ∈ [break_recommendation; wellness_recommendation]
                ∧ t ∈ general_tips).
Proof.
  destruct (generate_study_recommendations_cases db user_id session)
    as [(Hl & Hh & ->) | [(Hl & Hh & ->) | [(Hl & Hh & ->) | (Hl & Hh & ->)]]];
    eexists; (split; [reflexivity|]); split_and!; try tauto.
  all: try (by (left + right)).
  all: try (intros (r & t & Hr & Ht & Hrule & Htip)).
  - by apply (general_tips_disjoint t).
  - apply (general_tips_disjoint t Htip), rule_recommendation_elem. by left.
  - apply (general_tips_disjoint t Htip), rule_recommendation_elem. by right.
  - by apply (general_tips_disjoint r).
Qed.

Lemma sumZ_Permutation (l k : list Z) : l ≡ₚ k → sumZ l = sumZ k.
Proof.
  induction 1 as [|x l k _ IH|x y l|l k m _ IH1 _ IH2]; [done | | | congruence].
  - by rewrite !sumZ_cons, IH.
  - rewrite !sumZ_cons. lia.
Qed.

(** With at most five rows of each kind the rows read are all the rows of the
    user, in some order, and the recommendations are those of any other
    engine. *)
Lemma recommendations_of_few_rows (db db' : Dbms) (user_id : Z) (session : Store) :
  sql_semantics db → sql_semantics db' →
  (length (sessions_of user_id session) ≤ 5)%nat →
  (length (entries_of user_id session) ≤ 5)%nat →
  generate_study_recommendations db user_id session
  = generate_study_recommendations db' user_id session.
Proof.
  intros Hdb Hdb' Hs Hw.
  assert (recent_sessions db user_id session ≡ₚ recent_sessions db' user_id session) as Ps.
  { rewrite (most_recent_all _ _ _ _ (recent_sessions_most_recent db _ _ Hdb) Hs).
    by rewrite (most_recent_all _ _ _ _ (recent_sessions_most_recent db' _ _ Hdb') Hs). }
  assert (recent_wellness db user_id session ≡ₚ recent_wellness db' user_id session) as Pw.
  { rewrite (most_recent_all _ _ _ _ (recent_wellness_most_recent db _ _ Hdb) Hw).
    by rewrite (most_recent_all _ _ _ _ (recent_wellness_most_recent db' _ _ Hdb') Hw). }
  unfold generate_study_recommendations.
  pose proof (Permutation_length Ps) as Ls. pose proof (Permutation_length Pw) as Lw.
  pose proof (sumZ_Permutation _ _ (fmap_Permutation StudySession.duration _ _ Ps)) as Es.
  pose proof (sumZ_Permutation _ _ (fmap_Permutation WellnessEntry.stress_level _ _ Pw)) as Ew.
  rewrite Es, Ew, Ls, Lw.
  destruct (recent_sessions db user_id session) as [|s ss];
    destruct (recent_sessions db' user_id session) as [|s' ss']; try done;
    destruct (recent_wellness db user_id session) as [|w ws];
    destruct (recent_wellness db' user_id session) as [|w' ws']; done.
Qed.

(** The two cases of the specification, on every engine: stress levels 8, 9,
    8, 9, 8 (mean 8.4) trigger the rule, five entries of stress 7 do not. *)
Example high_stress_at_mean_8_4 (db : Dbms) :
  sql_semantics db →
  generate_study_recommendations db 1 (stress_store [8; 9; 8; 9; 8])
  = Ok [wellness_recommendation].
Proof.
  intros Hdb.
  rewrite (recommendations_of_few_rows db binary_dbms 1 _ Hdb binary_dbms_semantics);
    [reflexivity | vm_compute; lia | vm_compute; lia].
Qed.

Example no_high_stress_at_mean_7 (db : Dbms) :
  sql_semantics db →
  generate_study_recommendations db 1 (stress_store [7; 7; 7; 7; 7]) = Ok general_tips.
Proof.
  intros Hdb.
  rewrite (recommendations_of_few_rows db binary_dbms 1 _ Hdb binary_dbms_semantics);
    [reflexivity | vm_compute; lia | vm_compute; lia].
Qed.

(** Rows of equal [created_at] leave the choice to the engine: of six entries
    written in the same instant, five of stress 8 and one of stress 2, an
    engine may read the five of stress 8 or leave one of them out. *)
Example equal_timestamps_leave_a_choice :
  generate_study_recommendations storage_order_dbms 1 same_instant_store
  = Ok [wellness_recommendation]
  ∧ generate_study_recommendations binary_dbms 1 same_instant_store
    = Ok general_tips.
Proof. by split. Qed.

(** ** Analytics *)

Lemma date_timedelta (t : datetime) (k : Z) : date (t + timedelta k) = date t + k.
Proof. unfold date, timedelta. by rewrite Z.div_add. Qed.

Lemma date_mono (t t' : datetime) : t ≤ t' → date t ≤ date t'.
Proof. intros Ht. unfold date. apply Z.div_le_mono; [done | done]. Qed.

Lemma comprehension_fmap {A B : Type} (f : A → result B) (g : A → B) (l : list A) :
  (∀ x, x ∈ l → f x = Ok (g x)) → comprehension f l = Ok (g <$> l).
Proof.
  induction l as [|x l IH]; intros Hf; [done|].
  cbn [comprehension]. rewrite (Hf x) by left. cbn [bind].
  rewrite IH by (intros y Hy; apply Hf; by right). done.
Qed.

Section dict_facts.
Context {A : Type} (key : A → Z) (value : A → Q).

Lemma foldl_insert_lookup_other (rows : list A) (d : gmap Z Q) (k : Z) :
  k ∉ key <$> rows →
  foldl (λ d row, <[key row := value row]> d) d rows !! k = d !! k.
Proof.
  revert d. induction rows as [|row rows IH]; intros d Hk; [done|].
  rewrite fmap_cons, not_elem_of_cons in Hk. destruct Hk as [Hne Hk].
  cbn [foldl]. rewrite IH by done. by rewrite lookup_insert_ne.
Qed.

Lemma dict_of_lookup_None (rows : list A) (k : Z) :
  k ∉ key <$> rows → dict_of key value rows !! k = None.
Proof.
  intros Hk. unfold dict_of. by rewrite foldl_insert_lookup_other.
Qed.

Lemma foldl_insert_lookup_Some (rows : list A) (d : gmap Z Q) (k : Z) (v : Q) :
  foldl (λ d row, <[key row := value row]> d) d rows !! k = Some v →
  d !! k = Some v ∨ ∃ row, row ∈ rows ∧ key row = k ∧ value row = v.
Proof.
  revert d. induction rows as [|row rows IH]; intros d Hv; [by left|].
  cbn [foldl] in Hv. apply IH in Hv as [Hv | (row' & Hin & Hk & Hval)].
  - destruct (decide (key row = k)) as [Heq | Hne].
    + rewrite Heq, lookup_insert_eq in Hv. injection Hv as <-.
      right. exists row. split_and!; [left | done | done].
    + rewrite lookup_insert_ne in Hv by done. by left.
  - right. exists row'. split_and!; [by right | done | done].
Qed.

Lemma dict_of_lookup_Some (rows : list A) (k : Z) (v : Q) :
  dict_of key value rows !! k = Some v →
  ∃ row, row ∈ rows ∧ key row = k ∧ value row = v.
Proof.
  intros Hv. apply foldl_insert_lookup_Some in Hv as [Hv | Hv]; [|done].
  by rewrite lookup_empty in Hv.
Qed.

Lemma dict_of_lookup_elem (rows : list A) (row : A) :
  NoDup (key <$> rows) → row ∈ rows →
  dict_of key value rows !! key row = Some (value row).
Proof.
  unfold dict_of. generalize (∅ : gmap Z Q).
  induction rows as [|r rows IH]; intros d Hnd Hin; [by apply elem_of_nil in Hin|].
  rewrite fmap_cons in Hnd. apply NoDup_cons in Hnd as [Hr Hnd].
  cbn [foldl]. apply elem_of_cons in Hin as [-> | Hin].
  - rewrite foldl_insert_lookup_other by done. apply lookup_insert_eq.
  - by apply IH.
Qed.
End dict_facts.

Lemma group_by_elem {A : Type} (key : A → Z) (rows : list A) (k : Z) (g : list A) :
  (k, g) ∈ group_by key rows →
  k ∈ key <$> rows ∧ g = filter (λ a, key a = k) rows.
Proof.
  unfold group_by. intros Hin.
  apply list_elem_of_fmap in Hin as (k' & [= -> ->] & Hk).
  rewrite merge_sort_Permutation, elem_of_remove_dups in Hk. done.
Qed.

Lemma group_by_keys {A : Type} (key : A → Z) (rows : list A) :
  (group_by key rows).*1 = merge_sort Z.le (remove_dups (key <$> rows)).
Proof.
  unfold group_by. rewrite <- list_fmap_compose. apply list_fmap_id.
Qed.

Lemma group_by_keys_NoDup {A : Type} (key : A → Z) (rows : list A) :
  NoDup (group_by key rows).*1.
Proof.
  rewrite group_by_keys, merge_sort_Permutation. apply NoDup_remove_dups.
Qed.

Lemma group_by_elem_2 {A : Type} (key : A → Z) (rows : list A) (k : Z) :
  k ∈ key <$> rows → (k, filter (λ a, key a = k) rows) ∈ group_by key rows.
Proof.
  intros Hk. unfold group_by. apply list_elem_of_fmap. exists k.
  split; [done|]. by rewrite merge_sort_Permutation, elem_of_remove_dups.
Qed.

Lemma avg_or_none_returns (xs : list (option Q)) : ∃ a, avg_or_none xs = Ok a.
Proof.
  unfold avg_or_none. destruct (existsb truthy xs) eqn:Hany; [|by eexists].
  apply existsb_exists in Hany as (x & Hx & Ht).
  apply list_elem_of_In in Hx.
  unfold count_not_none.
  destruct (filter (λ o : option Q, o ≠ None) xs) as [|y ys] eqn:Hf.
  - exfalso. apply (filter_nil_not_elem_of _ _ x Hf); [|done].
    by destruct x.
  - by eexists.
Qed.

(** *** The dates of the window *)

Section window_facts.
Variables (days : Z) (now : datetime).

Lemma date_of_series (i : Z) :
  date (window_start days now + timedelta i) = date now - (days - 1) + i.
Proof.
  unfold window_start.
  replace (now - timedelta (days - 1) + timedelta i)
    with (now + timedelta (i - (days - 1))) by (unfold timedelta, usec_per_day; lia).
  rewrite date_timedelta. lia.
Qed.

(** Before year 1 and after year 9999 there is no first day. *)
Lemma start_date_overflow :
  ¬ representable (window_start days now) →
  (let* delta := timedelta_days (days - 1) in datetime_sub now delta)
  = Raise OverflowError.
Proof.
  intros Hout. unfold timedelta_days, datetime_sub.
  destruct (decide (-999999999 ≤ days - 1 ≤ 999999999)); [|done].
  cbn [bind]. fold (window_start days now).
  by destruct (decide (representable (window_start days now))).
Qed.

Hypothesis window : window_representable days now.

Lemma timedelta_days_window :
  timedelta_days (days - 1) = Ok (timedelta (days - 1)).
Proof using window.
  unfold timedelta_days. rewrite decide_True; [done|].
  destruct window as [Hnow Hstart].
  unfold representable, window_start, datetime_min, datetime_max, timedelta,
    usec_per_day in *. lia.
Qed.

Lemma start_date_window :
  datetime_sub now (timedelta (days - 1)) = Ok (window_start days now).
Proof using window.
  unfold datetime_sub. rewrite decide_True; [done|]. apply window.
Qed.

(** Each day of the window is a datetime between its first instant and
    [now]. *)
Lemma dates_window :
  comprehension (λ i, let* delta := timedelta_days i in
                      let* day := datetime_add (window_start days now) delta in
                      Ok (date day))
                (range days)
  = Ok ((λ i, date (window_start days now + timedelta i)) <$> range days).
Proof using window.
  apply comprehension_fmap. intros i Hi.
  unfold range in Hi. apply elem_of_seqZ in Hi.
  destruct window as [Hnow Hstart].
  unfold timedelta_days, datetime_add.
  rewrite decide_True; [cbn [bind]; rewrite decide_True; [done|] |];
    unfold representable, window_start, datetime_min, datetime_max, timedelta,
      usec_per_day in *; lia.
Qed.
End window_facts.

Section query_facts.
Variables (user_id : Z) (start_date end_date : datetime) (engine : Store).

Lemma daily_data_date (row : DailyRow) :
  row ∈ daily_data user_id start_date end_date engine →
  ∃ s, s ∈ study_sessions engine ∧ StudySession.user_id s = user_id
       ∧ date (StudySession.created_at s) = daily_date row.
Proof.
  unfold daily_data. intros Hrow.
  apply list_elem_of_fmap in Hrow as ([d g] & -> & Hg).
  apply group_by_elem in Hg as [Hd _].
  apply list_elem_of_fmap in Hd as (s & -> & Hs).
  apply list_elem_of_filter in Hs as [(Hu & _) Hs].
  exists s. by split_and!.
Qed.

Lemma mood_data_row (row : MoodRow) :
  row ∈ mood_data user_id start_date end_date engine →
  ∃ g w, w ∈ g ∧ g ⊆ wellness_entries engine
         ∧ Forall (λ w, WellnessEntry.user_id w = user_id) g
         ∧ date (WellnessEntry.created_at w) = mood_date row
         ∧ row_avg_stress row = mean_of WellnessEntry.stress_level g
         ∧ row_avg_energy row = mean_of WellnessEntry.energy_level g.
Proof.
  unfold mood_data. intros Hrow.
  apply list_elem_of_fmap in Hrow as ([d g] & -> & Hg).
  apply group_by_elem in Hg as [Hd ->].
  apply list_elem_of_fmap in Hd as (w & -> & Hw).
  eexists _, w. split_and!; [| | |done|done|done].
  - apply list_elem_of_filter. by split.
  - intros x Hx. apply list_elem_of_filter in Hx as [_ Hx].
    by apply list_elem_of_filter in Hx as [_ Hx].
  - apply Forall_forall. intros x Hx. apply list_elem_of_filter in Hx as [_ Hx].
    by apply list_elem_of_filter in Hx as [(Hu & _) _].
Qed.

Lemma daily_data_keys :
  daily_date <$> daily_data user_id start_date end_date engine
  = (group_by (date ∘ StudySession.created_at)
              (window_sessions user_id start_date end_date engine)).*1.
Proof.
  unfold daily_data. rewrite <- list_fmap_compose.
  apply list_fmap_ext. by intros _ [d g] _.
Qed.

Lemma mood_data_keys :
  mood_date <$> mood_data user_id start_date end_date engine
  = (group_by (date ∘ WellnessEntry.created_at)
              (window_wellness user_id start_date end_date engine)).*1.
Proof.
  unfold mood_data. rewrite <- list_fmap_compose.
  apply list_fmap_ext. by intros _ [d g] _.
Qed.

(** The hours of a day: the [Decimal] quotient of its minutes by 60. *)
Lemma study_data_lookup (d : Z) :
  default 0%Q
    (dict_of daily_date (λ row, decimal_div (total_duration row) 60)
             (daily_data user_id start_date end_date engine) !! d)
  = decimal_div
      (inject_Z (minutes (sessions_on d
                            (window_sessions user_id start_date end_date engine))))
      60.
Proof.
  destruct (decide (d ∈ (date ∘ StudySession.created_at)
                         <$> window_sessions user_id start_date end_date engine))
    as [Hin | Hout].
  - apply group_by_elem_2 in Hin.
    apply (list_elem_of_fmap_2
             (λ '(d, g), mkDailyRow d (inject_Z (sumZ (StudySession.duration <$> g)))
                           (sql_avg (omap StudySession.sentiment_score g)))) in Hin.
    fold (daily_data user_id start_date end_date engine) in Hin.
    apply (dict_of_lookup_elem daily_date
             (λ row, decimal_div (total_duration row) 60)) in Hin;
      [|rewrite daily_data_keys; apply group_by_keys_NoDup].
    cbn in Hin. rewrite Hin. reflexivity.
  - rewrite dict_of_lookup_None
      by (by rewrite daily_data_keys, group_by_keys, merge_sort_Permutation,
               elem_of_remove_dups).
    unfold sessions_on. rewrite (filter_none _ (window_sessions _ _ _ _)); [reflexivity|].
    intros s Hs Hd. apply Hout. apply list_elem_of_fmap. by exists s.
Qed.

Lemma mood_data_lookup (value : MoodRow → Q) (f : WellnessEntry.t → Z) (d : Z) :
  (∀ d g, value (mkMoodRow d (mean_of WellnessEntry.stress_level g)
                           (mean_of WellnessEntry.energy_level g)) = mean_of f g) →
  dict_of mood_date value (mood_data user_id start_date end_date engine) !! d
  = match entries_on d (window_wellness user_id start_date end_date engine) with
    | [] => None
    | g => Some (mean_of f g)
    end.
Proof.
  intros Hvalue.
  destruct (decide (d ∈ (date ∘ WellnessEntry.created_at)
                         <$> window_wellness user_id start_date end_date engine))
    as [Hin | Hout].
  - assert (entries_on d (window_wellness user_id start_date end_date engine) ≠ []) as Hne.
    { apply list_elem_of_fmap in Hin as (w & -> & Hw). intros Hnil.
      apply (filter_nil_not_elem_of _ _ w Hnil); done. }
    apply group_by_elem_2 in Hin.
    apply (list_elem_of_fmap_2
             (λ '(d, g), mkMoodRow d (mean_of WellnessEntry.stress_level g)
                           (mean_of WellnessEntry.energy_level g))) in Hin.
    fold (mood_data user_id start_date end_date engine) in Hin.
    apply (dict_of_lookup_elem mood_date value) in Hin;
      [|rewrite mood_data_keys; apply group_by_keys_NoDup].
    cbn in Hin. rewrite Hin, Hvalue.
    fold (entries_on d (window_wellness user_id start_date end_date engine)).
    by destruct (entries_on d (window_wellness user_id start_date end_date engine)).
  - rewrite dict_of_lookup_None
      by (by rewrite mood_data_keys, group_by_keys, merge_sort_Permutation,
               elem_of_remove_dups).
    unfold entries_on. rewrite (filter_none _ (window_wellness _ _ _ _)); [done|].
    intros w Hw Hd. apply Hout. apply list_elem_of_fmap. by exists w.
Qed.
End query_facts.

Section analytics_facts.
Variables (db : Dbms) (user_id : Z) (days : Z) (engine : Store) (now : datetime).

(** Without a first day the call raises. *)
Lemma get_study_analytics_overflow :
  ¬ representable (window_start days now) →
  get_study_analytics db user_id days engine now = Raise OverflowError.
Proof.
  intros Hout. apply start_date_overflow in Hout.
  unfold get_study_analytics. cbv zeta.
  unfold timedelta_days, datetime_sub in *.
  destruct (decide (-999999999 ≤ days - 1 ≤ 999999999)); [|done].
  cbn [bind] in *.
  by destruct (decide (representable (now - timedelta (days - 1)))).
Qed.

Hypothesis window : window_representable days now.

(** The result, field by field. *)
Lemma get_study_analytics_returns :
  ∃ r, get_study_analytics db user_id days engine now = Ok r
    ∧ dates r = (λ i, date (window_start days now + timedelta i)) <$> range days
    ∧ study_hours r
      = (λ d, default 0%Q
                (dict_of daily_date (λ row, decimal_div (total_duration row) 60)
                         (daily_data user_id (window_start days now) now engine) !! d))
          <$> dates r
    ∧ stress_levels r
      = (λ d, dict_of mood_date row_avg_stress
                      (mood_data user_id (window_start days now) now engine) !! d)
          <$> dates r
    ∧ energy_levels r
      = (λ d, dict_of mood_date row_avg_energy
                      (mood_data user_id (window_start days now) now engine) !! d)
          <$> dates r
    ∧ avg_or_none (stress_levels r) = Ok (avg_stress r)
    ∧ avg_or_none (energy_levels r) = Ok (avg_energy r)
    ∧ total_study_hours r = round (decimal_sum (study_hours r)) 1
    ∧ subjects_labels r
      = row_subject <$> subjects db user_id (window_start days now) now engine
    ∧ subjects_data r
      = (λ row, round (decimal_div (subject_duration row) 60) 1)
          <$> subjects db user_id (window_start days now) now engine.
Proof using window.
  unfold get_study_analytics. cbv zeta.
  rewrite (timedelta_days_window days now window). cbn [bind].
  rewrite (start_date_window days now window). cbn [bind].
  rewrite (dates_window days now window). cbn [bind].
  match goal with |- context [bind (avg_or_none ?xs) _] =>
    destruct (avg_or_none_returns xs) as [a_s Hs] end.
  rewrite Hs. cbn [bind].
  match goal with |- context [bind (avg_or_none ?xs) _] =>
    destruct (avg_or_none_returns xs) as [a_e He] end.
  rewrite He. cbn [bind].
  eexists. split; [reflexivity|]. cbn. by split_and!.
Qed.
End analytics_facts.

(** C1, as amended: for [days >= 1], when the first day of the window is a
    date that can be represented ([now - (days - 1) days] is not before year
    1), the analytics are returned, and [dates], [study_hours],
    [stress_levels] and [energy_levels] have [days] entries each; the dates
    are the consecutive calendar days that end today; a date on which the
    user has no study session has 0 study hours, and a date on which the user
    has no wellness entry has null stress and energy. *)
Theorem analytics_series_are_dense
    (db : Dbms) (user_id days : Z) (engine : Store) (now : datetime) :
  1 ≤ days →
  window_representable days now →
  ∃ r, get_study_analytics db user_id days engine now = Ok r
    ∧ length (dates r) = Z.to_nat days
    ∧ length (study_hours r) = Z.to_nat days
    ∧ length (stress_levels r) = Z.to_nat days
    ∧ length (energy_levels r) = Z.to_nat days
    ∧ (∀ i, 0 ≤ i < days →
            dates r !! Z.to_nat i = Some (date now - (days - 1) + i))
    ∧ (∀ i d, dates r !! i = Some d →
              (∀ s, s ∈ study_sessions engine → StudySession.user_id s = user_id →
                    date (StudySession.created_at s) ≠ d) →
              study_hours r !! i = Some 0%Q)
    ∧ (∀ i d, dates r !! i = Some d →
              (∀ w, w ∈ wellness_entries engine → WellnessEntry.user_id w = user_id →
                    date (WellnessEntry.created_at w) ≠ d) →
              stress_levels r !! i = Some None ∧ energy_levels r !! i = Some None).
Proof.
  intros Hdays Hwindow.
  destruct (get_study_analytics_returns db user_id days engine now Hwindow)
    as (r & Hr & Hdates & Hhours & Hstress & Henergy & _).
  assert (Hlen : length (dates r) = Z.to_nat days).
  { rewrite Hdates, length_fmap. apply length_seqZ. }
  exists r. split_and!; try done.
  - by rewrite Hhours, length_fmap.
  - by rewrite Hstress, length_fmap.
  - by rewrite Henergy, length_fmap.
  - intros i Hi. rewrite Hdates, list_lookup_fmap. unfold range.
    rewrite lookup_seqZ_lt by lia. cbn [fmap option_fmap option_map].
    f_equal. rewrite date_of_series. lia.
  - intros i d Hd Hno. rewrite Hhours, list_lookup_fmap, Hd.
    cbn [fmap option_fmap option_map]. f_equal.
    rewrite dict_of_lookup_None; [done|].
    intros Hin. apply list_elem_of_fmap in Hin as (row & -> & Hrow).
    apply daily_data_date in Hrow as (s & Hs & Hu & Hdate).
    by apply (Hno s).
  - intros i d Hd Hno.
    assert (Hkey : d ∉ mood_date
                       <$> mood_data user_id (window_start days now) now engine).
    { intros Hin. apply list_elem_of_fmap in Hin as (row & -> & Hrow).
      apply mood_data_row in Hrow as (g & w & Hw & Hg & Hu & Hdate & _).
      apply (Hno w); [by apply Hg | | done].
      by apply (proj1 (Forall_forall _ _) Hu). }
    rewrite Hstress, Henergy, !list_lookup_fmap, Hd.
    cbn [fmap option_fmap option_map].
    by rewrite !dict_of_lookup_None.
Qed.

Lemma analytics_series_are_dense_witness :
  ∃ r, get_study_analytics binary_dbms 1 3 three_days_store (at_day 10 12) = Ok r
    ∧ length (dates r) = 3%nat
    ∧ dates r !! 2%nat = Some 10
    ∧ study_hours r !! 1%nat = Some 0%Q.
Proof.
  destruct (analytics_series_are_dense binary_dbms 1 3 three_days_store (at_day 10 12))
    as (r & Hr & Hlen & _ & _ & _ & Hdates & Hhours & _);
    [lia | by vm_compute |].
  exists r. split_and!; [done | done | apply (Hdates 2); lia |].
  apply (Hhours 1%nat 9).
  - apply (Hdates 1). lia.
  - intros s Hs _. simpl in Hs. rewrite !elem_of_cons, elem_of_nil in Hs.
    destruct Hs as [-> | [-> | [-> | []]]]; by vm_compute.
Defined.

(** C1 as stated fails: on 2026-11-03 a window of 739924 days would start
    before year 1, and the call raises [OverflowError] instead of
    returning. *)
Lemma analytics_overflow_before_year_one :
  1 ≤ 739924
  ∧ representable noon_2026_11_03
  ∧ window_start 739924 noon_2026_11_03 < datetime_min
  ∧ get_study_analytics binary_dbms 1 739924 three_days_store noon_2026_11_03
    = Raise OverflowError.
Proof. by vm_compute. Qed.

(** ** The averages over the gap-filled series *)

Lemma sumZ_at_least_length {A : Type} (f : A → Z) (g : list A) :
  Forall (λ a, 1 ≤ f a) g → Z.of_nat (length g) ≤ sumZ (f <$> g).
Proof.
  induction 1 as [|a g Ha _ IH]; [done|].
  rewrite fmap_cons, sumZ_cons. cbn [length]. lia.
Qed.

(** A group of at least one entry with levels from 1 up has a positive mean. *)
Lemma mean_of_positive (f : WellnessEntry.t → Z) (g : list WellnessEntry.t) :
  g ≠ [] → Forall (λ w, 1 ≤ f w) g → (0 < mean_of f g)%Q.
Proof.
  intros Hne Hall. pose proof (sumZ_at_least_length f g Hall) as Hsum.
  assert (0 < Z.of_nat (length g)) as Hlen by (destruct g; [done | cbn; lia]).
  unfold mean_of, Qdiv. apply Qmult_lt_0_compat; [|apply Qinv_lt_0_compat].
  - change 0%Q with (inject_Z 0). rewrite <- Zlt_Qlt. lia.
  - change 0%Q with (inject_Z 0). by rewrite <- Zlt_Qlt.
Qed.

Lemma truthy_positive (q : Q) : (0 < q)%Q → truthy (Some q) = true.
Proof.
  intros Hq. unfold truthy. destruct (Qeq_bool q 0) eqn:E; [|done].
  apply Qeq_bool_iff in E. rewrite E in Hq. by apply Qlt_irrefl in Hq.
Qed.

Lemma sum_truthy_non_null (xs : list (option Q)) :
  positive_entries xs → sum_truthy xs = sumQ (non_null xs).
Proof.
  unfold sum_truthy, non_null. intros Hpos. f_equal.
  induction Hpos as [|o l Ho _ IH]; [done|].
  cbn [omap list_omap]. rewrite IH. destruct o as [q|]; [|done].
  by rewrite (truthy_positive q (Ho q eq_refl)).
Qed.

Lemma count_not_none_non_null (xs : list (option Q)) :
  count_not_none xs = length (non_null xs).
Proof.
  unfold count_not_none, non_null.
  induction xs as [|o l IH]; [done|]. destruct o as [q|].
  - rewrite filter_cons_True by done. cbn. by rewrite IH.
  - rewrite filter_cons_False by (intros H; by apply H). by cbn.
Qed.

Lemma none_truthy_all_none (xs : list (option Q)) :
  positive_entries xs →
  existsb truthy xs = false ↔ Forall (λ x, x = None) xs.
Proof.
  induction 1 as [|o l Ho _ IH]; [by split|].
  cbn [existsb]. rewrite orb_false_iff, IH, Forall_cons. split.
  - intros [Ht Hl]. split; [|done]. destruct o as [q|]; [|done].
    by rewrite (truthy_positive q (Ho q eq_refl)) in Ht.
  - by intros [-> Hl].
Qed.

Lemma avg_or_none_rounded_mean (xs : list (option Q)) :
  positive_entries xs →
  ∃ a, avg_or_none xs = Ok a ∧ is_rounded_mean_of_non_null xs a.
Proof.
  intros Hpos. unfold avg_or_none, is_rounded_mean_of_non_null, mean.
  rewrite sum_truthy_non_null, count_not_none_non_null by done.
  destruct (existsb truthy xs) eqn:Hany.
  - assert (Hnot : ¬ Forall (λ x, x = None) xs).
    { intros Hall. apply none_truthy_all_none in Hall; [congruence | done]. }
    destruct (length (non_null xs)) as [|n] eqn:Hlen.
    + exfalso. apply Hnot. apply Forall_forall. intros [q|] Hx; [|done].
      apply length_zero_iff_nil in Hlen.
      assert (q ∈ non_null xs) as Hq
        by (apply list_elem_of_omap; by exists (Some q)).
      rewrite Hlen in Hq. by apply elem_of_nil in Hq.
    + eexists. split; [reflexivity|]. split; [by split|].
      by intros q [= <-].
  - apply none_truthy_all_none in Hany; [|done].
    eexists. split; [reflexivity|]. split; [by split|]. by intros q [=].
Qed.

(** C2, as amended: for wellness entries on the 1 to 10 scale, in the result
    of a window that can be represented, [avg_stress] is null exactly when
    every entry of [stress_levels] is null, and is otherwise the mean of the
    non-null entries of the gap-filled series rounded to one decimal;
    likewise [avg_energy] for [energy_levels]. *)
Theorem averages_are_rounded_means_of_non_null
    (db : Dbms) (user_id days : Z) (engine : Store) (now : datetime) :
  window_representable days now →
  (∀ w, w ∈ wellness_entries engine → on_scale w) →
  ∃ r, get_study_analytics db user_id days engine now = Ok r
    ∧ is_rounded_mean_of_non_null (stress_levels r) (avg_stress r)
    ∧ is_rounded_mean_of_non_null (energy_levels r) (avg_energy r).
Proof.
  intros Hwindow Hscale.
  destruct (get_study_analytics_returns db user_id days engine now Hwindow)
    as (r & Hr & _ & _ & Hstress & Henergy & Has & Hae & _).
  assert (Hrows : ∀ row,
            row ∈ mood_data user_id (window_start days now) now engine →
            (0 < row_avg_stress row)%Q ∧ (0 < row_avg_energy row)%Q).
  { intros row Hrow.
    apply mood_data_row in Hrow as (g & w & Hw & Hg & _ & _ & -> & ->).
    assert (g ≠ []) as Hne by (intros ->; by apply elem_of_nil in Hw).
    split; apply mean_of_positive; try done;
      apply Forall_forall; intros x Hx; apply Hg, Hscale in Hx;
      unfold on_scale in Hx; lia. }
  assert (Hpos_s : positive_entries (stress_levels r)).
  { unfold positive_entries. rewrite Hstress. apply Forall_fmap, Forall_forall. intros d _ q Hq. cbn in Hq.
    apply dict_of_lookup_Some in Hq as (row & Hrow & _ & <-).
    by apply Hrows. }
  assert (Hpos_e : positive_entries (energy_levels r)).
  { unfold positive_entries. rewrite Henergy. apply Forall_fmap, Forall_forall. intros d _ q Hq. cbn in Hq.
    apply dict_of_lookup_Some in Hq as (row & Hrow & _ & <-).
    by apply Hrows. }
  destruct (avg_or_none_rounded_mean _ Hpos_s) as (a_s & Hs & Hspec_s).
  destruct (avg_or_none_rounded_mean _ Hpos_e) as (a_e & He & Hspec_e).
  rewrite Has in Hs. rewrite Hae in He.
  injection Hs as <-. injection He as <-.
  by exists r.
Qed.

Lemma averages_are_rounded_means_of_non_null_witness :
  ∃ r, get_study_analytics binary_dbms 1 3 three_days_store (at_day 10 12) = Ok r
    ∧ is_rounded_mean_of_non_null (stress_levels r) (avg_stress r)
    ∧ is_rounded_mean_of_non_null (energy_levels r) (avg_energy r).
Proof.
  apply (averages_are_rounded_means_of_non_null
           binary_dbms 1 3 three_days_store (at_day 10 12)); [by vm_compute|].
  intros w Hw. simpl in Hw. rewrite !elem_of_cons, elem_of_nil in Hw.
  destruct Hw as [-> | [-> | [-> | []]]]; unfold on_scale; simpl; lia.
Defined.

(** C2 as stated fails: with stress levels 1, 2 and 2 on three days the mean
    of the series is 5/3, and [avg_stress] is 1.7. *)
Lemma avg_stress_is_not_the_exact_mean :
  ∃ r, get_study_analytics binary_dbms 1 3 three_days_store (at_day 10 12) = Ok r
    ∧ stress_levels r = [Some 1%Q; Some 2%Q; Some 2%Q]
    ∧ avg_stress r = Some 1.7%Q
    ∧ ¬ is_mean_of_non_null (stress_levels r) (avg_stress r).
Proof.
  eexists. split; [by vm_compute|]. split_and!; [done | done |].
  intros [_ Hmean]. specialize (Hmean _ eq_refl). by vm_compute in Hmean.
Qed.

(** Off the scale the truth tests of [any] and [filter(None, ...)] part from
    the [is not None] test: a day whose average stress is 0 is not null, yet
    [avg_stress] is. *)
Example avg_stress_of_zero_stress :
  ∃ r, get_study_analytics binary_dbms 1 2 zero_stress_store (at_day 10 12) = Ok r
    ∧ stress_levels r = [None; Some 0%Q] ∧ avg_stress r = None.
Proof. eexists. split; [by vm_compute|]. by split. Qed.


(** * Further properties of the analytics engine *)

(** ** What the series hold *)

(** X1: in the result of a window that can be represented, the hours of a day
    of the series are the minutes of the user's sessions of the window on
    that day, divided by 60 as a [Decimal] (0 for a day without sessions):
    the quotient, rounded at the 28th significant digit, and so within half
    of [10^-27] of it in relative terms. *)
Theorem study_hours_are_window_minutes
    (db : Dbms) (user_id days : Z) (engine : Store) (now : datetime) :
  window_representable days now →
  ∃ r, get_study_analytics db user_id days engine now = Ok r
    ∧ ∀ i d, dates r !! i = Some d →
        let m := minutes (sessions_on d
                   (window_sessions user_id (window_start days now) now engine)) in
        ∃ h, study_hours r !! i = Some h
             ∧ (h == decimal_div (inject_Z m) 60)%Q
             ∧ (Qabs (h - inject_Z m / 60)
                <= Qabs (inject_Z m / 60) * pow10 (1 - prec) / 2)%Q.
Proof.
  intros Hwindow.
  destruct (get_study_analytics_returns db user_id days engine now Hwindow)
    as (r & Hr & _ & Hhours & _).
  exists r. split; [done|]. intros i d Hd m.
  rewrite Hhours, list_lookup_fmap, Hd. cbn [fmap option_fmap option_map].
  eexists. split; [reflexivity|]. rewrite study_data_lookup. fold m.
  split; [reflexivity|]. apply context_round_close.
Qed.

Lemma study_hours_are_window_minutes_witness :
  ∃ r, get_study_analytics binary_dbms 1 3 three_days_store (at_day 10 12) = Ok r
    ∧ ∀ i d, dates r !! i = Some d →
        let m := minutes (sessions_on d
                   (window_sessions 1 (window_start 3 (at_day 10 12))
                      (at_day 10 12) three_days_store)) in
        ∃ h, study_hours r !! i = Some h
             ∧ (h == decimal_div (inject_Z m) 60)%Q
             ∧ (Qabs (h - inject_Z m / 60)
                <= Qabs (inject_Z m / 60) * pow10 (1 - prec) / 2)%Q.
Proof.
  apply (study_hours_are_window_minutes binary_dbms 1 3 three_days_store (at_day 10 12)).
  by vm_compute.
Defined.

(** A quotient that is not a decimal fraction is rounded at the 28th digit,
    and the total adds such quotients up: three days of one minute make 0.1
    hours, where 3/60 rounds to 0. *)
Example total_of_three_minutes :
  ∃ r, get_study_analytics binary_dbms 1 3 three_minutes_store (at_day 10 12) = Ok r
    ∧ Forall (λ h, h == 0.01666666666666666666666666667)%Q (study_hours r)
    ∧ (total_study_hours r == 0.1)%Q
    ∧ (round (3 / 60) 1 == 0)%Q.
Proof.
  eexists. split; [by vm_compute|]. split_and!; [|done|done].
  repeat constructor.
Qed.

(** X2: in the result of a window that can be represented, the stress and
    energy of a day of the series are the means over the user's wellness
    entries of the window on that day, and null when there is none. *)
Theorem stress_and_energy_are_window_means
    (db : Dbms) (user_id days : Z) (engine : Store) (now : datetime) :
  window_representable days now →
  ∃ r, get_study_analytics db user_id days engine now = Ok r
    ∧ ∀ i d, dates r !! i = Some d →
        stress_levels r !! i
        = Some match entries_on d
                       (window_wellness user_id (window_start days now) now engine) with
               | [] => None
               | g => Some (mean_of WellnessEntry.stress_level g)
               end
        ∧ energy_levels r !! i
          = Some match entries_on d
                         (window_wellness user_id (window_start days now) now engine) with
                 | [] => None
                 | g => Some (mean_of WellnessEntry.energy_level g)
                 end.
Proof.
  intros Hwindow.
  destruct (get_study_analytics_returns db user_id days engine now Hwindow)
    as (r & Hr & _ & _ & Hstress & Henergy & _).
  exists r. split; [done|]. intros i d Hd.
  rewrite Hstress, Henergy, !list_lookup_fmap, Hd. cbn [fmap option_fmap option_map].
  by rewrite (mood_data_lookup _ _ _ _ row_avg_stress WellnessEntry.stress_level),
            (mood_data_lookup _ _ _ _ row_avg_energy WellnessEntry.energy_level).
Qed.

Lemma stress_and_energy_are_window_means_witness :
  ∃ r, get_study_analytics binary_dbms 1 3 three_days_store (at_day 10 12) = Ok r
    ∧ ∀ i d, dates r !! i = Some d →
        stress_levels r !! i
        = Some match entries_on d
                       (window_wellness 1 (window_start 3 (at_day 10 12))
                          (at_day 10 12) three_days_store) with
               | [] => None
               | g => Some (mean_of WellnessEntry.stress_level g)
               end
        ∧ energy_levels r !! i
          = Some match entries_on d
                         (window_wellness 1 (window_start 3 (at_day 10 12))
                            (at_day 10 12) three_days_store) with
                 | [] => None
                 | g => Some (mean_of WellnessEntry.energy_level g)
                 end.
Proof.
  apply (stress_and_energy_are_window_means
           binary_dbms 1 3 three_days_store (at_day 10 12)).
  by vm_compute.
Defined.

(** ** Empty windows *)

Lemma avg_or_none_all_none (xs : list (option Q)) :
  Forall (λ x, x = None) xs → avg_or_none xs = Ok None.
Proof.
  intros Hall. unfold avg_or_none.
  replace (existsb truthy xs) with false; [done|].
  induction Hall as [|x xs -> _ IH]; [done|]. by cbn.
Qed.

Lemma decimal_sum_zeros (xs : list Q) :
  Forall (λ x, x = 0%Q) xs → decimal_sum xs = 0%Q.
Proof.
  unfold decimal_sum. induction 1 as [|x xs -> _ IH]; [done|].
  cbn [foldl]. exact IH.
Qed.

(** No selected session, no subject. *)
Lemma subject_totals_nil (db : Dbms) :
  sql_semantics db → subject_totals db [] = [].
Proof.
  intros Hdb. destruct (subjects_grouped db Hdb []) as [Hrows _].
  destruct (subject_totals db []) as [|row rows]; [done|].
  apply Forall_cons in Hrows as [(s & Hs & _) _]. by apply elem_of_nil in Hs.
Qed.

(** X4: for [days <= 0], when [now - (days - 1) days] is a date that can be
    represented (not after year 9999), the four series and the subject
    breakdown are empty, the total is 0 and the averages are null. *)
Theorem analytics_of_no_days
    (db : Dbms) (user_id days : Z) (engine : Store) (now : datetime) :
  sql_semantics db →
  days ≤ 0 →
  window_representable days now →
  ∃ r, get_study_analytics db user_id days engine now = Ok r
    ∧ dates r = [] ∧ study_hours r = []
    ∧ stress_levels r = [] ∧ energy_levels r = []
    ∧ subjects_labels r = [] ∧ subjects_data r = []
    ∧ (total_study_hours r == 0)%Q
    ∧ avg_stress r = None ∧ avg_energy r = None.
Proof.
  intros Hdb Hdays Hwindow.
  destruct (get_study_analytics_returns db user_id days engine now Hwindow)
    as (r & Hr & Hdates & Hhours & Hstress & Henergy & Has & Hae
        & Htotal & Hlabels & Hdata).
  assert (dates r = []) as Hnil
    by (rewrite Hdates; unfold range; by rewrite seqZ_nil).
  rewrite Hnil in Hhours, Hstress, Henergy. cbn in Hhours, Hstress, Henergy.
  rewrite Hstress in Has. rewrite Henergy in Hae. cbn in Has, Hae.
  assert (window_sessions user_id (window_start days now) now engine = []) as Hwin.
  { apply filter_none. intros s _ (_ & Hlo & Hhi).
    unfold window_start, timedelta, usec_per_day in *. lia. }
  unfold subjects in Hlabels, Hdata.
  rewrite Hwin, (subject_totals_nil db Hdb) in Hlabels, Hdata.
  exists r. split_and!; try done; try congruence.
  rewrite Htotal, Hhours. reflexivity.
Qed.

Lemma analytics_of_no_days_witness :
  ∃ r, get_study_analytics binary_dbms 1 0 three_days_store (at_day 10 12) = Ok r
    ∧ dates r = [] ∧ study_hours r = []
    ∧ stress_levels r = [] ∧ energy_levels r = []
    ∧ subjects_labels r = [] ∧ subjects_data r = []
    ∧ (total_study_hours r == 0)%Q
    ∧ avg_stress r = None ∧ avg_energy r = None.
Proof.
  apply (analytics_of_no_days binary_dbms 1 0 three_days_store (at_day 10 12));
    [apply binary_dbms_semantics | lia | by vm_compute].
Defined.

(** After year 9999 there is no such window: on 2026-11-03 the call raises
    for [days = -2914000]. *)
Example analytics_overflow_after_year_9999 :
  get_study_analytics binary_dbms 1 (-2914000) three_days_store noon_2026_11_03
  = Raise OverflowError.
Proof. by vm_compute. Qed.

(** X5: when the user has no study session and no wellness entry in a window
    that can be represented, every day has 0 hours and null stress and
    energy, the subject breakdown is empty, the total is 0 and both averages
    are null. *)
Theorem analytics_of_empty_window
    (db : Dbms) (user_id days : Z) (engine : Store) (now : datetime) :
  sql_semantics db →
  window_representable days now →
  (∀ s, s ∈ study_sessions engine → StudySession.user_id s = user_id →
        ¬ (window_start days now ≤ StudySession.created_at s ≤ now)) →
  (∀ w, w ∈ wellness_entries engine → WellnessEntry.user_id w = user_id →
        ¬ (window_start days now ≤ WellnessEntry.created_at w ≤ now)) →
  ∃ r, get_study_analytics db user_id days engine now = Ok r
    ∧ Forall (λ h, h = 0%Q) (study_hours r)
    ∧ Forall (λ x, x = None) (stress_levels r)
    ∧ Forall (λ x, x = None) (energy_levels r)
    ∧ subjects_labels r = [] ∧ subjects_data r = []
    ∧ (total_study_hours r == 0)%Q
    ∧ avg_stress r = None ∧ avg_energy r = None.
Proof.
  intros Hdb Hwindow Hs Hw.
  destruct (get_study_analytics_returns db user_id days engine now Hwindow)
    as (r & Hr & Hdates & Hhours & Hstress & Henergy & Has & Hae
        & Htotal & Hlabels & Hdata).
  assert (window_sessions user_id (window_start days now) now engine = []) as Hwin.
  { apply filter_none. intros s Hin (Hu & Hlo & Hhi). by apply (Hs s). }
  assert (window_wellness user_id (window_start days now) now engine = []) as Hwell.
  { apply filter_none. intros w Hin (Hu & Hlo & Hhi). by apply (Hw w). }
  unfold subjects in Hlabels, Hdata.
  rewrite Hwin, (subject_totals_nil db Hdb) in Hlabels, Hdata.
  unfold daily_data in Hhours. rewrite Hwin in Hhours.
  unfold mood_data in Hstress, Henergy. rewrite Hwell in Hstress, Henergy.
  assert (Forall (λ h, h = 0%Q) (study_hours r)) as Hzero.
  { rewrite Hhours. apply Forall_fmap, Forall_forall. intros d _. cbn.
    by rewrite lookup_empty. }
  assert (Forall (λ x, x = None) (stress_levels r)) as Hns.
  { rewrite Hstress. apply Forall_fmap, Forall_forall. intros d _. cbn.
    by rewrite lookup_empty. }
  assert (Forall (λ x, x = None) (energy_levels r)) as Hne.
  { rewrite Henergy. apply Forall_fmap, Forall_forall. intros d _. cbn.
    by rewrite lookup_empty. }
  rewrite (avg_or_none_all_none _ Hns) in Has.
  rewrite (avg_or_none_all_none _ Hne) in Hae.
  exists r. split_and!; try done; try congruence.
  rewrite Htotal, (decimal_sum_zeros _ Hzero). reflexivity.
Qed.

Lemma analytics_of_empty_window_witness :
  ∃ r, get_study_analytics binary_dbms 2 3 three_days_store (at_day 10 12) = Ok r
    ∧ Forall (λ h, h = 0%Q) (study_hours r)
    ∧ Forall (λ x, x = None) (stress_levels r)
    ∧ Forall (λ x, x = None) (energy_levels r)
    ∧ subjects_labels r = [] ∧ subjects_data r = []
    ∧ (total_study_hours r == 0)%Q
    ∧ avg_stress r = None ∧ avg_energy r = None.
Proof.
  apply (analytics_of_empty_window binary_dbms 2 3 three_days_store (at_day 10 12)).
  - apply binary_dbms_semantics.
  - by vm_compute.
  - intros s Hs Hu. simpl in Hs. rewrite !elem_of_cons, elem_of_nil in Hs.
    destruct Hs as [-> | [-> | [-> | []]]]; discriminate Hu.
  - intros w Hw Hu. simpl in Hw. rewrite !elem_of_cons, elem_of_nil in Hw.
    destruct Hw as [-> | [-> | [-> | []]]]; discriminate Hu.
Defined.

(** ** Rows of other users *)

Section isolation.
Variables (user_id : Z) (a b : Store).
Hypothesis same_sessions :
  filter (λ s, StudySession.user_id s = user_id) (study_sessions a)
  = filter (λ s, StudySession.user_id s = user_id) (study_sessions b).
Hypothesis same_wellness :
  filter (λ w, WellnessEntry.user_id w = user_id) (wellness_entries a)
  = filter (λ w, WellnessEntry.user_id w = user_id) (wellness_entries b).

Lemma window_sessions_own (start_date end_date : datetime) :
  window_sessions user_id start_date end_date a
  = window_sessions user_id start_date end_date b.
Proof using same_sessions.
  unfold window_sessions.
  rewrite <- (list_filter_filter_l _ (λ s, StudySession.user_id s = user_id)
                (study_sessions a)) by tauto.
  rewrite <- (list_filter_filter_l _ (λ s, StudySession.user_id s = user_id)
                (study_sessions b)) by tauto.
  by rewrite same_sessions.
Qed.

Lemma window_wellness_own (start_date end_date : datetime) :
  window_wellness user_id start_date end_date a
  = window_wellness user_id start_date end_date b.
Proof using same_wellness.
  unfold window_wellness.
  rewrite <- (list_filter_filter_l _ (λ w, WellnessEntry.user_id w = user_id)
                (wellness_entries a)) by tauto.
  rewrite <- (list_filter_filter_l _ (λ w, WellnessEntry.user_id w = user_id)
                (wellness_entries b)) by tauto.
  by rewrite same_wellness.
Qed.

Lemma week_sessions_own (now : datetime) :
  week_sessions user_id a now = week_sessions user_id b now.
Proof using same_sessions.
  unfold week_sessions.
  rewrite <- (list_filter_filter_l _ (λ s, StudySession.user_id s = user_id)
                (study_sessions a)) by tauto.
  rewrite <- (list_filter_filter_l _ (λ s, StudySession.user_id s = user_id)
                (study_sessions b)) by tauto.
  by rewrite same_sessions.
Qed.

Lemma week_wellness_own (now : datetime) :
  week_wellness user_id a now = week_wellness user_id b now.
Proof using same_wellness.
  unfold week_wellness.
  rewrite <- (list_filter_filter_l _ (λ w, WellnessEntry.user_id w = user_id)
                (wellness_entries a)) by tauto.
  rewrite <- (list_filter_filter_l _ (λ w, WellnessEntry.user_id w = user_id)
                (wellness_entries b)) by tauto.
  by rewrite same_wellness.
Qed.
End isolation.

(** X7: rows of other users never count: two stores that hold the same study
    sessions and wellness entries for a user give that user the same
    analytics, the same productivity score and the same recommendations,
    or raise alike. *)
Theorem other_users_rows_do_not_count (db : Dbms) (user_id : Z) (a b : Store) :
  filter (λ s, StudySession.user_id s = user_id) (study_sessions a)
  = filter (λ s, StudySession.user_id s = user_id) (study_sessions b) →
  filter (λ w, WellnessEntry.user_id w = user_id) (wellness_entries a)
  = filter (λ w, WellnessEntry.user_id w = user_id) (wellness_entries b) →
  (∀ days now, get_study_analytics db user_id days a now
               = get_study_analytics db user_id days b now)
  ∧ (∀ now, calculate_productivity_score user_id a now
            = calculate_productivity_score user_id b now)
  ∧ generate_study_recommendations db user_id a
    = generate_study_recommendations db user_id b.
Proof.
  intros Hs Hw. split_and!.
  - intros days now. unfold get_study_analytics. cbv zeta.
    destruct (timedelta_days (days - 1)) as [e | delta]; [done|]. cbn [bind].
    destruct (datetime_sub now delta) as [e | start_date]; [done|]. cbn [bind].
    unfold daily_data, mood_data, subjects.
    by rewrite (window_sessions_own _ _ _ Hs), (window_wellness_own _ _ _ Hw).
  - intros now.
    unfold calculate_productivity_score, total_score, study_score, study_time,
      consistency_score, study_days, mood_score, avg_mood.
    by rewrite (week_sessions_own _ _ _ Hs), (week_wellness_own _ _ _ Hw).
  - unfold generate_study_recommendations, recent_sessions, recent_wellness.
    by rewrite Hs, Hw.
Qed.

Lemma other_users_rows_do_not_count_witness :
  get_study_analytics binary_dbms 1 3 three_days_store (at_day 10 12)
  = get_study_analytics binary_dbms 1 3
      (mkStore (StudySession.mk 2 "physics" 120 None (at_day 9 10)
                  :: study_sessions three_days_store)
               (WellnessEntry.mk 2 10 1 (at_day 10 8)
                  :: wellness_entries three_days_store))
      (at_day 10 12).
Proof.
  apply (other_users_rows_do_not_count binary_dbms 1 three_days_store
           (mkStore (StudySession.mk 2 "physics" 120 None (at_day 9 10)
                       :: study_sessions three_days_store)
                    (WellnessEntry.mk 2 10 1 (at_day 10 8)
                       :: wellness_entries three_days_store)));
    reflexivity.
Defined.

(** * Further properties of the productivity score *)

Lemma sumQ_between (lo hi : Q) (l : list Q) :
  Forall (λ q, lo <= q <= hi)%Q l →
  (lo * inject_Z (Z.of_nat (length l)) <= sumQ l
   ∧ sumQ l <= hi * inject_Z (Z.of_nat (length l)))%Q.
Proof.
  induction 1 as [|q l [Hlo Hhi] _ [IHlo IHhi]].
  - cbn. split; apply Qle_lteq; right; ring.
  - rewrite sumQ_cons. cbn [length]. rewrite Nat2Z.inj_succ.
    unfold Z.succ. rewrite inject_Z_plus.
    set (N := inject_Z (Z.of_nat (length l))) in *.
    assert (lo * (N + inject_Z 1) == lo + lo * N)%Q as -> by ring.
    assert (hi * (N + inject_Z 1) == hi + hi * N)%Q as -> by ring.
    split; by apply Qplus_le_compat.
Qed.

(** The average of a non-empty list lies between the bounds of its members. *)
Lemma sql_avg_between (lo hi : Q) (l : list Q) (q : Q) :
  Forall (λ q, lo <= q <= hi)%Q l → sql_avg l = Some q → (lo <= q <= hi)%Q.
Proof.
  intros Hall Hq. destruct (sumQ_between lo hi l Hall) as [Hlo Hhi].
  destruct l as [|x l]; [done|]. injection Hq as <-.
  assert (0 < inject_Z (Z.of_nat (length (x :: l))))%Q as Hlen.
  { change 0%Q with (inject_Z 0). rewrite <- Zlt_Qlt. cbn [length]. lia. }
  split.
  - apply Qle_shift_div_l; done.
  - apply Qle_shift_div_r; done.
Qed.

Lemma sumZ_nonneg (l : list Z) : Forall (λ z, 0 ≤ z) l → 0 ≤ sumZ l.
Proof. induction 1 as [|z l Hz _ IH]; [done|]. rewrite sumZ_cons. lia. Qed.

(** Divisions by the constants of the score, as fractions [lra] can read. *)
Ltac q_consts :=
  unfold Qdiv in *;
  change (/ 60)%Q with (1 # 60)%Q in *;
  change (/ 24)%Q with (1 # 24)%Q in *;
  change (/ 20)%Q with (1 # 20)%Q in *;
  change (/ 7)%Q with (1 # 7)%Q in *;
  change (/ 9)%Q with (1 # 9)%Q in *.

Section productivity_bounds.
Variables (user_id : Z) (session : Store) (now : datetime).

(** One 24th of a point per minute, up to 1200 minutes. *)
Lemma study_score_per_minute :
  returns (study_score user_id session now)
    (λ v, v == inject_Z (Z.min (minutes (week_sessions user_id session now)) 1200)
               / 24)%Q.
Proof.
  destruct (study_score_cases user_id session now)
    as [(_ & q & -> & Hq) | (_ & q & -> & Hq)]; by eexists.
Qed.

Lemma study_score_between :
  Forall (λ s, 0 ≤ StudySession.duration s) (week_sessions user_id session now) →
  returns (study_score user_id session now) (λ v, 0 <= v <= 50)%Q.
Proof.
  intros Hdur. destruct study_score_per_minute as (x & Hx & Hv).
  exists x. split; [done|]. rewrite Hv.
  assert (0 ≤ minutes (week_sessions user_id session now)) as Hm
    by (apply sumZ_nonneg; by apply Forall_fmap).
  set (m := Z.min _ 1200) in *.
  assert (0 <= inject_Z m <= 1200)%Q as [? ?].
  { split.
    - change 0%Q with (inject_Z 0). rewrite <- Zle_Qle. lia.
    - change 1200%Q with (inject_Z 1200). rewrite <- Zle_Qle. lia. }
  q_consts. split; lra.
Qed.

(** Without rows from the future the week's window touches eight calendar
    days, no more. *)
Lemma study_days_between :
  Forall (λ s, StudySession.created_at s ≤ now) (week_sessions user_id session now) →
  0 ≤ study_days user_id session now ≤ 8.
Proof.
  intros Hpast. unfold study_days, sql_count_distinct. split; [lia|].
  set (l := (date ∘ StudySession.created_at) <$> week_sessions user_id session now).
  assert (remove_dups l ⊆+ seqZ (date now - 7) 8) as Hsub.
  { apply NoDup_submseteq; [apply NoDup_remove_dups|].
    intros d Hd. rewrite elem_of_remove_dups in Hd. unfold l in Hd.
    apply list_elem_of_fmap in Hd as (s & -> & Hs).
    pose proof (proj1 (Forall_forall _ _) Hpast s Hs) as Hle. cbn in Hle.
    apply list_elem_of_filter in Hs as [(_ & Hlo) _].
    apply date_mono in Hle, Hlo. unfold week_ago in Hlo.
    replace (now - timedelta 7) with (now + timedelta (-7)) in Hlo
      by (unfold timedelta; lia).
    rewrite date_timedelta in Hlo.
    apply elem_of_seqZ. cbn. lia. }
  apply submseteq_length in Hsub. rewrite length_seqZ in Hsub. lia.
Qed.

Lemma avg_mood_between :
  Forall on_scale (week_wellness user_id session now) →
  (1 <= value (avg_mood user_id session now) <= 10)%Q.
Proof.
  intros Hscale.
  destruct (avg_mood_cases user_id session now) as [[_ ->] | [_ (q & -> & Hq)]];
    [split; discriminate|].
  cbn [value]. eapply (sql_avg_between 1 10); [|exact Hq].
  apply Forall_fmap. eapply Forall_impl; [exact Hscale|].
  intros w [[Hlo Hhi] _]. cbn. split.
  - change 1%Q with (inject_Z 1). by rewrite <- Zle_Qle.
  - change 10%Q with (inject_Z 10). by rewrite <- Zle_Qle.
Qed.

Lemma mood_score_between :
  Forall on_scale (week_wellness user_id session now) →
  returns (mood_score user_id session now) (λ v, 0 <= v <= 20)%Q.
Proof.
  intros Hscale. pose proof (avg_mood_between Hscale) as Havg.
  destruct (mood_score_value user_id session now) as (x & Hx & Hv).
  exists x. split; [done|]. rewrite Hv. q_consts. split; lra.
Qed.
End productivity_bounds.

(** The three bounds that the theorem below rests on. *)
Lemma sub_scores_range_helper (user_id : Z) (session : Store) (now : datetime) :
  (∀ s, s ∈ study_sessions session → StudySession.user_id s = user_id →
        0 ≤ StudySession.duration s ∧ StudySession.created_at s ≤ now) →
  (∀ w, w ∈ wellness_entries session → WellnessEntry.user_id w = user_id →
        on_scale w) →
  returns (study_score user_id session now) (λ v, 0 <= v <= 50)%Q
  ∧ 0 ≤ study_days user_id session now ≤ 8
  ∧ returns (mood_score user_id session now) (λ v, 0 <= v <= 20)%Q.
Proof.
  intros Hs Hw.
  assert (Forall (λ s, 0 ≤ StudySession.duration s ∧ StudySession.created_at s ≤ now)
            (week_sessions user_id session now)) as Hweek.
  { apply Forall_forall. intros s Hin.
    apply list_elem_of_filter in Hin as [(Hu & _) Hin]. by apply Hs. }
  assert (Forall on_scale (week_wellness user_id session now)) as Hwell.
  { apply Forall_forall. intros w Hin.
    apply list_elem_of_filter in Hin as [(Hu & _) Hin]. by apply Hw. }
  split; [|split].
  - apply study_score_between. eapply Forall_impl; [exact Hweek|]. by intros s [? _].
  - apply study_days_between. eapply Forall_impl; [exact Hweek|]. by intros s [_ ?].
  - apply (mood_score_between user_id session now Hwell).
Qed.

(** X8: the three sub-scores do not always add up.  The study-time score is a
    [Decimal] when the week holds from 1 to 1200 minutes of study, and the
    mood score is a [Decimal] when the week holds wellness entries (their
    stress levels not adding up to 0); the consistency score is a [float].
    In these cases, and only then, the sum raises [TypeError]; otherwise the
    score is returned and lies between 0 and 100. *)
Theorem productivity_score_raises_on_decimals (user_id : Z) (session : Store) (now : datetime) :
  (((minutes (week_sessions user_id session now) ≠ 0
     ∧ minutes (week_sessions user_id session now) ≤ 1200)
    ∨ sumZ (WellnessEntry.stress_level <$> week_wellness user_id session now) ≠ 0)
   ∧ calculate_productivity_score user_id session now = Raise TypeError)
  ∨ (((minutes (week_sessions user_id session now) = 0
       ∨ 1200 < minutes (week_sessions user_id session now))
      ∧ sumZ (WellnessEntry.stress_level <$> week_wellness user_id session now) = 0)
     ∧ returns (calculate_productivity_score user_id session now)
         (λ v, 0 <= v <= 100)%Q).
Proof.
  unfold calculate_productivity_score, total_score.
  rewrite consistency_score_float.
  destruct (study_score_cases user_id session now)
    as [(Hm & q & -> & _) | (Hm & q & -> & _)]; cbn [bind add binop].
  - destruct (avg_mood_cases user_id session now) as [[Hw Ha] | [Hw (a & Ha & _)]].
    + destruct (mood_score_cases user_id session now)
        as [[_ ->] | (a' & Ha' & _)]; [|congruence].
      right. split; [done|]. cbn [bind add binop].
      eexists. split; [reflexivity|]. apply clamp_between.
    + destruct (mood_score_cases user_id session now)
        as [[Ha' _] | (a' & _ & ->)]; [congruence|].
      left. split; [by right | done].
  - destruct (mood_score_cases user_id session now) as [[_ ->] | (a & _ & ->)];
      (left; split; [by left | done]).
Qed.

(** With study and wellness rows in the week the score is not returned. *)
Example productivity_score_of_three_days :
  calculate_productivity_score 1 three_days_store (at_day 10 12) = Raise TypeError.
Proof. reflexivity. Qed.


(** X10: for rows with non-negative durations, stress levels on the scale and no
    creation time in the future, the study-time score lies in [0, 50], the
    days counted for consistency in [0, 8], the consistency score in
    [0, 8/7 * 30] and the mood score in [0, 20]. *)
Theorem sub_scores_in_range (user_id : Z) (session : Store) (now : datetime) :
  (∀ s, s ∈ study_sessions session → StudySession.user_id s = user_id →
        0 ≤ StudySession.duration s ∧ StudySession.created_at s ≤ now) →
  (∀ w, w ∈ wellness_entries session → WellnessEntry.user_id w = user_id →
        on_scale w) →
  returns (study_score user_id session now) (λ v, 0 <= v <= 50)%Q
  ∧ 0 ≤ study_days user_id session now ≤ 8
  ∧ returns (consistency_score user_id session now) (λ v, 0 <= v <= 8 / 7 * 30)%Q
  ∧ returns (mood_score user_id session now) (λ v, 0 <= v <= 20)%Q.
Proof.
  intros Hs Hw.
  destruct (sub_scores_range_helper user_id session now Hs Hw)
    as (Hstudy & Hdays & Hmood).
  split; [done|]. split; [done|]. split; [|done].
  rewrite consistency_score_float. eexists. split; [reflexivity|]. cbn [value].
  assert (0 <= inject_Z (study_days user_id session now) <= 8)%Q as [? ?].
  { split.
    - change 0%Q with (inject_Z 0). rewrite <- Zle_Qle. apply Hdays.
    - change 8%Q with (inject_Z 8). rewrite <- Zle_Qle. apply Hdays. }
  change (inject_Z 7) with 7%Q. change (inject_Z 30) with 30%Q.
  q_consts. split; lra.
Qed.

Lemma sub_scores_in_range_witness :
  returns (study_score 1 eight_days_store (at_day 10 12)) (λ v, 0 <= v <= 50)%Q
  ∧ 0 ≤ study_days 1 eight_days_store (at_day 10 12) ≤ 8
  ∧ returns (consistency_score 1 eight_days_store (at_day 10 12))
      (λ v, 0 <= v <= 8 / 7 * 30)%Q
  ∧ returns (mood_score 1 eight_days_store (at_day 10 12)) (λ v, 0 <= v <= 20)%Q.
Proof.
  apply (sub_scores_in_range 1 eight_days_store (at_day 10 12)).
  - intros s Hs _. simpl in Hs. rewrite !elem_of_cons, elem_of_nil in Hs.
    repeat (destruct Hs as [-> | Hs]; [by vm_compute|]). destruct Hs.
  - intros w Hw. simpl in Hw. by apply elem_of_nil in Hw.
Defined.

(** * Further properties of the recommendations *)

Lemma sumZ_at_most {A : Type} (f : A → Z) (b : Z) (g : list A) :
  Forall (λ a, f a ≤ b) g → sumZ (f <$> g) ≤ b * Z.of_nat (length g).
Proof.
  induction 1 as [|a g Ha _ IH]; [cbn; lia|].
  rewrite fmap_cons, sumZ_cons. cbn [length]. lia.
Qed.

(** X12: on every engine the two queries return the user's five most recent
    rows (all of them when there are fewer), newest first: no row left out is
    more recent than a row returned. *)
Theorem recent_rows_are_the_latest_five (db : Dbms) (user_id : Z) (session : Store) :
  sql_semantics db →
  (length (recent_sessions db user_id session)
   = (5 `min` length (filter (λ s, StudySession.user_id s = user_id)
                             (study_sessions session)))%nat
   ∧ StronglySorted session_desc (recent_sessions db user_id session)
   ∧ ∃ older,
       recent_sessions db user_id session ++ older
         ≡ₚ filter (λ s, StudySession.user_id s = user_id) (study_sessions session)
       ∧ ∀ s o, s ∈ recent_sessions db user_id session → o ∈ older →
                StudySession.created_at o ≤ StudySession.created_at s)
  ∧ (length (recent_wellness db user_id session)
     = (5 `min` length (filter (λ w, WellnessEntry.user_id w = user_id)
                               (wellness_entries session)))%nat
     ∧ StronglySorted wellness_desc (recent_wellness db user_id session)
     ∧ ∃ older,
         recent_wellness db user_id session ++ older
           ≡ₚ filter (λ w, WellnessEntry.user_id w = user_id) (wellness_entries session)
         ∧ ∀ w o, w ∈ recent_wellness db user_id session → o ∈ older →
                  WellnessEntry.created_at o ≤ WellnessEntry.created_at w).
Proof.
  intros Hdb. split.
  - exact (recent_sessions_most_recent db user_id session Hdb).
  - exact (recent_wellness_most_recent db user_id session Hdb).
Qed.

Lemma recent_rows_are_the_latest_five_witness :
  length (recent_wellness binary_dbms 1 same_instant_store) = 5%nat
  ∧ StronglySorted wellness_desc (recent_wellness binary_dbms 1 same_instant_store).
Proof.
  destruct (recent_rows_are_the_latest_five binary_dbms 1 same_instant_store
              binary_dbms_semantics) as [_ (Hlen & Hsorted & _)].
  split; [exact Hlen | exact Hsorted].
Defined.

(** X13: the break recommendation, always first when present, is returned exactly
    when the user has at least one stored study session and the at most five
    most recent ones last strictly more than 60 minutes on average, that is
    when their minutes exceed 60 times their number.  The five most recent
    sessions are a choice [recent] of the engine among the stored sessions of
    the user: all of them when there are at most five, newest first, and none
    of the sessions left out is more recent than a session chosen. *)
Theorem break_rule_is_strict (db : Dbms) (user_id : Z) (session : Store) :
  sql_semantics db →
  ∃ recs recent,
    generate_study_recommendations db user_id session = Ok recs
    ∧ most_recent StudySession.created_at 5 (sessions_of user_id session) recent
    ∧ (break_recommendation ∈ recs
       ↔ (∃ s, s ∈ study_sessions session ∧ StudySession.user_id s = user_id)
         ∧ 60 * Z.of_nat (length recent) < minutes recent)
    ∧ (break_recommendation ∈ recs → head recs = Some break_recommendation).
Proof.
  intros Hdb.
  pose proof (long_sessions_rule_stored db user_id session Hdb) as Hrule.
  pose proof (recent_sessions_most_recent db user_id session Hdb) as Hrecent.
  assert (Hnot : ∀ recs, recs = [wellness_recommendation] ∨ recs = general_tips →
                         break_recommendation ∉ recs).
  { intros recs [-> | ->] H; elem_cases H. }
  destruct (generate_study_recommendations_cases db user_id session)
    as [(Hl & Hh & ->) | [(Hl & Hh & ->) | [(Hl & Hh & ->) | (Hl & Hh & ->)]]];
    eexists; exists (recent_sessions db user_id session);
    (split; [reflexivity|]); (split; [exact Hrecent|]); rewrite <- Hrule.
  - split; [|done]. split; [done|]. intros _. left.
  - split; [|done]. split; [done|]. intros _. left.
  - split; [split; [|done] | ]; intros Hin; exfalso;
      (eapply Hnot; [|exact Hin]); by left.
  - split; [split; [|done] | ]; intros Hin; exfalso;
      (eapply Hnot; [|exact Hin]); by right.
Qed.

Lemma break_rule_is_strict_witness :
  ∃ recs recent,
    generate_study_recommendations binary_dbms 1 three_days_store = Ok recs
    ∧ most_recent StudySession.created_at 5 (sessions_of 1 three_days_store) recent
    ∧ (break_recommendation ∈ recs
       ↔ (∃ s, s ∈ study_sessions three_days_store ∧ StudySession.user_id s = 1)
         ∧ 60 * Z.of_nat (length recent) < minutes recent)
    ∧ (break_recommendation ∈ recs → head recs = Some break_recommendation).
Proof.
  apply (break_rule_is_strict binary_dbms 1 three_days_store).
  apply binary_dbms_semantics.
Defined.

(** X14: on every engine a user whose study sessions all last at most 60
    minutes and whose stress levels are all at most 7 gets the two generic
    tips, whatever else the store holds. *)
Theorem calm_history_gives_generic_tips (db : Dbms) (user_id : Z) (session : Store) :
  sql_semantics db →
  (∀ s, s ∈ study_sessions session → StudySession.user_id s = user_id →
        StudySession.duration s ≤ 60) →
  (∀ w, w ∈ wellness_entries session → WellnessEntry.user_id w = user_id →
        WellnessEntry.stress_level w ≤ 7) →
  generate_study_recommendations db user_id session = Ok general_tips.
Proof.
  intros Hdb Hs Hw.
  assert (¬ long_sessions_rule db user_id session) as Hl.
  { unfold long_sessions_rule, mean_duration. intros [Hne Hlt].
    destruct (recent_sessions db user_id session) as [|s ss] eqn:Hrec; [done|].
    change 60%Q with (inject_Z 60) in Hlt.
    rewrite mean_above in Hlt by (cbn [length]; lia).
    assert (Forall (λ s, StudySession.duration s ≤ 60) (s :: ss)) as Hall.
    { apply Forall_forall. intros x Hx. rewrite <- Hrec in Hx.
      apply (recent_sessions_elem db user_id session Hdb) in Hx as [Hx Hu].
      by apply Hs. }
    apply sumZ_at_most in Hall. lia. }
  assert (¬ high_stress_rule db user_id session) as Hh.
  { unfold high_stress_rule, mean_of. intros [Hne Hlt].
    destruct (recent_wellness db user_id session) as [|w ws] eqn:Hrec; [done|].
    change 7%Q with (inject_Z 7) in Hlt.
    rewrite mean_above in Hlt by (cbn [length]; lia).
    assert (Forall (λ w, WellnessEntry.stress_level w ≤ 7) (w :: ws)) as Hall.
    { apply Forall_forall. intros x Hx. rewrite <- Hrec in Hx.
      apply (recent_wellness_elem db user_id session Hdb) in Hx as [Hx Hu].
      by apply Hw. }
    apply sumZ_at_most in Hall. lia. }
  destruct (generate_study_recommendations_cases db user_id session)
    as [(? & ? & ?) | [(? & ? & ?) | [(? & ? & ?) | (_ & _ & ->)]]]; done.
Qed.

Lemma calm_history_gives_generic_tips_witness :
  generate_study_recommendations binary_dbms 1 (stress_store [7; 7; 7; 7; 7])
  = Ok general_tips.
Proof.
  apply (calm_history_gives_generic_tips binary_dbms 1 (stress_store [7; 7; 7; 7; 7])).
  - apply binary_dbms_semantics.
  - intros s Hs _. simpl in Hs. by apply elem_of_nil in Hs.
  - intros w Hw _. simpl in Hw. rewrite !elem_of_cons, elem_of_nil in Hw.
    repeat (destruct Hw as [-> | Hw]; [by vm_compute|]). destruct Hw.
Defined.

(** * Further properties of the sentiment scoring *)

(** X16: a strictly positive score is stored only when the classifier answered
    POSITIVE, and it is then the confidence of that answer; every other
    outcome (another label, an exception, no classifier, empty notes) stores
    a score that is zero or negative. *)
Theorem positive_score_only_for_positive_label
    (sentiment_analyzer : option pipeline) (notes : string) (q : Q) :
  (∀ classify t l c, sentiment_analyzer = Some classify →
                     classify t = Ok (l, c) → (0 <= c <= 1)%Q) →
  (new_study_session_sentiment_score sentiment_analyzer notes).2 = Ok q →
  (0 < q)%Q →
  ∃ classify, sentiment_analyzer = Some classify
              ∧ classify notes = Ok ("POSITIVE"%string, q).
Proof.
  intros Hconf Hq Hpos.
  destruct notes as [|a t]; [cbn in Hq; injection Hq as <-; done|].
  destruct sentiment_analyzer as [classify|];
    [|cbn in Hq; injection Hq as <-; done].
  exists classify. split; [done|].
  destruct (classify (String a t)) as [e | [l c]] eqn:Hc.
  - unfold new_study_session_sentiment_score, analyze_sentiment in Hq.
    rewrite Hc in Hq. cbn in Hq. injection Hq as <-. done.
  - rewrite (stored_score_of_answer _ classify a t l c eq_refl Hc) in Hq.
    cbn in Hq. injection Hq as <-.
    destruct (decide (l = "POSITIVE"%string)) as [-> | Hne]; [done|].
    specialize (Hconf classify (String a t) l c eq_refl Hc). lra.
Qed.

Lemma positive_score_only_for_positive_label_witness :
  ∃ classify, Some (λ _ : string, Ok ("POSITIVE"%string, 3 # 4)%Q) = Some classify
              ∧ classify "a good day"%string = Ok ("POSITIVE"%string, (3 # 4)%Q).
Proof.
  apply (positive_score_only_for_positive_label
           (Some (λ _, Ok ("POSITIVE"%string, 3 # 4)%Q)) "a good day" (3 # 4)).
  - intros classify t l c [= <-] [= _ <-]. split; discriminate.
  - reflexivity.
  - reflexivity.
Defined.

(** * Wellness tips *)

Section wellness_tips_facts.
Variable engine : list WellnessTip.t.
Variable lower : string → string.
Variable sql_eq : string → string → bool.

Abbreviation body := (get_wellness_tips_body engine lower sql_eq).
Abbreviation tips_for := (get_wellness_tips engine lower sql_eq).

(** Without a category the body never calls itself. *)
Lemma get_wellness_tips_body_None (self : Z → option string → list Tip.t) (s : Z) :
  body self s None = tip_dict <$> covering engine s.
Proof.
  unfold get_wellness_tips_body. cbn.
  by destruct (tip_dict <$> covering engine s).
Qed.

(** The body only ever calls itself without a category. *)
Lemma get_wellness_tips_body_ext (f g : Z → option string → list Tip.t)
    (s : Z) (category : option string) :
  f s None = g s None → body f s category = body g s category.
Proof.
  intros Hfg. unfold get_wellness_tips_body. cbv zeta.
  repeat case_match; try done; congruence.
Qed.

(** The function satisfies the recursive equation of the source. *)
Lemma get_wellness_tips_unfold (s : Z) (category : option string) :
  tips_for s category = body tips_for s category.
Proof.
  unfold get_wellness_tips at 1. apply get_wellness_tips_body_ext.
  unfold get_wellness_tips. by rewrite !get_wellness_tips_body_None.
Qed.

Lemma get_wellness_tips_None (s : Z) :
  tips_for s None = tip_dict <$> covering engine s.
Proof. unfold get_wellness_tips. apply get_wellness_tips_body_None. Qed.

Lemma truthy_str_false (c : string) : truthy_str (Some c) = false → c = ""%string.
Proof. by destruct c. Qed.

Lemma get_wellness_tips_Some (s : Z) (c : string) :
  tips_for s (Some c)
  = tip_dict <$> (if decide (c = ""%string ∨ in_category engine lower sql_eq s c = [])
                  then covering engine s else in_category engine lower sql_eq s c).
Proof.
  rewrite get_wellness_tips_unfold. unfold get_wellness_tips_body. cbv zeta.
  fold (in_category engine lower sql_eq s c).
  destruct (truthy_str (Some c)) eqn:Ht.
  - destruct (in_category engine lower sql_eq s c) as [|tip rows] eqn:Hcat.
    + rewrite decide_True by (by right). cbn [fmap list_fmap].
      apply get_wellness_tips_None.
    + rewrite decide_False; [done|]. intros [-> | ?]; done.
  - apply truthy_str_false in Ht as ->. rewrite decide_True by (by left).
    by destruct (tip_dict <$> covering engine s).
Qed.
End wellness_tips_facts.

(** The two outcomes of the category filter. *)
Lemma wellness_tips_two_outcomes
    (engine : list WellnessTip.t) (lower : string → string)
    (sql_eq : string → string → bool) (stress_level : Z) (category : option string) :
  get_wellness_tips engine lower sql_eq stress_level category
  = tip_dict <$> covering engine stress_level
  ∨ ∃ c, in_category engine lower sql_eq stress_level c ≠ []
         ∧ category = Some c
         ∧ get_wellness_tips engine lower sql_eq stress_level category
           = tip_dict <$> in_category engine lower sql_eq stress_level c.
Proof.
  destruct category as [c|].
  - rewrite get_wellness_tips_Some.
    destruct (decide _) as [_ | Hno]; [by left|].
    right. exists c. split_and!; [tauto | done | done].
  - left. apply get_wellness_tips_None.
Qed.

(** X17: with a category that at least one covering tip has, the tips are the
    covering tips of that category; with no category, an empty one, or one no
    covering tip has, they are all the covering tips. In every case they come,
    in table order, from rows whose stress range covers the stress level. *)
Theorem wellness_tips_follow_the_category
    (engine : list WellnessTip.t) (lower : string → string)
    (sql_eq : string → string → bool) (stress_level : Z) (category : option string) :
  get_wellness_tips engine lower sql_eq stress_level category
  = tip_dict <$> match category with
                 | Some c =>
                     if decide (c = ""%string
                                ∨ in_category engine lower sql_eq stress_level c = [])
                     then covering engine stress_level
                     else in_category engine lower sql_eq stress_level c
                 | None => covering engine stress_level
                 end
  ∧ ∃ rows, get_wellness_tips engine lower sql_eq stress_level category = tip_dict <$> rows
            ∧ rows `sublist_of` engine
            ∧ Forall (λ tip, WellnessTip.min_stress_level tip ≤ stress_level
                             ≤ WellnessTip.max_stress_level tip) rows.
Proof.
  assert (Hcov : Forall (λ tip, WellnessTip.min_stress_level tip ≤ stress_level
                                ≤ WellnessTip.max_stress_level tip)
                        (covering engine stress_level)).
  { apply Forall_forall. intros tip Htip. by apply list_elem_of_filter in Htip as [? _]. }
  assert (Hsub : covering engine stress_level `sublist_of` engine)
    by apply sublist_filter.
  destruct category as [c|].
  - rewrite get_wellness_tips_Some. split; [done|].
    destruct (decide _) as [_ | _]; eexists; (split; [reflexivity|]).
    + by split.
    + split.
      * etrans; [apply sublist_filter | exact Hsub].
      * apply Forall_forall. intros tip Htip.
        apply list_elem_of_filter in Htip as [_ Htip].
        by apply (proj1 (Forall_forall _ _) Hcov).
  - rewrite get_wellness_tips_None. split; [done|]. eexists. by split_and!.
Qed.

(** X18: no tip is returned exactly when no row of the table covers the stress
    level, whatever the category asked for. *)
Theorem wellness_tips_empty_iff_uncovered
    (engine : list WellnessTip.t) (lower : string → string)
    (sql_eq : string → string → bool) (stress_level : Z) (category : option string) :
  get_wellness_tips engine lower sql_eq stress_level category = []
  ↔ ∀ tip, tip ∈ engine →
           ¬ (WellnessTip.min_stress_level tip ≤ stress_level
              ≤ WellnessTip.max_stress_level tip).
Proof.
  assert (Hcov : covering engine stress_level = []
                 ↔ ∀ tip, tip ∈ engine →
                          ¬ (WellnessTip.min_stress_level tip ≤ stress_level
                             ≤ WellnessTip.max_stress_level tip)).
  { split.
    - intros Hnil tip Htip Hc. by apply (filter_nil_not_elem_of _ _ tip Hnil).
    - intros Hno. by apply filter_none. }
  rewrite <- Hcov.
  destruct (wellness_tips_two_outcomes engine lower sql_eq stress_level category)
    as [-> | (c & Hne & Hsub & ->)].
  - split; [apply fmap_nil_inv | by intros ->].
  - split.
    + intros Hnil%fmap_nil_inv. done.
    + intros Hnil. exfalso. apply Hne. unfold in_category. by rewrite Hnil.
Qed.

(** * Tags *)

Lemma split_not_nil (sep : Ascii.ascii) (s : string) : split sep s ≠ [].
Proof.
  destruct s as [|c s]; [done|]. cbn [split].
  destruct (Ascii.eqb c sep); [done|]. by destruct (split sep s).
Qed.

(** Joining the pieces of a split gives the string back. *)
Lemma concat_split (s : string) : String.concat "," (split comma s) = s.
Proof.
  induction s as [|c s IH]; [done|]. cbn [split].
  pose proof (split_not_nil comma s) as Hne.
  destruct (split comma s) as [|w ws]; [done|].
  destruct (Ascii.eqb c comma) eqn:E.
  - apply Ascii.eqb_eq in E as ->.
    change (String.concat "," ("" :: w :: ws))
      with ("" ++ "," ++ String.concat "," (w :: ws))%string.
    by rewrite IH.
  - destruct ws as [|y ws]; [cbn in *; by rewrite IH|].
    change (String.concat "," (String c w :: y :: ws))
      with (String c (w ++ "," ++ String.concat "," (y :: ws)))%string.
    change (String.concat "," (w :: y :: ws))
      with (w ++ "," ++ String.concat "," (y :: ws))%string in IH.
    by rewrite IH.
Qed.

Lemma split_comma_free (s : string) : Forall comma_free (split comma s).
Proof.
  induction s as [|c s IH]; [by repeat constructor|]. cbn [split].
  destruct (Ascii.eqb c comma) eqn:E; [by constructor|].
  apply Ascii.eqb_neq in E.
  destruct (split comma s) as [|w ws]; [by repeat constructor|].
  apply Forall_cons in IH as [Hw Hws]. by repeat constructor.
Qed.

Lemma split_of_comma_free (s : string) : comma_free s → split comma s = [s].
Proof.
  induction s as [|c s IH]; [done|]. intros [Hc Hs]. cbn [split].
  apply Ascii.eqb_neq in Hc. rewrite Hc, (IH Hs). done.
Qed.

Lemma split_app_comma (s rest : string) :
  comma_free s →
  split comma (s ++ String comma rest) = s :: split comma rest.
Proof.
  induction s as [|c s IH]; intros Hs.
  - reflexivity.
  - destruct Hs as [Hc Hs].
    change (String c s +:+ String comma rest)
      with (String c (s +:+ String comma rest)).
    cbn [split]. apply Ascii.eqb_neq in Hc. by rewrite Hc, (IH Hs).
Qed.

Lemma split_concat (tags : list string) :
  tags ≠ [] → Forall comma_free tags → split comma (String.concat "," tags) = tags.
Proof.
  induction tags as [|x tags IH]; [done|]. intros _ Hfree.
  apply Forall_cons in Hfree as [Hx Hfree].
  destruct tags as [|y tags]; [by apply split_of_comma_free|].
  cbn [String.concat]. change ("," ++ ?r)%string with (String comma r).
  rewrite split_app_comma by done. f_equal. by apply IH.
Qed.

(** X19: tags written with [','.join] are read back unchanged by
    [split(',') if tags else []], provided no tag contains a comma and the
    list is not the single empty tag. *)
Theorem tags_round_trip (tags : list string) :
  Forall comma_free tags → tags ≠ [""%string] →
  tags_of_column (Some (tags_column tags)) = tags.
Proof.
  intros Hfree Hne. unfold tags_of_column, tags_column.
  destruct tags as [|x tags]; [done|].
  pose proof (split_concat (x :: tags) ltac:(done) Hfree) as Hsplit.
  destruct (String.concat "," (x :: tags)) as [|c s] eqn:Hjoin; [|done].
  cbn in Hsplit. congruence.
Qed.

Lemma tags_round_trip_witness :
  tags_of_column (Some (tags_column ["algebra"; "exam prep"; ""]%string))
  = ["algebra"; "exam prep"; ""]%string.
Proof.
  apply (tags_round_trip ["algebra"; "exam prep"; ""]%string).
  - repeat constructor; discriminate.
  - discriminate.
Defined.

(** The one list that does not survive: a single empty tag is stored as the
    empty string and read back as no tag. *)
Example single_empty_tag_is_lost :
  tags_of_column (Some (tags_column [""%string])) = [].
Proof. reflexivity. Qed.

(** X20: whatever the column holds, the tags read from it are free of commas and
    writing them back gives the column's text again; every non-empty text
    yields at least one tag. *)
Theorem column_round_trip (s : string) :
  tags_column (tags_of_column (Some s)) = s
  ∧ Forall comma_free (tags_of_column (Some s))
  ∧ (s ≠ ""%string → tags_of_column (Some s) ≠ []).
Proof.
  unfold tags_of_column, tags_column.
  destruct s as [|c s]; [by split_and!|]. cbn [truthy_str]. split_and!.
  - apply concat_split.
  - apply split_comma_free.
  - intros _. apply split_not_nil.
Qed.

(** * Sessions by day of week *)

Section by_day.
Abbreviation step :=
  (λ (formatted : list Z) (day : Z * Z),
     <[Z.to_nat ((day.1 - 2) `mod` 7) := day.2]> formatted).

Lemma by_day_length (rows : list (Z * Z)) (acc : list Z) :
  length (foldl step acc rows) = length acc.
Proof.
  revert acc. induction rows as [|row rows IH]; intros acc; [done|].
  cbn [foldl]. by rewrite IH, length_insert.
Qed.

Lemma by_day_lookup_other (rows : list (Z * Z)) (acc : list Z) (i : nat) :
  (∀ row, row ∈ rows → day_index row.1 ≠ i) →
  foldl step acc rows !! i = acc !! i.
Proof.
  revert acc. induction rows as [|row rows IH]; intros acc Hi; [done|].
  cbn [foldl]. rewrite IH by (intros r Hr; apply Hi; by right).
  apply list_lookup_insert_ne. apply (Hi row). left.
Qed.

Lemma by_day_lookup_elem (rows : list (Z * Z)) (acc : list Z) (d c : Z) :
  NoDup (day_index <$> rows.*1) → (d, c) ∈ rows → (day_index d < length acc)%nat →
  foldl step acc rows !! day_index d = Some c.
Proof.
  revert acc. induction rows as [|row rows IH]; intros acc Hnd Hin Hlen;
    [by apply elem_of_nil in Hin|].
  rewrite !fmap_cons in Hnd. apply NoDup_cons in Hnd as [Hrow Hnd].
  cbn [foldl]. apply elem_of_cons in Hin as [<- | Hin].
  - rewrite by_day_lookup_other.
    + by apply list_lookup_insert_eq.
    + intros r Hr Heq. apply Hrow. cbn. rewrite <- Heq.
      apply list_elem_of_fmap_2, list_elem_of_fmap_2, Hr.
  - apply IH; [done | done | by rewrite length_insert].
Qed.
End by_day.

Lemma day_index_lt (d : Z) : (day_index d < 7)%nat.
Proof. unfold day_index. pose proof (Z.mod_pos_bound (d - 2) 7). lia. Qed.

Lemma day_index_inj (d d' : Z) :
  1 ≤ d ≤ 7 → 1 ≤ d' ≤ 7 → day_index d = day_index d' → d = d'.
Proof.
  unfold day_index. intros Hd Hd' Heq.
  apply Z2Nat.inj in Heq; [|apply Z.mod_pos_bound; lia..].
  Z.div_mod_to_equations. lia.
Qed.

(** Under the numbering 1 = Sunday to 7 = Saturday the slot of a day carries
    that day's name. *)
Lemma day_index_name (d : Z) :
  1 ≤ d ≤ 7 → ∃ name, days !! day_index d = Some name ∧ dayofweek_name d = Some name.
Proof.
  intros Hd.
  assert (d = 1 ∨ d = 2 ∨ d = 3 ∨ d = 4 ∨ d = 5 ∨ d = 6 ∨ d = 7)
    as [-> | [-> | [-> | [-> | [-> | [-> | ->]]]]]] by lia;
    eexists; split; reflexivity.
Qed.

(** X21: for the rows of the grouped query (one row a day, day numbers 1 = Sunday
    to 7 = Saturday) the result has seven slots, Monday first: the count of
    each row sits in the slot named after its day, and the slot of a day
    without a row holds 0. *)
Theorem sessions_by_day_slots (sessions_by_day : list (Z * Z)) :
  NoDup sessions_by_day.*1 →
  (∀ d c, (d, c) ∈ sessions_by_day → 1 ≤ d ≤ 7) →
  length (sessions_by_day_formatted sessions_by_day) = length days
  ∧ (∀ d c, (d, c) ∈ sessions_by_day →
       ∃ i name, sessions_by_day_formatted sessions_by_day !! i = Some c
                 ∧ days !! i = Some name ∧ dayofweek_name d = Some name)
  ∧ (∀ d, 1 ≤ d ≤ 7 → d ∉ sessions_by_day.*1 →
       ∃ i name, sessions_by_day_formatted sessions_by_day !! i = Some 0
                 ∧ days !! i = Some name ∧ dayofweek_name d = Some name).
Proof.
  intros Hnd Hrange. unfold sessions_by_day_formatted.
  assert (Hidx : NoDup (day_index <$> sessions_by_day.*1)).
  { apply NoDup_fmap_2_strong; [|done].
    intros d d' Hd Hd' Heq.
    apply list_elem_of_fmap in Hd as ([d1 c1] & -> & Hd).
    apply list_elem_of_fmap in Hd' as ([d2 c2] & -> & Hd').
    apply day_index_inj; eauto. }
  split_and!.
  - by rewrite by_day_length.
  - intros d c Hin. destruct (day_index_name d (Hrange d c Hin)) as (name & Hn & Hm).
    exists (day_index d), name. split_and!; [|done|done].
    apply by_day_lookup_elem; [done | done |].
    rewrite length_replicate. apply day_index_lt.
  - intros d Hd Hout. destruct (day_index_name d Hd) as (name & Hn & Hm).
    exists (day_index d), name. split_and!; [|done|done].
    rewrite by_day_lookup_other.
    + apply lookup_replicate_2. apply day_index_lt.
    + intros [d' c'] Hrow Heq. apply Hout.
      apply day_index_inj in Heq; [|by eapply Hrange|done]. cbn in Heq.
      rewrite <- Heq. by apply (list_elem_of_fmap_2 fst) in Hrow.
Qed.

Lemma sessions_by_day_slots_witness :
  ∃ i name, sessions_by_day_formatted [(1, 4); (2, 9); (7, 1)] !! i = Some 4
            ∧ days !! i = Some name ∧ dayofweek_name 1 = Some name.
Proof.
  destruct (sessions_by_day_slots [(1, 4); (2, 9); (7, 1)]) as (_ & Hslot & _).
  - by apply (bool_decide_unpack _).
  - intros d c Hin. rewrite !elem_of_cons, elem_of_nil in Hin.
    destruct Hin as [[= -> ->] | [[= -> ->] | [[= -> ->] | []]]]; lia.
  - apply (Hslot 1 4). left.
Defined.

(** * Mood labels *)

Lemma Qle_bool_cases (a b : Q) :
  (Qle_bool a b = true ∧ (a <= b)%Q) ∨ (Qle_bool a b = false ∧ (b < a)%Q).
Proof.
  destruct (Qle_bool a b) eqn:E.
  - left. split; [done|]. by apply Qle_bool_iff.
  - right. split; [done|]. apply Qnot_le_lt. intros Hle.
    apply Qle_bool_iff in Hle. congruence.
Qed.

(** X22: the label of an average mood is the label of the nearest level from 1 to
    5, a half going to the lower, more stressed level. *)
Theorem average_mood_is_nearest_level (mood_level : Z) (avg_mood : Q) :
  1 ≤ mood_level ≤ 5 →
  (inject_Z mood_level - (1 # 2) < avg_mood <= inject_Z mood_level + (1 # 2))%Q →
  average_mood (Some avg_mood) = mood_text mood_level.
Proof.
  intros Hlevel [Hlo Hhi]. unfold average_mood.
  assert (mood_level = 1 ∨ mood_level = 2 ∨ mood_level = 3 ∨ mood_level = 4
          ∨ mood_level = 5) as [-> | [-> | [-> | [-> | ->]]]] by lia;
    unfold inject_Z in Hlo, Hhi;
    destruct (Qle_bool_cases avg_mood 1.5) as [[E1 H1] | [E1 H1]];
    destruct (Qle_bool_cases avg_mood 2.5) as [[E2 H2] | [E2 H2]];
    destruct (Qle_bool_cases avg_mood 3.5) as [[E3 H3] | [E3 H3]];
    destruct (Qle_bool_cases avg_mood 4.5) as [[E4 H4] | [E4 H4]];
    try (exfalso; lra);
    repeat first [rewrite E1 | rewrite E2 | rewrite E3 | rewrite E4];
    reflexivity.
Qed.

Lemma average_mood_is_nearest_level_witness :
  average_mood (Some 3.5%Q) = mood_text 3.
Proof.
  apply (average_mood_is_nearest_level 3 3.5%Q); [lia|]. split; [reflexivity | discriminate].
Defined.

(** * Email addresses *)

(** ** Matching by derivatives is matching *)

Lemma nullable_Matches (r : regex) : nullable r = true ↔ Matches r [].
Proof.
  split.
  - induction r as [| | p | r1 IH1 r2 IH2 | r1 IH1 r2 IH2 | r IH]; cbn; intros Hn;
      try done.
    + constructor.
    + apply andb_true_iff in Hn as [H1 H2].
      apply (Matches_cat r1 r2 [] []); auto.
    + apply orb_true_iff in Hn as [H1 | H2];
        [apply Matches_alt_l | apply Matches_alt_r]; auto.
    + constructor.
  - remember [] as s eqn:Hs. intros Hm.
    induction Hm as [| p c Hp | r1 r2 s1 s2 _ IH1 _ IH2 | r1 r2 s _ IH | r1 r2 s _ IH
                     | r | r s1 s2 _ _ _ _]; cbn; try done.
    + apply app_eq_nil in Hs as [-> ->]. by rewrite IH1, IH2.
    + by rewrite IH.
    + rewrite IH by done. apply orb_true_r.
Qed.

Lemma Matches_deriv_1 (c : Ascii.ascii) (r : regex) (s : list Ascii.ascii) :
  Matches (deriv c r) s → Matches r (c :: s).
Proof.
  revert s. induction r as [| | p | r1 IH1 r2 IH2 | r1 IH1 r2 IH2 | r IH];
    cbn; intros s Hm.
  - inversion Hm.
  - inversion Hm.
  - destruct (p c) eqn:Hp; inversion Hm; subst. by constructor.
  - destruct (nullable r1) eqn:Hn.
    + inversion Hm as [| | | ? ? ? Hl | ? ? ? Hr | |]; subst.
      * inversion Hl as [| | ? ? s1 s2 H1 H2 | | | |]; subst.
        apply (Matches_cat r1 r2 (c :: s1) s2); auto.
      * apply (Matches_cat r1 r2 [] (c :: s)); [by apply nullable_Matches | auto].
    + inversion Hm as [| | ? ? s1 s2 H1 H2 | | | |]; subst.
      apply (Matches_cat r1 r2 (c :: s1) s2); auto.
  - inversion Hm; subst; [apply Matches_alt_l | apply Matches_alt_r]; auto.
  - inversion Hm as [| | ? ? s1 s2 H1 H2 | | | |]; subst.
    apply (Matches_star_app r (c :: s1) s2); auto.
Qed.

Lemma Matches_deriv_2 (c : Ascii.ascii) (r : regex) (s : list Ascii.ascii) :
  Matches r (c :: s) → Matches (deriv c r) s.
Proof.
  remember (c :: s) as cs eqn:Hcs. intros Hm. revert s Hcs.
  induction Hm as [| p c' Hp | r1 r2 s1 s2 H1 IH1 H2 IH2 | r1 r2 s' _ IH
                   | r1 r2 s' _ IH | r | r s1 s2 H1 IH1 H2 IH2];
    intros s Hcs; cbn.
  - done.
  - injection Hcs as -> <-. rewrite Hp. constructor.
  - destruct s1 as [|c1 s1].
    + cbn in Hcs. subst s2. apply nullable_Matches in H1. rewrite H1.
      apply Matches_alt_r. by apply IH2.
    + injection Hcs as -> <-.
      assert (Matches (Cat (deriv c r1) r2) (s1 ++ s2)) as Hcat
        by (constructor; [by apply IH1 | done]).
      destruct (nullable r1); [by apply Matches_alt_l | done].
  - apply Matches_alt_l. by apply IH.
  - apply Matches_alt_r. by apply IH.
  - done.
  - destruct s1 as [|c1 s1].
    + cbn in Hcs. by apply IH2.
    + injection Hcs as -> <-. constructor; [by apply IH1 | done].
Qed.

Lemma fullmatch_Matches (r : regex) (s : list Ascii.ascii) :
  fullmatch r s = true ↔ Matches r s.
Proof.
  revert r. induction s as [|c s IH]; intros r; cbn.
  - apply nullable_Matches.
  - rewrite IH. split; [apply Matches_deriv_1 | apply Matches_deriv_2].
Qed.

(** ** What the operators of the pattern match *)

Lemma Matches_Cat (r1 r2 : regex) (s : list Ascii.ascii) :
  Matches (Cat r1 r2) s ↔ ∃ s1 s2, s = s1 ++ s2 ∧ Matches r1 s1 ∧ Matches r2 s2.
Proof.
  split.
  - intros Hm. inversion Hm; subst. eauto.
  - intros (s1 & s2 & -> & H1 & H2). by constructor.
Qed.

Lemma Matches_Class (p : Ascii.ascii → bool) (s : list Ascii.ascii) :
  Matches (Class p) s ↔ ∃ c, s = [c] ∧ p c = true.
Proof.
  split.
  - intros Hm. inversion Hm; subst. eauto.
  - intros (c & -> & Hp). by constructor.
Qed.

Lemma Matches_Star_Class (p : Ascii.ascii → bool) (s : list Ascii.ascii) :
  Matches (Star (Class p)) s ↔ Forall (λ c, p c = true) s.
Proof.
  split.
  - remember (Star (Class p)) as r eqn:Hr. intros Hm.
    induction Hm as [| | | | | r' | r' s1 s2 H1 _ H2 IH2]; try done.
    injection Hr as ->. apply Forall_app. split; [|by apply IH2].
    apply Matches_Class in H1 as (c & -> & Hp). by repeat constructor.
  - induction 1 as [|c s Hc _ IH]; [constructor|].
    apply (Matches_star_app (Class p) [c] s); [by constructor | done].
Qed.

Lemma Matches_Plus_Class (p : Ascii.ascii → bool) (s : list Ascii.ascii) :
  Matches (Plus (Class p)) s ↔ s ≠ [] ∧ Forall (λ c, p c = true) s.
Proof.
  unfold Plus. rewrite Matches_Cat. split.
  - intros (s1 & s2 & -> & H1 & H2).
    apply Matches_Class in H1 as (c & -> & Hp). apply Matches_Star_Class in H2.
    split; [done | by constructor].
  - intros [Hne Hall]. destruct Hall as [|c s Hc Hall]; [done|].
    exists [c], s. split_and!; [done | by constructor | by apply Matches_Star_Class].
Qed.

Lemma Matches_AtLeast2_Class (p : Ascii.ascii → bool) (s : list Ascii.ascii) :
  Matches (AtLeast2 (Class p)) s ↔ (2 ≤ length s)%nat ∧ Forall (λ c, p c = true) s.
Proof.
  unfold AtLeast2. rewrite Matches_Cat. split.
  - intros (s1 & s2 & -> & H1 & H2).
    apply Matches_Class in H1 as (c & -> & Hp).
    apply (Matches_Plus_Class p) in H2 as [Hne Hall].
    split; [destruct s2; [done | cbn; lia] | by constructor].
  - intros [Hlen Hall]. destruct Hall as [|c s Hc Hall]; [cbn in Hlen; lia|].
    exists [c], s. split_and!; [done | by constructor |].
    apply (Matches_Plus_Class p). split; [|done].
    destruct s; [cbn in Hlen; lia | done].
Qed.

(** ** The addresses [is_valid_email] accepts *)

(** The pattern, read off its operators. *)
Lemma pattern_parts (s : list Ascii.ascii) :
  Matches (Cat pattern (Alt Eps (Class (Ascii.eqb newline)))) s
  ↔ ∃ l d t nl,
      s = l ++ chr "@" :: d ++ chr "." :: t ++ nl
      ∧ l ≠ [] ∧ Forall (λ c, local_char c = true) l
      ∧ d ≠ [] ∧ Forall (λ c, domain_char c = true) d
      ∧ (2 ≤ length t)%nat ∧ Forall (λ c, letter c = true) t
      ∧ (nl = [] ∨ nl = [newline]).
Proof.
  unfold pattern. split.
  - intros Hm.
    apply Matches_Cat in Hm as (body & nl & -> & Hbody & Hnl).
    apply Matches_Cat in Hbody as (l & rest & -> & Hl & Hrest).
    apply Matches_Plus_Class in Hl as [Hl1 Hl2].
    apply Matches_Cat in Hrest as (a & rest' & -> & Ha & Hrest).
    apply Matches_Class in Ha as (ca & -> & Hca). apply Ascii.eqb_eq in Hca as <-.
    apply Matches_Cat in Hrest as (d & rest & -> & Hd & Hrest).
    apply Matches_Plus_Class in Hd as [Hd1 Hd2].
    apply Matches_Cat in Hrest as (dot & t & -> & Hdot & Ht).
    apply Matches_Class in Hdot as (cd & -> & Hcd). apply Ascii.eqb_eq in Hcd as <-.
    apply Matches_AtLeast2_Class in Ht as [Ht1 Ht2].
    exists l, d, t, nl. split_and!; try done.
    + by rewrite <- !app_assoc.
    + inversion Hnl as [| | | ? ? ? He | ? ? ? Hc | |]; subst.
      * inversion He. by left.
      * apply Matches_Class in Hc as (c & -> & Hc). apply Ascii.eqb_eq in Hc as <-.
        by right.
  - intros (l & d & t & nl & -> & Hl1 & Hl2 & Hd1 & Hd2 & Ht1 & Ht2 & Hnl).
    replace (l ++ chr "@" :: d ++ chr "." :: t ++ nl)
      with ((l ++ ([chr "@"] ++ (d ++ ([chr "."] ++ t)))) ++ nl)
      by (by rewrite <- !app_assoc).
    constructor.
    + constructor; [by apply Matches_Plus_Class|].
      constructor; [constructor; apply Ascii.eqb_refl|].
      constructor; [by apply Matches_Plus_Class|].
      constructor; [constructor; apply Ascii.eqb_refl|].
      by apply Matches_AtLeast2_Class.
    + destruct Hnl as [-> | ->]; [apply Matches_alt_l; constructor|].
      apply Matches_alt_r. constructor. apply Ascii.eqb_refl.
Qed.

(** X23: an address is accepted exactly when it reads [local @ domain . tld],
    possibly followed by one newline, where [local] and [domain] are not
    empty and made of the characters of their classes, and [tld] is made of
    two or more letters. *)
Theorem valid_email_shape (email : string) :
  is_valid_email email = true
  ↔ ∃ l d t nl,
      String.list_ascii_of_string email = l ++ chr "@" :: d ++ chr "." :: t ++ nl
      ∧ l ≠ [] ∧ Forall (λ c, local_char c = true) l
      ∧ d ≠ [] ∧ Forall (λ c, domain_char c = true) d
      ∧ (2 ≤ length t)%nat ∧ Forall (λ c, letter c = true) t
      ∧ (nl = [] ∨ nl = [newline]).
Proof.
  unfold is_valid_email. rewrite fullmatch_Matches. apply pattern_parts.
Qed.

(** The characters of the domain and of the letters are characters of the
    local part. *)
Lemma domain_char_local (c : Ascii.ascii) : domain_char c = true → local_char c = true.
Proof.
  unfold domain_char, local_char, one_of. cbn [String.list_ascii_of_string existsb].
  destruct (in_range "a" "z" c), (in_range "A" "Z" c), (in_range "0" "9" c); try done.
  cbn. intros H. apply orb_true_iff in H as [-> | H]; [done|].
  apply orb_true_iff in H as [-> | H]; [|done]. by rewrite !orb_true_r.
Qed.

Lemma letter_local (c : Ascii.ascii) : letter c = true → local_char c = true.
Proof.
  unfold letter, local_char. intros H. by rewrite H.
Qed.

Lemma filter_absent (p : Ascii.ascii → bool) (a : Ascii.ascii) (l : list Ascii.ascii) :
  p a = false → Forall (λ c, p c = true) l → filter (λ c, c = a) l = [].
Proof.
  intros Ha Hall. apply filter_none. intros c Hc ->.
  apply (proj1 (Forall_forall _ _) Hall) in Hc. congruence.
Qed.

(** X24: an accepted address has exactly one [@], at least six characters, and,
    apart from the [@] and a final newline, only characters of the local
    class: letters, digits and [._%+-]. *)
Theorem valid_email_has_one_at (email : string) :
  is_valid_email email = true →
  length (filter (λ c, c = chr "@") (String.list_ascii_of_string email)) = 1%nat
  ∧ (6 ≤ length (String.list_ascii_of_string email))%nat
  ∧ Forall (λ c, local_char c = true ∨ c = chr "@" ∨ c = newline)
           (String.list_ascii_of_string email).
Proof.
  intros Hvalid.
  unfold is_valid_email in Hvalid. rewrite fullmatch_Matches in Hvalid.
  apply pattern_parts in Hvalid
    as (l & d & t & nl & -> & Hl1 & Hl2 & Hd1 & Hd2 & Ht1 & Ht2 & Hnl).
  assert (Forall (λ c, local_char c = true) d) as Hd3
    by (eapply Forall_impl; [exact Hd2 | apply domain_char_local]).
  assert (Forall (λ c, local_char c = true) t) as Ht3
    by (eapply Forall_impl; [exact Ht2 | apply letter_local]).
  split_and!.
  - rewrite filter_app, filter_cons_True by done.
    rewrite filter_app, filter_cons_False by done.
    rewrite filter_app.
    rewrite (filter_absent local_char _ l), (filter_absent local_char _ d),
      (filter_absent local_char _ t) by done.
    destruct Hnl as [-> | ->]; [done|].
    by rewrite filter_cons_False.
  - rewrite length_app. cbn [length]. rewrite length_app. cbn [length].
    rewrite length_app.
    destruct l; [done|]. destruct d; [done|]. cbn [length]. lia.
  - apply Forall_app. split; [eapply Forall_impl; [exact Hl2 | by left]|].
    constructor; [by right; left|].
    apply Forall_app. split; [eapply Forall_impl; [exact Hd3 | by left]|].
    constructor; [by left|].
    apply Forall_app. split; [eapply Forall_impl; [exact Ht3 | by left]|].
    destruct Hnl as [-> | ->]; [constructor|].
    constructor; [by right; right | constructor].
Qed.

Lemma valid_email_has_one_at_witness :
  length (filter (λ c, c = chr "@")
            (String.list_ascii_of_string "test@example.com")) = 1%nat
  ∧ (6 ≤ length (String.list_ascii_of_string "test@example.com"))%nat
  ∧ Forall (λ c, local_char c = true ∨ c = chr "@" ∨ c = newline)
           (String.list_ascii_of_string "test@example.com").
Proof. apply (valid_email_has_one_at "test@example.com"). reflexivity. Defined.
